(** * Hotkey-driven recording-session controller of the Jarvis main process

    Shallow embedding of the key handling in [src/main.ts]:
    [handleHotkeyDown], [handleHotkeyUp], [stopPushToTalk],
    [startHotkeyMonitoring] and [stopHotkeyMonitoring], together with the
    module-level variables they read and write.

    The handlers are [async] functions.  Each one is embedded as the
    synchronous segment that runs when it is called; wherever the source
    suspends ([await], [.then]/[.catch], [setImmediate], [setTimeout]) the
    segment leaves a continuation in the world, and the event loop resumes
    it later, possibly after other key events have been handled.

    Around the handlers the development also embeds their callers
    [restartHotkeyMonitoring] (SettingsIPCHandlers) and
    [deactivateOverlaysAndShortcuts], and, from the AssistantProcessor
    class, the keyword test of [processWithAssistantDetection] and
    [isVisionQuery], over strings given by their UTF-16 code units. *)

From Stdlib Require Import ZArith List Bool String Lia PeanoNat.
Import ListNotations.
Local Open Scope Z_scope.

(** ** Data *)

(** The fields of the [PushToTalkService] object that [main.ts] reads or
    writes, and the two constructor arguments taken from the settings. *)
Record PushToTalkService := mkService {
  active : bool;
  transcribing : bool;
  recordingStartTime : option Z;
  startedFromSingleTap : bool;
  isHandsFreeMode : bool;
  audioFeedbackEnabled : bool;
  streamingEnabled : bool }.

Definition set_active (v : bool) (s : PushToTalkService) : PushToTalkService :=
  mkService v (transcribing s) (recordingStartTime s) (startedFromSingleTap s)
            (isHandsFreeMode s) (audioFeedbackEnabled s) (streamingEnabled s).

Definition set_transcribing (v : bool) (s : PushToTalkService) : PushToTalkService :=
  mkService (active s) v (recordingStartTime s) (startedFromSingleTap s)
            (isHandsFreeMode s) (audioFeedbackEnabled s) (streamingEnabled s).

Definition set_recordingStartTime (v : option Z) (s : PushToTalkService)
  : PushToTalkService :=
  mkService (active s) (transcribing s) v (startedFromSingleTap s)
            (isHandsFreeMode s) (audioFeedbackEnabled s) (streamingEnabled s).

Definition set_startedFromSingleTap (v : bool) (s : PushToTalkService)
  : PushToTalkService :=
  mkService (active s) (transcribing s) (recordingStartTime s) v
            (isHandsFreeMode s) (audioFeedbackEnabled s) (streamingEnabled s).

Definition set_isHandsFreeMode (v : bool) (s : PushToTalkService)
  : PushToTalkService :=
  mkService (active s) (transcribing s) (recordingStartTime s)
            (startedFromSingleTap s) v (audioFeedbackEnabled s) (streamingEnabled s).

(** JavaScript truthiness of [recordingStartTime] (a number or null). *)
Definition truthy (t : option Z) : bool :=
  match t with
  | Some v => negb (v =? 0)
  | None => false
  end.

(** What the methods of the service do to the fields above.  The class is
    not part of [main.ts]; the controller is written against this
    interface and every theorem that takes a [Backend] holds for all of
    them. *)
Record Backend := mkBackend {
  construct : bool -> bool -> PushToTalkService;
  start_called : PushToTalkService -> PushToTalkService;
  start_settled : bool -> Z -> PushToTalkService -> PushToTalkService;
  stop_called : PushToTalkService -> PushToTalkService;
  stop_settled : bool -> Z -> PushToTalkService -> PushToTalkService;
  hardStop_done : PushToTalkService -> PushToTalkService }.

(** A browser window variable: null, a live window, or a destroyed one. *)
Inductive WindowState := Absent | Alive | Destroyed.

Definition is_alive (s : WindowState) : bool :=
  match s with Alive => true | _ => false end.

Definition non_null (s : WindowState) : bool :=
  match s with Absent => false | _ => true end.

(** An entry of [BrowserWindow.getAllWindows()]. *)
Record Win := mkWin { winId : nat; destroyed : bool }.

Inductive Target := Waveform | Dashboard | Window (id : nat).

Inductive Channel :=
  | PushToTalkStart
  | PushToTalkStop
  | PushToTalkCancel
  | DictationStart
  | DictationStop
  | TranscriptionComplete
  | RecordingStatus (recording : bool)
  | FnKeyStateChange (down : bool).

(** Everything the handlers do to the outside, in the order they do it. *)
Inductive Action :=
  | Send (t : Target) (c : Channel)
  | WaveformShow
  | CallStart
  | CallStop
  | CallHardStop
  | SetDictationMode (on : bool)
  | RecordJarvisUsage
  | KeyServiceStart (key : string)
  | KeyServiceStop
  | UnregisterAllShortcuts
  | NewPushToTalkService
  | RegisterService (name : string)
  | UpdateHotkeySetting (key : string)
  | StartSettled (ok : bool)
  | StopSettled (ok : bool).

(** Callbacks handed to [setImmediate]. *)
Inductive Immediate := ImmHardStop | ImmAuthDown | ImmAuthUp.

(** Callbacks handed to [setTimeout]. *)
Inductive Timer :=
  | TmSingleTap          (* 250 ms, end of handleHotkeyDown *)
  | TmAudioCleanup       (* 10 ms, awaited on the double-tap path *)
  | TmPendingReset       (* 100 ms, handleHotkeyUp *)
  | TmRestartMonitoring. (* 100 ms, startHotkeyMonitoring *)

(** Code waiting for a promise of the service to settle. *)
Inductive Cont :=
  | AfterHandsFreeStop    (* await pushToTalkService.stop(), hands-free exit *)
  | AfterHandsFreeStart   (* await pushToTalkService.start(), double tap *)
  | AfterSingleTapStart   (* start().then(..).catch(..), single tap *)
  | AfterStopPushToTalk   (* await pushToTalkService.stop() in stopPushToTalk *)
  | AfterMonitoringStop.  (* stop() in stopHotkeyMonitoring, promise dropped *)

Definition is_start (c : Cont) : bool :=
  match c with
  | AfterHandsFreeStart | AfterSingleTapStart => true
  | _ => false
  end.

(** "Fn key state tracking" variables. *)
Record Flags := mkFlags {
  lastFnKeyTime : Z;
  fnKeyPressed : bool;
  pendingSingleTapTimeout : option nat;
  isHandsFreeModeActive : bool;
  pendingHandsFreeStop : bool }.

(** Hotkey monitoring variables. *)
Record Monitor := mkMonitor {
  isHotkeyMonitoringActive : bool;
  lastActiveHotkey : option string;
  universalKeyService : option string }.

(** What the handlers read from the rest of the application. *)
Record Env := mkEnv {
  waveformWindow : WindowState;
  dashboardWindow : WindowState;
  allWindows : list Win;
  hotkey : string;
  showWaveform : bool;
  audioFeedback : bool;
  useDeepgramStreaming : bool;
  useLocalWhisper : bool;
  onboardingComplete : bool;
  isVoiceTutorialMode : bool;
  userNudgeService : bool;
  keyMonitorStarts : bool }.

Record World := mkWorld {
  flags : Flags;
  pushToTalkService : option PushToTalkService;
  serviceGen : nat;
  monitor : Monitor;
  env : Env;
  immediates : list Immediate;
  timers : list (nat * Timer);
  awaiting : list (nat * Cont);
  nextId : nat;
  log : list Action;
  uncaught : nat }.

(** *** Field updates *)

Definition set_lastFnKeyTime (v : Z) (f : Flags) : Flags :=
  mkFlags v (fnKeyPressed f) (pendingSingleTapTimeout f)
          (isHandsFreeModeActive f) (pendingHandsFreeStop f).

Definition set_fnKeyPressed (v : bool) (f : Flags) : Flags :=
  mkFlags (lastFnKeyTime f) v (pendingSingleTapTimeout f)
          (isHandsFreeModeActive f) (pendingHandsFreeStop f).

Definition set_pendingSingleTapTimeout (v : option nat) (f : Flags) : Flags :=
  mkFlags (lastFnKeyTime f) (fnKeyPressed f) v
          (isHandsFreeModeActive f) (pendingHandsFreeStop f).

Definition set_isHandsFreeModeActive (v : bool) (f : Flags) : Flags :=
  mkFlags (lastFnKeyTime f) (fnKeyPressed f) (pendingSingleTapTimeout f)
          v (pendingHandsFreeStop f).

Definition set_pendingHandsFreeStop (v : bool) (f : Flags) : Flags :=
  mkFlags (lastFnKeyTime f) (fnKeyPressed f) (pendingSingleTapTimeout f)
          (isHandsFreeModeActive f) v.

Definition set_hotkey (v : string) (e : Env) : Env :=
  mkEnv (waveformWindow e) (dashboardWindow e) (allWindows e) v
        (showWaveform e) (audioFeedback e) (useDeepgramStreaming e)
        (useLocalWhisper e) (onboardingComplete e) (isVoiceTutorialMode e)
        (userNudgeService e) (keyMonitorStarts e).

Definition upd_flags (g : Flags -> Flags) (w : World) : World :=
  mkWorld (g (flags w)) (pushToTalkService w) (serviceGen w) (monitor w) (env w)
          (immediates w) (timers w) (awaiting w) (nextId w) (log w) (uncaught w).

Definition set_service (v : option PushToTalkService) (w : World) : World :=
  mkWorld (flags w) v (serviceGen w) (monitor w) (env w)
          (immediates w) (timers w) (awaiting w) (nextId w) (log w) (uncaught w).

Definition set_serviceGen (v : nat) (w : World) : World :=
  mkWorld (flags w) (pushToTalkService w) v (monitor w) (env w)
          (immediates w) (timers w) (awaiting w) (nextId w) (log w) (uncaught w).

Definition set_monitor (v : Monitor) (w : World) : World :=
  mkWorld (flags w) (pushToTalkService w) (serviceGen w) v (env w)
          (immediates w) (timers w) (awaiting w) (nextId w) (log w) (uncaught w).

Definition set_env (v : Env) (w : World) : World :=
  mkWorld (flags w) (pushToTalkService w) (serviceGen w) (monitor w) v
          (immediates w) (timers w) (awaiting w) (nextId w) (log w) (uncaught w).

Definition set_immediates (v : list Immediate) (w : World) : World :=
  mkWorld (flags w) (pushToTalkService w) (serviceGen w) (monitor w) (env w)
          v (timers w) (awaiting w) (nextId w) (log w) (uncaught w).

Definition set_timers (v : list (nat * Timer)) (w : World) : World :=
  mkWorld (flags w) (pushToTalkService w) (serviceGen w) (monitor w) (env w)
          (immediates w) v (awaiting w) (nextId w) (log w) (uncaught w).

Definition set_awaiting (v : list (nat * Cont)) (w : World) : World :=
  mkWorld (flags w) (pushToTalkService w) (serviceGen w) (monitor w) (env w)
          (immediates w) (timers w) v (nextId w) (log w) (uncaught w).

Definition set_nextId (v : nat) (w : World) : World :=
  mkWorld (flags w) (pushToTalkService w) (serviceGen w) (monitor w) (env w)
          (immediates w) (timers w) (awaiting w) v (log w) (uncaught w).

Definition set_log (v : list Action) (w : World) : World :=
  mkWorld (flags w) (pushToTalkService w) (serviceGen w) (monitor w) (env w)
          (immediates w) (timers w) (awaiting w) (nextId w) v (uncaught w).

Definition set_uncaught (v : nat) (w : World) : World :=
  mkWorld (flags w) (pushToTalkService w) (serviceGen w) (monitor w) (env w)
          (immediates w) (timers w) (awaiting w) (nextId w) (log w) v.

(** ** Primitive effects *)

Definition emit (a : Action) (w : World) : World :=
  set_log (log w ++ [a]) w.

(** [if (b) { a }]: the log grows by [a] or by nothing. *)
Definition emit_if (b : bool) (a : Action) (w : World) : World :=
  set_log (log w ++ (if b then [a] else [])) w.

(** [win?.webContents.send(ch)] *)
Definition send_opt (win : WindowState) (t : Target) (c : Channel) (w : World)
  : World :=
  emit_if (non_null win) (Send t c) w.

(** [setImmediate(cb)] *)
Definition setImmediate (cb : Immediate) (w : World) : World :=
  set_immediates (immediates w ++ [cb]) w.

(** [setTimeout(cb, ms)]; the handle is the value of [nextId] before. *)
Definition setTimeout (cb : Timer) (w : World) : World :=
  set_nextId (S (nextId w)) (set_timers (timers w ++ [(nextId w, cb)]) w).

(** [clearTimeout(h)] *)
Definition clearTimeout (h : nat) (w : World) : World :=
  set_timers (filter (fun p => negb (Nat.eqb (fst p) h)) (timers w)) w.

(** A promise returned by the current service object is outstanding and
    [c] runs when it settles. *)
Definition await (c : Cont) (w : World) : World :=
  set_awaiting (awaiting w ++ [(serviceGen w, c)]) w.

(** An error that no handler catches. *)
Definition throw (w : World) : World :=
  set_uncaught (S (uncaught w)) w.

Definition upd_service (g : PushToTalkService -> PushToTalkService) (w : World)
  : World :=
  match pushToTalkService w with
  | Some s => set_service (Some (g s)) w
  | None => w
  end.

(** [windows.forEach(w => if (w && !w.isDestroyed()) ...)] *)
Fixpoint forEachWindow (ws : list Win) (chs : list Channel) (w : World) : World :=
  match ws with
  | [] => w
  | x :: rest =>
      let w1 :=
        if destroyed x then w
        else fold_left (fun acc c => emit (Send (Window (winId x)) c) acc) chs w in
      forEachWindow rest chs w1
  end.

(** ** The handlers *)

Section Controller.

Variable B : Backend.

(** Shorthands for the module-level variables. *)
Definition lastPress (w : World) : Z := lastFnKeyTime (flags w).
Definition handsFree (w : World) : bool := isHandsFreeModeActive (flags w).
Definition pendingStop (w : World) : bool := pendingHandsFreeStop (flags w).

(** [pushToTalkService?.active || pushToTalkService?.transcribing] *)
Definition serviceBusy (w : World) : bool :=
  match pushToTalkService w with
  | Some s => active s || transcribing s
  | None => false
  end.

(** [pushToTalkService.start()]: the call is made, the promise is
    outstanding, [c] runs when it settles. *)
Definition callStart (c : Cont) (w : World) : World :=
  await c (upd_service (start_called B) (emit CallStart w)).

(** [pushToTalkService.stop()] *)
Definition callStop (c : Cont) (w : World) : World :=
  await c (upd_service (stop_called B) (emit CallStop w)).

(** [pushToTalkService.hardStop()] *)
Definition callHardStop (w : World) : World :=
  upd_service (hardStop_done B) (emit CallHardStop w).

(** [stopPushToTalk], up to its [await]. *)
Definition stopPushToTalk (w : World) : World :=
  match pushToTalkService w with
  | Some _ => callStop AfterStopPushToTalk w
  | None => w
  end.

(** handleHotkeyDown, "IMMEDIATE UI FEEDBACK". *)
Definition immediateFeedback (w : World) : World :=
  if is_alive (waveformWindow (env w)) then
    let w1 := emit_if (showWaveform (env w)) WaveformShow w in
    let w2 := emit (Send Waveform PushToTalkStart) w1 in
    let w3 := emit (Send Waveform (RecordingStatus true)) w2 in
    if is_alive (dashboardWindow (env w)) then
      emit (Send Dashboard (RecordingStatus true))
           (emit (Send Dashboard (FnKeyStateChange true)) w3)
    else w3
  else w.

(** handleHotkeyDown, hands-free branch, from "Update UI to show hands-free
    mode has ended" to its [return]. *)
Definition handsFreeExitTail (w : World) : World :=
  let w1 := send_opt (waveformWindow (env w)) Waveform DictationStop w in
  let w2 := emit (SetDictationMode false) w1 in
  let w3 := emit_if (userNudgeService (env w)) RecordJarvisUsage w2 in
  let w4 := upd_flags (set_lastFnKeyTime 0) w3 in
  upd_flags (set_pendingHandsFreeStop false) w4.

(** handleHotkeyDown, [if (isHandsFreeModeActive) { ... }]. *)
Definition handsFreeExit (w : World) : World :=
  if pendingStop w then w
  else
    let w1 := upd_flags (set_pendingHandsFreeStop true) w in
    let w2 := upd_flags (set_isHandsFreeModeActive false) w1 in
    match pushToTalkService w2 with
    | Some s =>
        if active s || transcribing s then callStop AfterHandsFreeStop w2
        else handsFreeExitTail (upd_service (set_isHandsFreeMode false) w2)
    | None => handsFreeExitTail w2
    end.

(** handleHotkeyDown, "Clear any pending single-tap processing". *)
Definition clearPendingSingleTap (w : World) : World :=
  match pendingSingleTapTimeout (flags w) with
  | Some h => upd_flags (set_pendingSingleTapTimeout None) (clearTimeout h w)
  | None => w
  end.

(** handleHotkeyDown, double-tap branch, from "Record Jarvis usage" to the
    [await pushToTalkService.start()]. *)
Definition doubleTapEnter (w : World) : World :=
  let w1 := emit_if (userNudgeService (env w)) RecordJarvisUsage w in
  let w2 := upd_flags (set_isHandsFreeModeActive true) w1 in
  let w3 := upd_service (set_isHandsFreeMode true) w2 in
  let w4 := emit_if (showWaveform (env w) && is_alive (waveformWindow (env w)))
                    WaveformShow w3 in
  let w5 := send_opt (waveformWindow (env w)) Waveform DictationStart w4 in
  let w6 := upd_flags (set_lastFnKeyTime 0) w5 in
  match pushToTalkService w6 with
  | Some _ => callStart AfterHandsFreeStart w6
  | None => emit (SetDictationMode true) w6
  end.

(** [pushToTalkService?.active || pushToTalkService?.transcribing ||
     (pushToTalkService as any)?.startedFromSingleTap] *)
Definition liveSession (w : World) : bool :=
  match pushToTalkService w with
  | Some s => active s || transcribing s || startedFromSingleTap s
  | None => false
  end.

(** handleHotkeyDown, double-tap branch up to its first suspension. *)
Definition doubleTap (w : World) : World :=
  if liveSession w then
    let w1 := setImmediate ImmHardStop w in
    let w2 := send_opt (waveformWindow (env w)) Waveform PushToTalkCancel w1 in
    let w3 := send_opt (waveformWindow (env w)) Waveform TranscriptionComplete w2 in
    setTimeout TmAudioCleanup w3
  else doubleTapEnter w.

(** handleHotkeyDown, from "Update timing for this press" to the end. *)
Definition singleTap (currentTime : Z) (w : World) : World :=
  let w1 := upd_flags (set_lastFnKeyTime currentTime) w in
  let w2 := upd_flags (set_fnKeyPressed true) w1 in
  let w3 := send_opt (dashboardWindow (env w)) Dashboard (FnKeyStateChange true) w2 in
  let w4 := forEachWindow (allWindows (env w)) [FnKeyStateChange true] w3 in
  let w5 := setImmediate ImmAuthDown w4 in
  let w6 :=
    if negb (serviceBusy w5) then
      let a1 := emit_if (showWaveform (env w) && is_alive (waveformWindow (env w)))
                        WaveformShow w5 in
      let a2 := send_opt (waveformWindow (env w)) Waveform PushToTalkStart a1 in
      match pushToTalkService a2 with
      | Some _ =>
          callStart AfterSingleTapStart
                    (upd_service (set_startedFromSingleTap true) a2)
      | None => a2
      end
    else if serviceBusy w5 then
      let c1 := upd_service (set_active false) (callHardStop w5) in
      let c2 := send_opt (waveformWindow (env w)) Waveform PushToTalkCancel c1 in
      send_opt (waveformWindow (env w)) Waveform TranscriptionComplete c2
    else w5 in
  upd_flags (set_pendingSingleTapTimeout (Some (nextId w6)))
            (setTimeout TmSingleTap w6).

Definition handleHotkeyDown (currentTime : Z) (w : World) : World :=
  let timeSinceLastPress := currentTime - lastPress w in
  if pendingStop w then w
  else
    let w1 := immediateFeedback w in
    if handsFree w1 then handsFreeExit w1
    else
      let w2 := clearPendingSingleTap w1 in
      if (0 <? lastPress w2) && (timeSinceLastPress <? 600)
         && (20 <? timeSinceLastPress)
      then doubleTap w2
      else singleTap currentTime w2.

(** handleHotkeyUp, "INSTANT UI UPDATE". *)
Definition releaseFeedback (w : World) : World :=
  if is_alive (waveformWindow (env w)) then
    emit (Send Waveform (RecordingStatus false))
         (emit (Send Waveform PushToTalkStop) w)
  else w.

Definition handleHotkeyUp (w : World) : World :=
  let w1 := upd_flags (set_fnKeyPressed false) w in
  let w2 := releaseFeedback w1 in
  let w3 := send_opt (dashboardWindow (env w)) Dashboard (FnKeyStateChange false) w2 in
  let w4 := forEachWindow (allWindows (env w))
                          [FnKeyStateChange false; RecordingStatus false] w3 in
  let w5 := setImmediate ImmAuthUp w4 in
  let w6 := upd_service (set_startedFromSingleTap false) w5 in
  if handsFree w6 || pendingStop w6 then
    if pendingStop w6 then setTimeout TmPendingReset w6 else w6
  else
    match pushToTalkService w6 with
    | Some s =>
        if active s && truthy (recordingStartTime s) then
          stopPushToTalk
            (send_opt (waveformWindow (env w)) Waveform PushToTalkStop w6)
        else w6
    | None => w6
    end.

(** ** Hotkey monitoring *)

Definition stopHotkeyMonitoring (w : World) : World :=
  let w1 :=
    match universalKeyService (monitor w) with
    | Some _ =>
        set_monitor (mkMonitor (isHotkeyMonitoringActive (monitor w))
                               (lastActiveHotkey (monitor w)) None)
                    (emit KeyServiceStop w)
    | None => w
    end in
  let w2 := emit UnregisterAllShortcuts w1 in
  let w3 :=
    match pushToTalkService w2 with
    | Some s => if active s then callStop AfterMonitoringStop w2 else w2
    | None => w2
    end in
  set_service None w3.

Definition supportedKey (k : string) : bool :=
  String.eqb k "fn" || String.eqb k "option" || String.eqb k "control".

Definition sameHotkey (k : string) (last : option string) : bool :=
  match last with
  | Some l => String.eqb k l
  | None => false
  end.

Definition isSome {A : Type} (o : option A) : bool :=
  match o with Some _ => true | None => false end.

(** The guard at the top of startHotkeyMonitoring. *)
Definition alreadyMonitoring (w : World) : bool :=
  isHotkeyMonitoringActive (monitor w)
  && isSome (universalKeyService (monitor w))
  && sameHotkey (hotkey (env w)) (lastActiveHotkey (monitor w)).

Definition startHotkeyMonitoring (w : World) : World :=
  let currentHotkey := hotkey (env w) in
  if alreadyMonitoring w then w
  else
    let w1 := if isHotkeyMonitoringActive (monitor w)
              then stopHotkeyMonitoring w else w in
    let shouldUseStreaming :=
      useDeepgramStreaming (env w) && negb (useLocalWhisper (env w)) in
    let w2 := set_serviceGen (S (serviceGen w1))
                (set_service
                   (Some (construct B (audioFeedback (env w)) shouldUseStreaming))
                   (emit NewPushToTalkService w1)) in
    let w3 := emit (RegisterService "audio-monitoring") w2 in
    if supportedKey currentHotkey then
      let w4 := emit (KeyServiceStart currentHotkey) w3 in
      if keyMonitorStarts (env w) then
        set_monitor (mkMonitor true (Some currentHotkey) (Some currentHotkey))
                    (emit (RegisterService "key-monitoring") w4)
      else
        set_monitor (mkMonitor (isHotkeyMonitoringActive (monitor w4))
                               (lastActiveHotkey (monitor w4)) None) w4
    else
      setTimeout TmRestartMonitoring
        (set_env (set_hotkey "fn" (env w3)) (emit (UpdateHotkeySetting "fn") w3)).

(** ** The event loop *)

(** The callbacks passed to [setImmediate]. *)
Definition runImmediate (cb : Immediate) (w : World) : World :=
  match cb with
  | ImmHardStop =>
      match pushToTalkService w with
      | Some _ =>
          upd_service (set_startedFromSingleTap false)
            (upd_service (set_active false) (callHardStop w))
      | None => w
      end
  | ImmAuthDown =>
      if isVoiceTutorialMode (env w) then w
      else if negb (onboardingComplete (env w))
           then send_opt (waveformWindow (env w)) Waveform PushToTalkStart w
           else w
  | ImmAuthUp => w
  end.

(** The callbacks passed to [setTimeout]. *)
Definition fireTimer (cb : Timer) (w : World) : World :=
  match cb with
  | TmSingleTap => upd_flags (set_pendingSingleTapTimeout None) w
  | TmAudioCleanup => doubleTapEnter w
  | TmPendingReset => upd_flags (set_pendingHandsFreeStop false) w
  | TmRestartMonitoring => startHotkeyMonitoring w
  end.

(** What runs when a promise of the service settles. *)
Definition resume (c : Cont) (ok : bool) (w : World) : World :=
  match c with
  | AfterHandsFreeStop =>
      if ok then
        match pushToTalkService w with
        | Some _ => handsFreeExitTail (upd_service (set_isHandsFreeMode false) w)
        | None => throw w
        end
      else throw w
  | AfterHandsFreeStart =>
      if ok then emit (SetDictationMode true) w
      else
        let w1 := upd_flags (set_isHandsFreeModeActive false) w in
        let w2 := upd_service (set_isHandsFreeMode false) w1 in
        let w3 := send_opt (waveformWindow (env w)) Waveform DictationStop w2 in
        emit (SetDictationMode true) w3
  | AfterSingleTapStart =>
      if ok then w
      else send_opt (waveformWindow (env w)) Waveform PushToTalkCancel w
  | AfterStopPushToTalk => w
  | AfterMonitoringStop => if ok then w else throw w
  end.

Fixpoint remove_nth {A : Type} (k : nat) (l : list A) : list A :=
  match k, l with
  | _, [] => []
  | O, _ :: rest => rest
  | S k', x :: rest => x :: remove_nth k' rest
  end.

Fixpoint find_timer (h : nat) (l : list (nat * Timer)) : option Timer :=
  match l with
  | [] => None
  | (h', cb) :: rest => if Nat.eqb h' h then Some cb else find_timer h rest
  end.

(** The [k]-th outstanding promise settles at time [t]. *)
Definition settle (k : nat) (ok : bool) (t : Z) (w : World) : World :=
  match nth_error (awaiting w) k with
  | None => w
  | Some (gen, c) =>
      let w1 := set_awaiting (remove_nth k (awaiting w)) w in
      let w2 := emit (if is_start c then StartSettled ok else StopSettled ok) w1 in
      let w3 :=
        if Nat.eqb gen (serviceGen w2) then
          upd_service (if is_start c then start_settled B ok t
                       else stop_settled B ok t) w2
        else w2 in
      resume c ok w3
  end.

Inductive Event :=
  | KeyDown (t : Z)
  | KeyUp
  | RunImmediate
  | FireTimer (h : nat)
  | Settle (k : nat) (ok : bool) (t : Z)
  | StartMonitoring
  | StopMonitoring.

Definition step (e : Event) (w : World) : World :=
  match e with
  | KeyDown t => handleHotkeyDown t w
  | KeyUp => handleHotkeyUp w
  | RunImmediate =>
      match immediates w with
      | [] => w
      | cb :: rest => runImmediate cb (set_immediates rest w)
      end
  | FireTimer h =>
      match find_timer h (timers w) with
      | Some cb => fireTimer cb (clearTimeout h w)
      | None => w
      end
  | Settle k ok t => settle k ok t w
  | StartMonitoring => startHotkeyMonitoring w
  | StopMonitoring => stopHotkeyMonitoring w
  end.

Definition run (es : list Event) (w : World) : World :=
  fold_left (fun acc e => step e acc) es w.

End Controller.

(** ** Reading the log *)

Definition Channel_eqb (a b : Channel) : bool :=
  match a, b with
  | PushToTalkStart, PushToTalkStart
  | PushToTalkStop, PushToTalkStop
  | PushToTalkCancel, PushToTalkCancel
  | DictationStart, DictationStart
  | DictationStop, DictationStop
  | TranscriptionComplete, TranscriptionComplete => true
  | RecordingStatus x, RecordingStatus y => Bool.eqb x y
  | FnKeyStateChange x, FnKeyStateChange y => Bool.eqb x y
  | _, _ => false
  end.

(** [a] is a notification on channel [c], to any window. *)
Definition sends (c : Channel) (a : Action) : bool :=
  match a with
  | Send _ c' => Channel_eqb c c'
  | _ => false
  end.

Definition isCallStart (a : Action) : bool :=
  match a with CallStart => true | _ => false end.

Definition isCallStop (a : Action) : bool :=
  match a with CallStop => true | _ => false end.

Definition isCallHardStop (a : Action) : bool :=
  match a with CallHardStop => true | _ => false end.

Definition count (p : Action -> bool) (l : list Action) : nat :=
  List.length (filter p l).

(** What a [forEach] over the windows sends. *)
Definition windowMessages (ws : list Win) (chs : list Channel) : list Action :=
  flat_map (fun x => if destroyed x then []
                     else map (fun c => Send (Window (winId x)) c) chs) ws.

(** The notifications handleHotkeyUp sends before it looks at the service
    or at the hands-free variables. *)
Definition keyUpNotifications (e : Env) : list Action :=
  (if is_alive (waveformWindow e)
   then [Send Waveform PushToTalkStop; Send Waveform (RecordingStatus false)]
   else [])
  ++ (if non_null (dashboardWindow e)
      then [Send Dashboard (FnKeyStateChange false)] else [])
  ++ windowMessages (allWindows e) [FnKeyStateChange false; RecordingStatus false].

(** Session bookkeeping over the log: a session is opened by every
    [start()] the controller issues; it is over as soon as the controller
    issues [stop()] or [hardStop()], or the start is reported failed.
    [overlapping open l] tells whether [l] issues a [start()] while a
    session is open. *)
Fixpoint overlapping (open : bool) (l : list Action) : bool :=
  match l with
  | [] => false
  | CallStart :: rest => if open then true else overlapping true rest
  | CallStop :: rest | CallHardStop :: rest | StartSettled false :: rest =>
      overlapping false rest
  | _ :: rest => overlapping open rest
  end.

(** ** A reference backend and a reference world *)

(** Modelled from the spec: the [PushToTalkService] class (the
    RecordingBackend) is not in [main.ts].  [start()] reports [active] and a
    start time once it has succeeded; graceful [stop()] ends capture and
    hands over to transcription, which is over when the promise settles;
    [hardStop()] aborts at once and returns to idle. *)
Definition ideal : Backend :=
  mkBackend
    (fun fb st => mkService false false None false false fb st)
    (fun s => s)
    (fun ok t s => if ok then set_recordingStartTime (Some t) (set_active true s)
                   else s)
    (fun s => set_transcribing true (set_active false s))
    (fun _ _ s => set_recordingStartTime None (set_transcribing false s))
    (fun s => set_recordingStartTime None
                (set_transcribing false (set_active false s))).

(** The variables as [main.ts] initialises them. *)
Definition initial (e : Env) : World :=
  mkWorld (mkFlags 0 false None false false) None 0
          (mkMonitor false None None) e [] [] [] 0 [] 0.

Definition demoEnv : Env :=
  mkEnv Alive Alive [mkWin 1 false; mkWin 2 true; mkWin 3 false]
        "fn" true true false false true false true true.

(** The application after [startHotkeyMonitoring] has run once. *)
Definition ready : World := startHotkeyMonitoring ideal (initial demoEnv).

(** ** Notions used in the statements *)

(** Where handleHotkeyUp goes on to the graceful stop. *)
Definition releaseDue (w : World) : bool :=
  negb (handsFree w || pendingStop w)
  && match pushToTalkService w with
     | Some s => active s && truthy (recordingStartTime s)
     | None => false
     end.

(** [pushToTalkService.active] and the truthiness of
    [pushToTalkService.recordingStartTime], false when there is no service. *)
Definition backendActive (w : World) : bool :=
  match pushToTalkService w with Some s => active s | None => false end.

Definition hasStartTime (w : World) : bool :=
  match pushToTalkService w with
  | Some s => truthy (recordingStartTime s)
  | None => false
  end.

(** The double-tap test of handleHotkeyDown,
    [lastFnKeyTime > 0 && timeSinceLastPress < 600 && timeSinceLastPress > 20]. *)
Definition doubleTapTest (t : Z) (w : World) : bool :=
  (0 <? lastPress w) && (t - lastPress w <? 600) && (20 <? t - lastPress w).

(** A key press at [t] falls in the double-tap window of the recorded one. *)
Definition inWindow (t : Z) (w : World) : Prop :=
  0 < lastPress w /\ 20 < t - lastPress w /\ t - lastPress w < 600.

(** What the "immediate UI feedback" block sends. *)
Definition downFeedback (e : Env) : list Action :=
  if is_alive (waveformWindow e) then
    (if showWaveform e then [WaveformShow] else [])
    ++ [Send Waveform PushToTalkStart; Send Waveform (RecordingStatus true)]
    ++ (if is_alive (dashboardWindow e)
        then [Send Dashboard (FnKeyStateChange true);
              Send Dashboard (RecordingStatus true)]
        else [])
  else [].

(** The fn-key-state-change broadcast of the single-tap path. *)
Definition tapBroadcast (e : Env) : list Action :=
  (if non_null (dashboardWindow e)
   then [Send Dashboard (FnKeyStateChange true)] else [])
  ++ windowMessages (allWindows e) [FnKeyStateChange true].

(** The two messages that follow a cancellation. *)
Definition cancelMessages (e : Env) : list Action :=
  if non_null (waveformWindow e)
  then [Send Waveform PushToTalkCancel; Send Waveform TranscriptionComplete]
  else [].

(** What doubleTapEnter does before it calls start(). *)
Definition enterMessages (e : Env) : list Action :=
  (if userNudgeService e then [RecordJarvisUsage] else [])
  ++ (if showWaveform e && is_alive (waveformWindow e) then [WaveformShow] else [])
  ++ (if non_null (waveformWindow e) then [Send Waveform DictationStart] else []).

(** The world in which handleHotkeyDown runs its double-tap test. *)
Definition prepared (w : World) : World :=
  clearPendingSingleTap (immediateFeedback w).

(** What the single-tap path sends before it calls start(). *)
Definition startFeedback (e : Env) : list Action :=
  (if showWaveform e && is_alive (waveformWindow e) then [WaveformShow] else [])
  ++ (if non_null (waveformWindow e) then [Send Waveform PushToTalkStart] else []).

(** A world in which a push-to-talk recording is running. *)
Definition recording : World :=
  run ideal [KeyDown 1000; RunImmediate; Settle 0 true 1001] ready.

(** The hands-free flag of the service object, when there is one. *)
Definition serviceHandsFree (w : World) : bool :=
  match pushToTalkService w with
  | Some s => isHandsFreeMode s
  | None => false
  end.

(** A world in which the first tap of a double tap has been handled. *)
Definition tapped : World := run ideal [KeyDown 1000; RunImmediate] ready.

(** What the end of the hands-free branch does. *)
Definition exitMessages (e : Env) : list Action :=
  (if non_null (waveformWindow e) then [Send Waveform DictationStop] else [])
  ++ [SetDictationMode false]
  ++ (if userNudgeService e then [RecordJarvisUsage] else []).

(** A world in hands-free mode with the recording running. *)
Definition dictating : World :=
  run ideal [KeyDown 1000; RunImmediate; KeyDown 1300; RunImmediate;
             FireTimer 1; Settle 1 true 1311] ready.

(** Timer handles in use are below the next handle to be given out. *)
Definition fresh_timers (w : World) : Prop :=
  Forall (fun p => (fst p < nextId w)%nat) (timers w).

(** While hands-free mode is on or a hands-free stop is pending, no key
    press is recorded. *)
Definition flags_inv (w : World) : Prop :=
  handsFree w = true \/ pendingStop w = true -> lastPress w = 0.

Definition Inv (w : World) : Prop := fresh_timers w /\ flags_inv w.

(** A key press that leaves the session alone: it does not switch to
    hands-free mode, and it neither stops nor starts a recording, at once
    or through a queued hard stop. *)
Definition leaves_session_alone (B : Backend) (t : Z) (w : World) : Prop :=
  let w' := handleHotkeyDown B t w in
  handsFree w' = handsFree w
  /\ count isCallHardStop (log w') = count isCallHardStop (log w)
  /\ count isCallStart (log w') = count isCallStart (log w)
  /\ count (sends PushToTalkCancel) (log w')
     = count (sends PushToTalkCancel) (log w)
  /\ ~ In ImmHardStop (immediates w').

(** An action that neither opens nor ends a session. *)
Definition neutral (a : Action) : bool :=
  match a with
  | CallStart | CallStop | CallHardStop | StartSettled false => false
  | _ => true
  end.

(** ** Further notions *)

(** [a] is a call to the service. *)
Definition isCall (a : Action) : bool :=
  match a with
  | CallStart | CallStop | CallHardStop => true
  | _ => false
  end.

(** The calls to the service in a log, in order. *)
Definition calls (l : list Action) : list Action := filter isCall l.

(** [a] turns dictation mode off. *)
Definition isDictationOff (a : Action) : bool :=
  match a with SetDictationMode false => true | _ => false end.

(** No restart of the monitoring is scheduled. *)
Definition no_restart_timer (w : World) : Prop :=
  Forall (fun p => snd p <> TmRestartMonitoring) (timers w).

(** There is no push-to-talk service and none is about to be created. *)
Definition unserviced (w : World) : Prop :=
  pushToTalkService w = None /\ no_restart_timer w.

(** Any event but a call of startHotkeyMonitoring. *)
Definition notStartMonitoring (e : Event) : bool :=
  match e with StartMonitoring => false | _ => true end.

(** ** Callers of the monitoring functions *)

(** SettingsIPCHandlers.restartHotkeyMonitoring, with the two callbacks
    main.ts registers through setHotkeyCallbacks: stopHotkeyMonitoring
    now, startHotkeyMonitoring from a timer. *)
Definition restartHotkeyMonitoring (B : Backend) (w : World) : World :=
  setTimeout TmRestartMonitoring (stopHotkeyMonitoring B w).

(** What deactivateOverlaysAndShortcuts does after its stop(). *)
Inductive OverlayAction := HideWaveform | HideSuggestion | DestroyNudgeService.

Definition set_userNudgeService (v : bool) (e : Env) : Env :=
  mkEnv (waveformWindow e) (dashboardWindow e) (allWindows e) (hotkey e)
        (showWaveform e) (audioFeedback e) (useDeepgramStreaming e)
        (useLocalWhisper e) (onboardingComplete e) (isVoiceTutorialMode e)
        v (keyMonitorStarts e).

(** Where a call of deactivateOverlaysAndShortcuts stands when it returns
    to the event loop: suspended at [await pushToTalkService.stop()], or
    finished, with what it did to the overlays. *)
Inductive Deactivation :=
  | AwaitingStop (w : World)
  | Deactivated (w : World) (overlay : list OverlayAction).

(** deactivateOverlaysAndShortcuts, up to its [await]; [suggestion] is the
    suggestion window variable. *)
Definition deactivateOverlaysAndShortcuts
           (B : Backend) (suggestion : WindowState) (w : World) : Deactivation :=
  let w1 := stopHotkeyMonitoring B w in
  let w2 := emit UnregisterAllShortcuts w1 in
  match pushToTalkService w2 with
  | Some _ => AwaitingStop (callStop B AfterStopPushToTalk w2)
  | None =>
      let hide1 := if is_alive (waveformWindow (env w2))
                   then [HideWaveform] else [] in
      let hide2 := if is_alive suggestion then [HideSuggestion] else [] in
      if userNudgeService (env w2) then
        Deactivated (set_env (set_userNudgeService false (env w2)) w2)
                    (hide1 ++ hide2 ++ [DestroyNudgeService])
      else Deactivated w2 (hide1 ++ hide2)
  end.

(** The streaming argument startHotkeyMonitoring gives the service. *)
Definition shouldUseStreaming (e : Env) : bool :=
  useDeepgramStreaming e && negb (useLocalWhisper e).

(** ** The single-tap timer *)

(** The variable [pendingSingleTapTimeout] against the timers that are
    outstanding: handles are unused or distinct, and a single-tap timer is
    outstanding exactly under the handle the variable holds. *)
Definition tap_timer (pto : option nat) (tms : list (nat * Timer)) (nid : nat)
  : Prop :=
  Forall (fun p => (fst p < nid)%nat) tms
  /\ NoDup (map fst tms)
  /\ forall h, In (h, TmSingleTap) tms <-> pto = Some h.

Definition tap_timer_inv (w : World) : Prop :=
  tap_timer (pendingSingleTapTimeout (flags w)) (timers w) (nextId w).

(** ** AssistantProcessor: keyword detection *)

(** A JavaScript string, as its UTF-16 code units. *)
Definition JsString := list N.

(** The code units of an ASCII literal. *)
Definition units (s : string) : JsString :=
  map Ascii.N_of_ascii (list_ascii_of_string s).

(** Regular expressions, as far as the patterns of the class need them. *)
Inductive Regex :=
  | Empty
  | Eps
  | Class (p : N -> bool)
  | Cat (r s : Regex)
  | Alt (r s : Regex)
  | Star (r : Regex).

Fixpoint nullable (r : Regex) : bool :=
  match r with
  | Empty => false
  | Eps => true
  | Class _ => false
  | Cat r s => nullable r && nullable s
  | Alt r s => nullable r || nullable s
  | Star _ => true
  end.

(** What is left of [r] after the code unit [c]. *)
Fixpoint deriv (c : N) (r : Regex) : Regex :=
  match r with
  | Empty => Empty
  | Eps => Empty
  | Class p => if p c then Eps else Empty
  | Cat r s => Alt (Cat (deriv c r) s) (if nullable r then deriv c s else Empty)
  | Alt r s => Alt (deriv c r) (deriv c s)
  | Star r => Cat (deriv c r) (Star r)
  end.

(** [/^r/.test(s)]: some prefix of [s] matches [r]. *)
Fixpoint test (r : Regex) (s : JsString) : bool :=
  nullable r
  || match s with
     | [] => false
     | c :: s' => test (deriv c r) s'
     end.

(** A lower-case ASCII letter in a pattern with the [i] flag: the letter
    or its upper-case form. *)
Definition letter (a : N) (c : N) : bool :=
  (N.eqb c a || N.eqb c (a - 32))%N.

Definition word_of_units (l : JsString) : Regex :=
  fold_right (fun a r => Cat (Class (letter a)) r) Eps l.

(** A lower-case literal in a pattern with the [i] flag. *)
Definition word (s : string) : Regex := word_of_units (units s).

(** [\s]: WhiteSpace and LineTerminator. *)
Definition whiteSpace (c : N) : bool :=
  ((9 <=? c) && (c <=? 13) || (c =? 32) || (c =? 160) || (c =? 5760)
   || (8192 <=? c) && (c <=? 8202) || (c =? 8232) || (c =? 8233)
   || (c =? 8239) || (c =? 8287) || (c =? 12288) || (c =? 65279))%N.

(** [[\s,.\-]] *)
Definition separator (c : N) : bool :=
  (whiteSpace c || (c =? 44) || (c =? 46) || (c =? 45))%N.

(** [/^(hey|hi|okay|ok)[\s,.\-]*jarvis/i] *)
Definition greetingPattern : Regex :=
  Cat (Alt (word "hey") (Alt (word "hi") (Alt (word "okay") (word "ok"))))
      (Cat (Star (Class separator)) (word "jarvis")).

(** [/^jarvis[\s,.\-]/i] *)
Definition namePattern : Regex := Cat (word "jarvis") (Class separator).

(** processWithAssistantDetection, [hasJarvisKeyword], from the local
    [normalizedText]. *)
Definition hasJarvisKeyword (normalizedText : JsString) : bool :=
  let firstPart := firstn 50 normalizedText in
  test greetingPattern firstPart || test namePattern firstPart.

(** [s.startsWith(k)] *)
Fixpoint startsWith (s k : JsString) {struct k} : bool :=
  match k, s with
  | [], _ => true
  | _ :: _, [] => false
  | a :: k', c :: s' => N.eqb c a && startsWith s' k'
  end.

(** [s.includes(k)] *)
Fixpoint includes (s k : JsString) : bool :=
  startsWith s k
  || match s with
     | [] => false
     | _ :: s' => includes s' k
     end.

Definition visionKeywords : list string :=
  ["screen"; "see on my screen"; "what do you see"; "analyze my screen";
   "screenshot"; "what's displayed"; "what's on screen"; "look at my screen";
   "see this"; "analyze this screen"; "what am i looking at"]%string.

(** isVisionQuery, from the local [lowerQuery]. *)
Definition isVisionQuery (lowerQuery : JsString) : bool :=
  existsb (fun keyword => includes lowerQuery (units keyword)) visionKeywords.

(** The greetings of the first pattern. *)
Definition greetings : list string := ["hey"; "hi"; "okay"; "ok"]%string.

(** ** Key presses in event-loop order *)



(** What may come between two key presses that are 20 ms apart or less:
    key releases, deferred callbacks and settling promises. *)
Definition betweenPresses (e : Event) : bool :=
  match e with
  | KeyUp | RunImmediate | Settle _ _ _ => true
  | _ => false
  end.

(** One complete tap: the recording started, the key was released, the
    stop went through and the single-tap timer ran out. *)
Definition tapDone : World :=
  run ideal [KeyDown 1000; RunImmediate; Settle 0 true 1001; KeyUp;
             RunImmediate; Settle 0 true 1100; FireTimer 0] ready.

(** ** Basic facts *)

Lemma count_app p l1 l2 : count p (l1 ++ l2) = (count p l1 + count p l2)%nat.
Proof. unfold count. now rewrite filter_app, length_app. Qed.

Lemma fold_emit_log (t : nat) (chs : list Channel) (w : World) :
  fold_left (fun acc c => emit (Send (Window t) c) acc) chs w
  = set_log (log w ++ map (fun c => Send (Window t) c) chs) w.
Proof.
  revert w. induction chs as [|c chs IH]; intro w; cbn.
  - rewrite app_nil_r. now destruct w.
  - rewrite IH. unfold emit, set_log; cbn. now rewrite <- app_assoc.
Qed.

Lemma forEachWindow_log (ws : list Win) (chs : list Channel) (w : World) :
  forEachWindow ws chs w = set_log (log w ++ windowMessages ws chs) w.
Proof.
  revert w. induction ws as [|x ws IH]; intro w; cbn.
  - rewrite app_nil_r. now destruct w.
  - rewrite IH. destruct (destroyed x); cbn.
    + reflexivity.
    + rewrite fold_emit_log. unfold set_log; cbn. now rewrite <- app_assoc.
Qed.

Lemma startHotkeyMonitoring_guard (B : Backend) (w : World) :
  alreadyMonitoring w = true -> startHotkeyMonitoring B w = w.
Proof. intro H. unfold startHotkeyMonitoring. now rewrite H. Qed.

(** Splits a world into its variables so that the handlers compute. *)
Ltac open_world w :=
  let fl := fresh "fl" in
  let mo := fresh "mo" in
  let en := fresh "en" in
  destruct w as [fl ?svc ?gen mo en ?imm ?tms ?aws ?nid ?lg ?unc];
  destruct fl as [?last ?pressed ?pto ?hf ?pend];
  destruct mo as [?monActive ?monLast ?monKey];
  destruct en as [?wave ?dash ?wins ?hk ?sw ?fb ?dg ?lw ?onb ?tut ?nudge ?kms].

(** Unfolds the handlers down to the variables.  Call-by-value, so that a
    world is brought to constructor form before it is used. *)
Ltac compute_ctl :=
  cbv beta iota zeta delta
    [set_active set_transcribing set_recordingStartTime
     set_startedFromSingleTap set_isHandsFreeMode set_lastFnKeyTime
     set_fnKeyPressed set_pendingSingleTapTimeout set_isHandsFreeModeActive
     set_pendingHandsFreeStop set_hotkey upd_flags set_service set_serviceGen
     set_monitor set_env set_immediates set_timers set_awaiting set_nextId
     set_log set_uncaught emit emit_if send_opt setImmediate setTimeout
     clearTimeout await throw upd_service lastPress handsFree pendingStop
     serviceBusy callStart callStop callHardStop stopPushToTalk
     releaseFeedback
     immediateFeedback handsFreeExitTail handsFreeExit clearPendingSingleTap
     doubleTapEnter liveSession doubleTap singleTap handleHotkeyDown
     handleHotkeyUp stopHotkeyMonitoring alreadyMonitoring
     startHotkeyMonitoring runImmediate fireTimer resume settle step
     isSome sameHotkey is_start
     active transcribing recordingStartTime startedFromSingleTap
     isHandsFreeMode audioFeedbackEnabled streamingEnabled
     lastFnKeyTime fnKeyPressed pendingSingleTapTimeout
     isHandsFreeModeActive pendingHandsFreeStop
     isHotkeyMonitoringActive lastActiveHotkey universalKeyService
     waveformWindow dashboardWindow allWindows hotkey showWaveform
     audioFeedback useDeepgramStreaming useLocalWhisper onboardingComplete
     isVoiceTutorialMode userNudgeService keyMonitorStarts
     flags pushToTalkService serviceGen monitor env immediates timers
     awaiting nextId log uncaught
     andb orb negb fst snd] in *.

(** Case analysis on the conditions left in the goal. *)
Ltac split_ifs :=
  repeat match goal with
         | |- context [if ?c then _ else _] => destruct c
         end.

(** Brings a log built by successive appends into right-nested form. *)
Ltac norm_log :=
  repeat rewrite <- app_assoc; repeat rewrite app_nil_r; cbn [app].

Lemma startHotkeyMonitoring_twice (B : Backend) (w : World) :
  supportedKey (hotkey (env w)) = true ->
  keyMonitorStarts (env w) = true ->
  startHotkeyMonitoring B (startHotkeyMonitoring B w)
  = startHotkeyMonitoring B w.
Proof.
  intros Hk Hs.
  destruct (alreadyMonitoring w) eqn:G.
  - now rewrite !(startHotkeyMonitoring_guard B w G).
  - apply startHotkeyMonitoring_guard.
    unfold startHotkeyMonitoring. rewrite G, Hk, Hs.
    open_world w.
    destruct svc as [[a tr rst sf ihf afb str]|]; try destruct a;
      destruct monActive; destruct monKey;
      compute_ctl; apply String.eqb_refl.
Qed.

Lemma releaseFeedback_log (w : World) :
  releaseFeedback w
  = set_log (log w ++ (if is_alive (waveformWindow (env w))
                       then [Send Waveform PushToTalkStop;
                             Send Waveform (RecordingStatus false)]
                       else [])) w.
Proof.
  unfold releaseFeedback. open_world w. compute_ctl.
  destruct (is_alive wave); norm_log; reflexivity.
Qed.

Lemma handleHotkeyUp_log (B : Backend) (w : World) :
  log (handleHotkeyUp B w)
  = log w ++ keyUpNotifications (env w)
      ++ (if releaseDue w
          then (if non_null (waveformWindow (env w))
                then [Send Waveform PushToTalkStop] else []) ++ [CallStop]
          else []).
Proof.
  unfold handleHotkeyUp, releaseDue, keyUpNotifications.
  rewrite forEachWindow_log, releaseFeedback_log.
  open_world w.
  destruct svc as [[a tr rst sf ihf afb str]|], hf, pend;
    try destruct a; try destruct (truthy rst) eqn:Ht;
    compute_ctl; rewrite ?Ht; compute_ctl;
    norm_log; reflexivity.
Qed.

Lemma count_windowMessages_none (p : Action -> bool) (ws : list Win)
      (chs : list Channel) :
  (forall t c, In c chs -> p (Send (Window t) c) = false) ->
  count p (windowMessages ws chs) = 0%nat.
Proof.
  intro H. unfold count, windowMessages.
  induction ws as [|x ws IH]; cbn; [reflexivity|].
  rewrite filter_app, length_app, IH, Nat.add_0_r.
  destruct (destroyed x); [reflexivity|]. clear IH.
  induction chs as [|c chs IHc]; cbn; [reflexivity|].
  rewrite (H (winId x) c (or_introl eq_refl)).
  apply IHc. intros t c' Hin. apply H. now right.
Qed.

Lemma count_keyUpNotifications_stop (e : Env) :
  count isCallStop (keyUpNotifications e) = 0%nat.
Proof.
  unfold keyUpNotifications. rewrite !count_app.
  rewrite count_windowMessages_none by reflexivity.
  destruct (is_alive (waveformWindow e)), (non_null (dashboardWindow e));
    reflexivity.
Qed.

Lemma count_keyUpNotifications_ptt_stop (e : Env) :
  count (sends PushToTalkStop) (keyUpNotifications e)
  = if is_alive (waveformWindow e) then 1%nat else 0%nat.
Proof.
  unfold keyUpNotifications. rewrite !count_app.
  rewrite count_windowMessages_none.
  - destruct (is_alive (waveformWindow e)), (non_null (dashboardWindow e));
      reflexivity.
  - intros t c [<-|[<-|[]]]; reflexivity.
Qed.

Lemma In_windowMessages (ws : list Win) (chs : list Channel) (x : Win)
      (c : Channel) :
  In x ws -> destroyed x = false -> In c chs ->
  In (Send (Window (winId x)) c) (windowMessages ws chs).
Proof.
  intros Hx Hd Hc. unfold windowMessages. apply in_flat_map.
  exists x. split; [assumption|]. rewrite Hd. now apply in_map.
Qed.

Lemma releaseDue_spec (w : World) :
  releaseDue w
  = negb (handsFree w || pendingStop w) && (backendActive w && hasStartTime w).
Proof.
  unfold releaseDue, backendActive, hasStartTime.
  destruct (pushToTalkService w); reflexivity.
Qed.

(** ** Hotkey monitoring *)

(** C9.  Calling startHotkeyMonitoring while monitoring is active, the key
    service exists and the configured hotkey is the one being monitored
    changes nothing: no variable is written and nothing is done to the key
    service or to the push-to-talk service. *)
Theorem startHotkeyMonitoring_same_key_noop (B : Backend) (w : World) (k : string) :
  isHotkeyMonitoringActive (monitor w) = true ->
  universalKeyService (monitor w) = Some k ->
  lastActiveHotkey (monitor w) = Some (hotkey (env w)) ->
  startHotkeyMonitoring B w = w
  /\ log (startHotkeyMonitoring B w) = log w
  /\ pushToTalkService (startHotkeyMonitoring B w) = pushToTalkService w
  /\ monitor (startHotkeyMonitoring B w) = monitor w.
Proof.
  intros Ha Hk Hl.
  assert (E : startHotkeyMonitoring B w = w).
  { apply startHotkeyMonitoring_guard. unfold alreadyMonitoring.
    rewrite Ha, Hk, Hl. cbn. apply String.eqb_refl. }
  now rewrite E.
Qed.

Lemma startHotkeyMonitoring_same_key_noop_witness :
  startHotkeyMonitoring ideal ready = ready.
Proof.
  apply (startHotkeyMonitoring_same_key_noop ideal ready "fn"); reflexivity.
Defined.

(** ** Key release *)

(** C10.  Whatever the state of the session, of the hands-free variables
    and of the service, handleHotkeyUp first sends its stop notifications:
    with a live waveform window, push-to-talk-stop and recording-status
    false to it, and recording-status false to every open window.  When
    hands-free mode is on, a hands-free stop is pending, or nothing is
    recording, these are all it does, so they belong to no session. *)
Theorem handleHotkeyUp_notifies_first (B : Backend) (w : World) :
  is_alive (waveformWindow (env w)) = true ->
  exists more rest,
    log (handleHotkeyUp B w) = log w ++ keyUpNotifications (env w) ++ rest
    /\ keyUpNotifications (env w)
       = Send Waveform PushToTalkStop :: Send Waveform (RecordingStatus false)
           :: more
    /\ (forall x, In x (allWindows (env w)) -> destroyed x = false ->
          In (Send (Window (winId x)) (RecordingStatus false)) more)
    /\ (handsFree w = true -> rest = [])
    /\ (pendingStop w = true -> rest = [])
    /\ (backendActive w = false -> rest = []).
Proof.
  intro Hw.
  eexists. eexists. split; [apply handleHotkeyUp_log|].
  split; [unfold keyUpNotifications; rewrite Hw; reflexivity|].
  rewrite releaseDue_spec.
  split; [|repeat split; intros ->; cbn;
            rewrite ?orb_true_r, ?andb_false_r; reflexivity].
  intros x Hx Hd. apply in_or_app. right.
  apply In_windowMessages; cbn; auto.
Qed.

Lemma handleHotkeyUp_notifies_first_witness :
  exists more rest,
    log (handleHotkeyUp ideal ready)
    = log ready ++ keyUpNotifications demoEnv ++ rest
    /\ keyUpNotifications demoEnv
       = Send Waveform PushToTalkStop :: Send Waveform (RecordingStatus false)
           :: more
    /\ rest = [].
Proof.
  destruct (handleHotkeyUp_notifies_first ideal ready eq_refl)
    as (more & rest & H1 & H2 & _ & _ & _ & H6).
  exists more, rest. repeat split; [exact H1 | exact H2 | now apply H6].
Defined.

(** C7.  On key release with hands-free mode off and no hands-free stop
    pending, handleHotkeyUp calls the graceful stop() and sends the release
    push-to-talk-stop (the second one, after the one every key release
    sends) exactly when the service is active and has a recording start
    time.  Without a recording start time no stop() is issued, in any
    state. *)
Theorem handleHotkeyUp_stop_guard (B : Backend) (w : World) :
  (handsFree w = false -> pendingStop w = false ->
   waveformWindow (env w) = Alive ->
   (count isCallStop (log (handleHotkeyUp B w)) = S (count isCallStop (log w))
    /\ count (sends PushToTalkStop) (log (handleHotkeyUp B w))
       = S (S (count (sends PushToTalkStop) (log w))))
   <-> (backendActive w = true /\ hasStartTime w = true))
  /\ (hasStartTime w = false ->
      count isCallStop (log (handleHotkeyUp B w)) = count isCallStop (log w)).
Proof.
  rewrite handleHotkeyUp_log, !count_app, count_keyUpNotifications_stop,
    count_keyUpNotifications_ptt_stop, releaseDue_spec.
  split.
  - intros -> -> ->. cbn.
    destruct (backendActive w), (hasStartTime w); cbn; split;
      try (intros [H1 H2]; try lia; try discriminate; split; reflexivity; fail);
      try (intros [H1 H2]; discriminate);
      try (intros _; split; lia).
  - intros ->. rewrite !andb_false_r. cbn. lia.
Qed.

Lemma handleHotkeyUp_stop_guard_witness :
  count isCallStop (log (handleHotkeyUp ideal
                           (run ideal [KeyDown 1000; Settle 0 true 1001] ready)))
  = 1%nat.
Proof.
  pose proof (proj1 (handleHotkeyUp_stop_guard ideal
                       (run ideal [KeyDown 1000; Settle 0 true 1001] ready))
                eq_refl eq_refl eq_refl) as H.
  destruct (proj2 H (conj eq_refl eq_refl)) as [H1 _].
  exact H1.
Defined.

(** ** Key press: the branches of handleHotkeyDown *)

Lemma doubleTapTest_spec (t : Z) (w : World) :
  doubleTapTest t w = true <-> inWindow t w.
Proof.
  unfold doubleTapTest, inWindow.
  rewrite !andb_true_iff, !Z.ltb_lt. tauto.
Qed.

Lemma doubleTapTest_false (t : Z) (w : World) :
  doubleTapTest t w = false <-> ~ inWindow t w.
Proof.
  rewrite <- doubleTapTest_spec. destruct (doubleTapTest t w); split; congruence.
Qed.

Lemma immediateFeedback_log (w : World) :
  immediateFeedback w = set_log (log w ++ downFeedback (env w)) w.
Proof.
  unfold immediateFeedback, downFeedback. open_world w. compute_ctl.
  destruct (is_alive wave), sw, (is_alive dash); norm_log; reflexivity.
Qed.

Lemma prepared_fields (w : World) :
  log (prepared w) = log w ++ downFeedback (env w)
  /\ pushToTalkService (prepared w) = pushToTalkService w
  /\ env (prepared w) = env w
  /\ lastPress (prepared w) = lastPress w
  /\ handsFree (prepared w) = handsFree w
  /\ pendingStop (prepared w) = pendingStop w
  /\ immediates (prepared w) = immediates w
  /\ awaiting (prepared w) = awaiting w
  /\ nextId (prepared w) = nextId w
  /\ serviceGen (prepared w) = serviceGen w
  /\ uncaught (prepared w) = uncaught w.
Proof.
  unfold prepared. rewrite immediateFeedback_log.
  open_world w. destruct pto; compute_ctl; repeat split; reflexivity.
Qed.

Lemma handleHotkeyDown_dropped (B : Backend) (t : Z) (w : World) :
  pendingStop w = true -> handleHotkeyDown B t w = w.
Proof. intro H. unfold handleHotkeyDown. now rewrite H. Qed.

Lemma handleHotkeyDown_handsFree (B : Backend) (t : Z) (w : World) :
  pendingStop w = false -> handsFree w = true ->
  handleHotkeyDown B t w = handsFreeExit B (immediateFeedback w).
Proof.
  intros Hp Hh. unfold handleHotkeyDown. rewrite Hp.
  rewrite immediateFeedback_log.
  replace (handsFree (set_log _ w)) with (handsFree w) by now destruct w.
  now rewrite Hh.
Qed.

Lemma handleHotkeyDown_classified (B : Backend) (t : Z) (w : World) :
  pendingStop w = false -> handsFree w = false ->
  handleHotkeyDown B t w
  = if doubleTapTest t w then doubleTap B (prepared w)
    else singleTap B t (prepared w).
Proof.
  intros Hp Hh. unfold handleHotkeyDown. rewrite Hp.
  rewrite immediateFeedback_log.
  replace (handsFree (set_log _ w)) with (handsFree w) by now destruct w.
  rewrite Hh. fold (prepared w). unfold prepared.
  rewrite immediateFeedback_log. unfold doubleTapTest.
  replace (lastPress (clearPendingSingleTap _)) with (lastPress w);
    [reflexivity|].
  open_world w. destruct pto; reflexivity.
Qed.

Lemma singleTap_busy (B : Backend) (t : Z) (w : World) (s : PushToTalkService) :
  pushToTalkService w = Some s -> active s || transcribing s = true ->
  log (singleTap B t w)
  = log w ++ tapBroadcast (env w) ++ [CallHardStop] ++ cancelMessages (env w)
  /\ pushToTalkService (singleTap B t w)
     = Some (set_active false (hardStop_done B s))
  /\ handsFree (singleTap B t w) = handsFree w
  /\ pendingStop (singleTap B t w) = pendingStop w
  /\ lastPress (singleTap B t w) = t
  /\ awaiting (singleTap B t w) = awaiting w
  /\ immediates (singleTap B t w) = immediates w ++ [ImmAuthDown]
  /\ uncaught (singleTap B t w) = uncaught w.
Proof.
  intros Hs Hb. unfold singleTap, tapBroadcast, cancelMessages.
  rewrite forEachWindow_log.
  open_world w. cbn in Hs. subst svc. destruct s as [a tr rst sf ihf afb str].
  destruct a, tr; try discriminate Hb; compute_ctl;
    repeat split; try reflexivity; split_ifs; norm_log; reflexivity.
Qed.

Lemma singleTap_idle (B : Backend) (t : Z) (w : World) (s : PushToTalkService) :
  pushToTalkService w = Some s -> active s || transcribing s = false ->
  log (singleTap B t w)
  = log w ++ tapBroadcast (env w) ++ startFeedback (env w) ++ [CallStart]
  /\ pushToTalkService (singleTap B t w)
     = Some (start_called B (set_startedFromSingleTap true s))
  /\ handsFree (singleTap B t w) = handsFree w
  /\ pendingStop (singleTap B t w) = pendingStop w
  /\ lastPress (singleTap B t w) = t
  /\ awaiting (singleTap B t w) = awaiting w ++ [(serviceGen w, AfterSingleTapStart)]
  /\ immediates (singleTap B t w) = immediates w ++ [ImmAuthDown]
  /\ uncaught (singleTap B t w) = uncaught w
  /\ env (singleTap B t w) = env w
  /\ serviceGen (singleTap B t w) = serviceGen w.
Proof.
  intros Hs Hb. unfold singleTap, tapBroadcast, startFeedback.
  rewrite forEachWindow_log.
  open_world w. cbn in Hs. subst svc. destruct s as [a tr rst sf ihf afb str].
  destruct a, tr; try discriminate Hb; compute_ctl;
    repeat split; try reflexivity; split_ifs; norm_log; reflexivity.
Qed.

Lemma doubleTapEnter_service (B : Backend) (w : World) (s : PushToTalkService) :
  pushToTalkService w = Some s ->
  doubleTapEnter B w
  = mkWorld (mkFlags 0 (fnKeyPressed (flags w))
                     (pendingSingleTapTimeout (flags w)) true
                     (pendingHandsFreeStop (flags w)))
            (Some (start_called B (set_isHandsFreeMode true s)))
            (serviceGen w) (monitor w) (env w) (immediates w) (timers w)
            (awaiting w ++ [(serviceGen w, AfterHandsFreeStart)])
            (nextId w) (log w ++ enterMessages (env w) ++ [CallStart])
            (uncaught w).
Proof.
  intros Hs. unfold enterMessages.
  open_world w. cbn in Hs. subst svc. compute_ctl.
  split_ifs; norm_log; reflexivity.
Qed.


Lemma doubleTap_live (B : Backend) (w : World) :
  liveSession w = true ->
  doubleTap B w
  = mkWorld (flags w) (pushToTalkService w) (serviceGen w) (monitor w) (env w)
            (immediates w ++ [ImmHardStop])
            (timers w ++ [(nextId w, TmAudioCleanup)])
            (awaiting w) (S (nextId w))
            (log w ++ cancelMessages (env w)) (uncaught w).
Proof.
  intros H. unfold doubleTap. rewrite H. unfold cancelMessages.
  open_world w. compute_ctl. split_ifs; norm_log; reflexivity.
Qed.

Lemma doubleTap_quiet (B : Backend) (w : World) :
  liveSession w = false -> doubleTap B w = doubleTapEnter B w.
Proof. intros H. unfold doubleTap. now rewrite H. Qed.

(** *** Counting in the message blocks *)

Ltac count_blocks :=
  unfold downFeedback, tapBroadcast, cancelMessages, enterMessages,
    startFeedback, keyUpNotifications;
  rewrite ?count_app;
  rewrite ?count_windowMessages_none
    by (intros ? ? Hin; cbn in Hin;
        repeat (destruct Hin as [<-|Hin]; [reflexivity|]); destruct Hin);
  repeat match goal with
         | |- context [if ?c then _ else _] => destruct c
         end;
  reflexivity.

Lemma count_calls_in_blocks (p : Action -> bool) (e : Env) :
  (forall t c, p (Send t c) = false) ->
  p WaveformShow = false -> p RecordJarvisUsage = false ->
  count p (downFeedback e) = 0%nat
  /\ count p (tapBroadcast e) = 0%nat
  /\ count p (cancelMessages e) = 0%nat
  /\ count p (enterMessages e) = 0%nat
  /\ count p (startFeedback e) = 0%nat.
Proof.
  intros Hs Hw Hr.
  assert (Hm : forall ws chs, count p (windowMessages ws chs) = 0%nat).
  { intros. apply count_windowMessages_none. intros. apply Hs. }
  unfold downFeedback, tapBroadcast, cancelMessages, enterMessages,
    startFeedback.
  rewrite !count_app, !Hm.
  repeat split;
    repeat match goal with
           | |- context [if ?c then _ else _] => destruct c
           end;
    unfold count; cbn; rewrite ?Hs, ?Hw, ?Hr; reflexivity.
Qed.

Lemma count_cancel_blocks (e : Env) :
  count (sends PushToTalkCancel) (downFeedback e) = 0%nat
  /\ count (sends PushToTalkCancel) (tapBroadcast e) = 0%nat
  /\ count (sends PushToTalkCancel) (enterMessages e) = 0%nat
  /\ count (sends PushToTalkCancel) (startFeedback e) = 0%nat
  /\ count (sends PushToTalkCancel) (cancelMessages e)
     = if non_null (waveformWindow e) then 1%nat else 0%nat.
Proof. repeat split; count_blocks. Qed.

Lemma count_dictationStart_blocks (e : Env) :
  count (sends DictationStart) (downFeedback e) = 0%nat
  /\ count (sends DictationStart) (tapBroadcast e) = 0%nat
  /\ count (sends DictationStart) (cancelMessages e) = 0%nat
  /\ count (sends DictationStart) (startFeedback e) = 0%nat
  /\ count (sends DictationStart) (enterMessages e)
     = if non_null (waveformWindow e) then 1%nat else 0%nat.
Proof. repeat split; count_blocks. Qed.

Lemma count_dictationStop_blocks (e : Env) :
  count (sends DictationStop) (downFeedback e) = 0%nat
  /\ count (sends DictationStop) (tapBroadcast e) = 0%nat
  /\ count (sends DictationStop) (cancelMessages e) = 0%nat
  /\ count (sends DictationStop) (startFeedback e) = 0%nat
  /\ count (sends DictationStop) (enterMessages e) = 0%nat.
Proof. repeat split; count_blocks. Qed.

(** ** Re-press *)

Lemma repress_cancels_active_session_core
      (B : Backend) (t : Z) (w : World) (s : PushToTalkService) :
  handsFree w = false -> pendingStop w = false ->
  pushToTalkService w = Some s -> active s || transcribing s = true ->
  ~ inWindow t w ->
  log (handleHotkeyDown B t w)
  = log w ++ downFeedback (env w) ++ tapBroadcast (env w)
      ++ [CallHardStop] ++ cancelMessages (env w)
  /\ pushToTalkService (handleHotkeyDown B t w)
     = Some (set_active false (hardStop_done B s)).
Proof.
  intros Hh Hp Hs Hb Hw.
  rewrite (handleHotkeyDown_classified B t w Hp Hh).
  apply doubleTapTest_false in Hw. rewrite Hw.
  destruct (prepared_fields w) as (Pl & Ps & Pe & _).
  rewrite <- Ps in Hs.
  destruct (singleTap_busy B t (prepared w) s Hs Hb) as (L & S' & _).
  rewrite Pl, Pe in L. rewrite <- app_assoc in L. now split.
Qed.

(** C6.  A key press outside the double-tap window, with hands-free mode
    off and no hands-free stop pending, while the service is active or
    transcribing: handleHotkeyDown calls hardStop() at once, clears
    [active], sends push-to-talk-cancel, and starts nothing; the
    controller is back in its idle state as soon as the hard stop has
    cleared [transcribing]. *)
Theorem repress_cancels_active_session
        (B : Backend) (t : Z) (w : World) (s : PushToTalkService) :
  handsFree w = false -> pendingStop w = false ->
  pushToTalkService w = Some s -> active s || transcribing s = true ->
  ~ inWindow t w ->
  let w' := handleHotkeyDown B t w in
  log w' = log w ++ downFeedback (env w) ++ tapBroadcast (env w)
                 ++ [CallHardStop] ++ cancelMessages (env w)
  /\ count isCallHardStop (log w') = S (count isCallHardStop (log w))
  /\ count isCallStart (log w') = count isCallStart (log w)
  /\ (non_null (waveformWindow (env w)) = true ->
      count (sends PushToTalkCancel) (log w')
      = S (count (sends PushToTalkCancel) (log w)))
  /\ pushToTalkService w' = Some (set_active false (hardStop_done B s))
  /\ backendActive w' = false
  /\ handsFree w' = false /\ pendingStop w' = false
  /\ awaiting w' = awaiting w
  /\ (transcribing (hardStop_done B s) = false -> serviceBusy w' = false).
Proof.
  intros Hh Hp Hs Hb Hw w'. subst w'.
  rewrite (handleHotkeyDown_classified B t w Hp Hh).
  apply doubleTapTest_false in Hw. rewrite Hw.
  destruct (prepared_fields w)
    as (Pl & Ps & Pe & _ & Ph & Pp & _ & Pa & _ & _ & _).
  rewrite <- Ps in Hs.
  destruct (singleTap_busy B t (prepared w) s Hs Hb)
    as (L & S' & H' & P' & _ & A' & _ & _).
  rewrite Pl, Pe in L. rewrite <- app_assoc in L.
  destruct (count_calls_in_blocks isCallHardStop (env w))
    as (c1 & c2 & c3 & _); try reflexivity.
  destruct (count_calls_in_blocks isCallStart (env w))
    as (d1 & d2 & d3 & _); try reflexivity.
  destruct (count_cancel_blocks (env w)) as (e1 & e2 & _ & _ & e5).
  repeat split.
  - exact L.
  - rewrite L, !count_app, c1, c2, c3. cbn. lia.
  - rewrite L, !count_app, d1, d2, d3. cbn. lia.
  - intros Hn. rewrite L, !count_app, e1, e2, e5, Hn. cbn. lia.
  - exact S'.
  - unfold backendActive. now rewrite S'.
  - congruence.
  - congruence.
  - congruence.
  - intros Ht. unfold serviceBusy. rewrite S'. cbn. exact Ht.
Qed.

Lemma repress_cancels_active_session_witness :
  count isCallHardStop (log (handleHotkeyDown ideal 2000 recording))
  = S (count isCallHardStop (log recording))
  /\ serviceBusy (handleHotkeyDown ideal 2000 recording) = false.
Proof.
  destruct (repress_cancels_active_session ideal 2000 recording
              (mkService true false (Some 1001) true false true false)
              eq_refl eq_refl eq_refl eq_refl)
    as (_ & H & _ & _ & _ & _ & _ & _ & _ & I).
  - unfold inWindow. cbn. lia.
  - split; [exact H | now apply I].
Defined.

(** ** Settling promises *)

Lemma nth_error_last {A : Type} (l : list A) (x : A) :
  nth_error (l ++ [x]) (List.length l) = Some x.
Proof. induction l; cbn; auto. Qed.

Lemma remove_nth_last {A : Type} (l : list A) (x : A) :
  remove_nth (List.length l) (l ++ [x]) = l.
Proof. induction l; cbn; congruence. Qed.

Lemma settle_singleTap_failed (B : Backend) (k : nat) (t : Z) (w : World)
      (gen : nat) :
  nth_error (awaiting w) k = Some (gen, AfterSingleTapStart) ->
  log (settle B k false t w)
  = log w ++ [StartSettled false]
      ++ (if non_null (waveformWindow (env w))
          then [Send Waveform PushToTalkCancel] else [])
  /\ uncaught (settle B k false t w) = uncaught w
  /\ flags (settle B k false t w) = flags w.
Proof.
  intro H. unfold settle. rewrite H.
  open_world w. clear H.
  destruct svc; compute_ctl; destruct (Nat.eqb gen gen0); compute_ctl;
    norm_log; repeat split; reflexivity.
Qed.

Lemma settle_handsFreeStart_failed (B : Backend) (k : nat) (t : Z) (w : World)
      (gen : nat) :
  nth_error (awaiting w) k = Some (gen, AfterHandsFreeStart) ->
  log (settle B k false t w)
  = log w ++ [StartSettled false]
      ++ (if non_null (waveformWindow (env w))
          then [Send Waveform DictationStop] else [])
      ++ [SetDictationMode true]
  /\ uncaught (settle B k false t w) = uncaught w
  /\ handsFree (settle B k false t w) = false
  /\ pendingStop (settle B k false t w) = pendingStop w
  /\ serviceHandsFree (settle B k false t w) = false.
Proof.
  intro H. unfold settle, serviceHandsFree. rewrite H.
  open_world w. clear H.
  destruct svc; compute_ctl; destruct (Nat.eqb gen gen0); compute_ctl;
    norm_log; repeat split; reflexivity.
Qed.

(** ** Start failure *)

Lemma singleTap_start_failed (B : Backend) (w : World) (s : PushToTalkService)
      (t t' : Z) :
  pushToTalkService w = Some s ->
  handsFree w = false -> pendingStop w = false ->
  ~ inWindow t w -> active s || transcribing s = false ->
  let w1 := handleHotkeyDown B t w in
  let w2 := settle B (List.length (awaiting w)) false t' w1 in
  count isCallStart (log w1) = S (count isCallStart (log w))
  /\ log w2 = log w1 ++ [StartSettled false]
               ++ (if non_null (waveformWindow (env w))
                   then [Send Waveform PushToTalkCancel] else [])
  /\ uncaught w2 = uncaught w
  /\ handsFree w2 = false /\ pendingStop w2 = false.
Proof.
  intros Hs Hh Hp Hw Hb w1 w2. subst w2 w1.
  destruct (prepared_fields w)
    as (Pl & Ps & Pe & _ & Ph & Pp & _ & Pa & _ & Pg & Pu).
  rewrite (handleHotkeyDown_classified B t w Hp Hh).
  apply doubleTapTest_false in Hw. rewrite Hw.
  rewrite <- Ps in Hs.
  destruct (singleTap_idle B t (prepared w) s Hs Hb)
    as (L & _ & H' & P' & _ & A & _ & U & E & _).
  rewrite Pa in A.
  destruct (settle_singleTap_failed B (List.length (awaiting w)) t'
              (singleTap B t (prepared w)) (serviceGen (prepared w)))
    as (L2 & U2 & F2).
  { rewrite A. apply nth_error_last. }
  destruct (count_calls_in_blocks isCallStart (env w))
    as (d1 & d2 & _ & _ & d5); try reflexivity.
  split; [|split; [|split; [|split]]].
  - rewrite L, Pl, Pe, !count_app, d1, d2, d5. cbn. lia.
  - rewrite L2, E, Pe. reflexivity.
  - congruence.
  - unfold handsFree in *. rewrite F2. congruence.
  - unfold pendingStop in *. rewrite F2. congruence.
Qed.

Lemma handsFree_start_failed (B : Backend) (v : World) (s : PushToTalkService)
      (t' : Z) :
  pushToTalkService v = Some s ->
  let w1 := doubleTapEnter B v in
  let w2 := settle B (List.length (awaiting v)) false t' w1 in
  handsFree w1 = true
  /\ count isCallStart (log w1) = S (count isCallStart (log v))
  /\ log w2 = log w1 ++ [StartSettled false]
               ++ (if non_null (waveformWindow (env v))
                   then [Send Waveform DictationStop] else [])
               ++ [SetDictationMode true]
  /\ uncaught w2 = uncaught v
  /\ handsFree w2 = false
  /\ serviceHandsFree w2 = false.
Proof.
  intros H w1 w2. subst w2 w1.
  destruct (settle_handsFreeStart_failed B (List.length (awaiting v)) t'
              (doubleTapEnter B v) (serviceGen v))
    as (L2 & U2 & H2 & _ & S2).
  { rewrite (doubleTapEnter_service B v s H). cbn. apply nth_error_last. }
  destruct (count_calls_in_blocks isCallStart (env v))
    as (_ & _ & _ & d4 & _); try reflexivity.
  split; [|split; [|split; [|split; [|split]]]].
  - rewrite (doubleTapEnter_service B v s H). reflexivity.
  - rewrite (doubleTapEnter_service B v s H). cbn [log].
    rewrite !count_app, d4. cbn. lia.
  - rewrite L2. rewrite (doubleTapEnter_service B v s H). reflexivity.
  - rewrite U2. rewrite (doubleTapEnter_service B v s H). reflexivity.
  - exact H2.
  - exact S2.
Qed.

(** C8.  A start() that fails is handled where it was issued.  Single tap:
    the rejection of the start() issued by handleHotkeyDown sends
    push-to-talk-cancel, leaves the hands-free flag off and raises nothing.
    Hands-free: the start() is issued by the code after the double-tap
    test, reached directly when there is nothing to cancel and from the
    10 ms timer otherwise; its rejection sends dictation-stop, clears
    [isHandsFreeModeActive] and the flag on the service, and raises
    nothing. *)
Theorem start_failure_is_caught (B : Backend) (w : World) (s : PushToTalkService)
        (t t' : Z) :
  pushToTalkService w = Some s ->
  handsFree w = false -> pendingStop w = false ->
  (~ inWindow t w -> active s || transcribing s = false ->
   let w1 := handleHotkeyDown B t w in
   let w2 := settle B (List.length (awaiting w)) false t' w1 in
   count isCallStart (log w1) = S (count isCallStart (log w))
   /\ log w2 = log w1 ++ [StartSettled false]
                ++ (if non_null (waveformWindow (env w))
                    then [Send Waveform PushToTalkCancel] else [])
   /\ uncaught w2 = uncaught w
   /\ handsFree w2 = false /\ pendingStop w2 = false)
  /\ (inWindow t w -> liveSession w = false ->
      handleHotkeyDown B t w = doubleTapEnter B (prepared w))
  /\ (inWindow t w -> liveSession w = true ->
      exists old,
        timers (handleHotkeyDown B t w) = old ++ [(nextId w, TmAudioCleanup)]
        /\ fireTimer B TmAudioCleanup (handleHotkeyDown B t w)
           = doubleTapEnter B (handleHotkeyDown B t w))
  /\ (forall v : World,
      pushToTalkService v = Some s ->
      let w1 := doubleTapEnter B v in
      let w2 := settle B (List.length (awaiting v)) false t' w1 in
      handsFree w1 = true
      /\ count isCallStart (log w1) = S (count isCallStart (log v))
      /\ log w2 = log w1 ++ [StartSettled false]
                   ++ (if non_null (waveformWindow (env v))
                       then [Send Waveform DictationStop] else [])
                   ++ [SetDictationMode true]
      /\ uncaught w2 = uncaught v
      /\ handsFree w2 = false
      /\ serviceHandsFree w2 = false).
Proof.
  intros Hs Hh Hp.
  split; [|split; [|split]].
  - intros Hw Hb. now apply (singleTap_start_failed B w s).
  - intros Hw Hl.
    rewrite (handleHotkeyDown_classified B t w Hp Hh).
    apply doubleTapTest_spec in Hw. rewrite Hw.
    apply doubleTap_quiet.
    destruct (prepared_fields w) as (_ & Ps & _).
    unfold liveSession in *. now rewrite Ps.
  - intros Hw Hl.
    rewrite (handleHotkeyDown_classified B t w Hp Hh).
    apply doubleTapTest_spec in Hw. rewrite Hw.
    destruct (prepared_fields w) as (_ & Ps & _ & _ & _ & _ & _ & _ & Pn & _).
    rewrite doubleTap_live by (unfold liveSession in *; now rewrite Ps).
    cbn [timers]. rewrite Pn. eexists. split; reflexivity.
  - intros v Hv. now apply (handsFree_start_failed B v s).
Qed.

Lemma start_failure_is_caught_witness :
  uncaught (settle ideal 0 false 1002 (handleHotkeyDown ideal 1000 ready)) = 0%nat
  /\ count (sends PushToTalkCancel)
           (log (settle ideal 0 false 1002 (handleHotkeyDown ideal 1000 ready)))
     = 1%nat.
Proof.
  destruct (start_failure_is_caught ideal ready
              (mkService false false None false false true false) 1000 1002
              eq_refl eq_refl eq_refl) as (H & _).
  destruct H as (_ & L & U & _).
  - unfold inWindow. cbn. lia.
  - reflexivity.
  - split; [exact U|].
    exact (eq_trans (f_equal (count (sends PushToTalkCancel)) L) eq_refl).
Defined.

(** ** The double-tap cancellation *)

Lemma liveSession_service (w : World) :
  liveSession w = true -> exists s, pushToTalkService w = Some s.
Proof.
  unfold liveSession. destruct (pushToTalkService w) as [s|];
    [eauto | discriminate].
Qed.

Lemma runImmediate_hardStop_log (B : Backend) (w : World)
      (s : PushToTalkService) :
  pushToTalkService w = Some s ->
  log (runImmediate B ImmHardStop w) = log w ++ [CallHardStop].
Proof.
  intro H. open_world w. cbn in H. subst svc. reflexivity.
Qed.

(** ** Leaving hands-free mode *)

Lemma handsFreeExit_busy (B : Backend) (w : World) (s : PushToTalkService) :
  pendingStop w = false -> pushToTalkService w = Some s ->
  active s || transcribing s = true ->
  handsFreeExit B w
  = mkWorld (mkFlags (lastFnKeyTime (flags w)) (fnKeyPressed (flags w))
                     (pendingSingleTapTimeout (flags w)) false true)
            (Some (stop_called B s)) (serviceGen w) (monitor w) (env w)
            (immediates w) (timers w)
            (awaiting w ++ [(serviceGen w, AfterHandsFreeStop)])
            (nextId w) (log w ++ [CallStop]) (uncaught w).
Proof.
  intros Hp Hs Hb.
  open_world w. cbn in Hp, Hs. subst svc pend.
  destruct s as [a tr rst sf ihf afb str].
  destruct a, tr; try discriminate Hb; reflexivity.
Qed.

Lemma settle_handsFreeStop_ok (B : Backend) (k : nat) (t : Z) (w : World)
      (gen : nat) (s : PushToTalkService) :
  nth_error (awaiting w) k = Some (gen, AfterHandsFreeStop) ->
  pushToTalkService w = Some s ->
  log (settle B k true t w)
  = log w ++ [StopSettled true] ++ exitMessages (env w)
  /\ pendingStop (settle B k true t w) = false
  /\ handsFree (settle B k true t w) = handsFree w
  /\ lastPress (settle B k true t w) = 0
  /\ uncaught (settle B k true t w) = uncaught w
  /\ serviceHandsFree (settle B k true t w) = false.
Proof.
  intros H Hs. unfold settle, serviceHandsFree, exitMessages. rewrite H.
  open_world w. clear H. cbn in Hs. subst svc.
  compute_ctl; destruct (Nat.eqb gen gen0); compute_ctl; norm_log;
    repeat split; reflexivity.
Qed.

Lemma run_dropped (B : Backend) (ts : list Z) (w : World) :
  pendingStop w = true -> run B (map KeyDown ts) w = w.
Proof.
  intro H. induction ts as [|t ts IH]; cbn; [reflexivity|].
  rewrite (handleHotkeyDown_dropped B t w H). exact IH.
Qed.

Lemma count_exitMessages (e : Env) :
  count isCallStop (exitMessages e) = 0%nat
  /\ count (sends DictationStop) (exitMessages e)
     = if non_null (waveformWindow e) then 1%nat else 0%nat.
Proof.
  unfold exitMessages.
  destruct (non_null (waveformWindow e)), (userNudgeService e); split;
    reflexivity.
Qed.

(** C3.  In hands-free mode with a recording or a transcription running,
    the first key press sets [pendingHandsFreeStop], clears the hands-free
    flag and calls stop(); every key press that arrives before the stop
    completes returns at the first test and changes nothing; when the stop
    completes, dictation-stop is sent and the flag is cleared.  However many
    presses arrive in between, stop() has been called once and
    dictation-stop sent once. *)
Theorem hands_free_exit_once (B : Backend) (w : World) (s : PushToTalkService)
        (t0 t1 : Z) (ts : list Z) :
  handsFree w = true -> pendingStop w = false ->
  pushToTalkService w = Some s -> active s || transcribing s = true ->
  non_null (waveformWindow (env w)) = true ->
  let w1 := handleHotkeyDown B t0 w in
  let w2 := run B (map KeyDown ts) w1 in
  let w3 := settle B (List.length (awaiting w)) true t1 w2 in
  pendingStop w1 = true /\ handsFree w1 = false
  /\ (forall t, handleHotkeyDown B t w1 = w1)
  /\ w2 = w1
  /\ count isCallStop (log w2) = S (count isCallStop (log w))
  /\ count (sends DictationStop) (log w2) = count (sends DictationStop) (log w)
  /\ count isCallStop (log w3) = S (count isCallStop (log w))
  /\ count (sends DictationStop) (log w3)
     = S (count (sends DictationStop) (log w))
  /\ pendingStop w3 = false /\ handsFree w3 = false.
Proof.
  intros Hh Hp Hs Hb Hn w1 w2 w3.
  assert (E1 : w1 = handsFreeExit B (immediateFeedback w))
    by (apply handleHotkeyDown_handsFree; assumption).
  rewrite immediateFeedback_log in E1.
  rewrite (handsFreeExit_busy B _ s) in E1
    by (try assumption; destruct w; assumption).
  cbn in E1.
  assert (P1 : pendingStop w1 = true) by (rewrite E1; reflexivity).
  assert (E2 : w2 = w1) by (apply run_dropped; exact P1).
  destruct (count_calls_in_blocks isCallStop (env w)) as (c1 & _);
    try reflexivity.
  destruct (count_dictationStop_blocks (env w)) as (d1 & _).
  destruct (count_exitMessages (env w)) as (x1 & x2).
  assert (L1 : log w1 = log w ++ downFeedback (env w) ++ [CallStop])
    by (rewrite E1; cbn; now rewrite <- app_assoc).
  destruct (settle_handsFreeStop_ok B (List.length (awaiting w)) t1 w1
              (serviceGen w) (stop_called B s))
    as (L3 & P3 & H3 & _).
  { rewrite E1. cbn. apply nth_error_last. }
  { rewrite E1. reflexivity. }
  assert (Ee : env w1 = env w) by (rewrite E1; reflexivity).
  subst w3. rewrite E2.
  repeat split.
  - exact P1.
  - rewrite E1. reflexivity.
  - intro t. now apply handleHotkeyDown_dropped.
  - rewrite L1, !count_app, c1. cbn. lia.
  - rewrite L1, !count_app, d1. cbn. lia.
  - rewrite L3, L1, Ee, !count_app, c1, x1. cbn. lia.
  - rewrite L3, L1, Ee, !count_app, d1, x2, Hn. cbn. lia.
  - exact P3.
  - rewrite H3, E1. reflexivity.
Qed.

Lemma hands_free_exit_once_witness :
  count (sends DictationStop)
        (log (settle ideal 1 true 1500
                (run ideal (map KeyDown [1405; 1410; 1420])
                     (handleHotkeyDown ideal 1400 dictating))))
  = 1%nat.
Proof.
  destruct (hands_free_exit_once ideal dictating
              (mkService true false (Some 1311) false true true false)
              1400 1500 [1405; 1410; 1420]
              eq_refl eq_refl eq_refl eq_refl eq_refl)
    as (_ & _ & _ & _ & _ & _ & _ & H & _).
  exact H.
Defined.

(** ** Invariants of the event loop *)

Lemma fresh_snoc (n : nat) (cb : Timer) (l : list (nat * Timer)) :
  Forall (fun p => (fst p < n)%nat) l ->
  Forall (fun p => (fst p < S n)%nat) (l ++ [(n, cb)]).
Proof.
  intro H. apply Forall_app. split.
  - eapply Forall_impl; [|exact H]. cbn. intros. lia.
  - constructor; [cbn; lia | constructor].
Qed.

Lemma fresh_filter (n : nat) (f : nat * Timer -> bool) (l : list (nat * Timer)) :
  Forall (fun p => (fst p < n)%nat) l ->
  Forall (fun p => (fst p < n)%nat) (filter f l).
Proof.
  intro H. apply Forall_forall. intros x Hx. apply filter_In in Hx.
  rewrite Forall_forall in H. now apply H.
Qed.


Lemma find_timer_snoc (n : nat) (cb : Timer) (l : list (nat * Timer)) :
  Forall (fun p => (fst p < n)%nat) l ->
  find_timer n (l ++ [(n, cb)]) = Some cb.
Proof.
  induction 1 as [|[h c] l Hh _ IH]; cbn.
  - now rewrite Nat.eqb_refl.
  - cbn in Hh. destruct (Nat.eqb_spec h n); [lia | exact IH].
Qed.

Lemma filter_fresh_snoc (n : nat) (cb : Timer) (l : list (nat * Timer)) :
  Forall (fun p => (fst p < n)%nat) l ->
  filter (fun p => negb (Nat.eqb (fst p) n)) (l ++ [(n, cb)]) = l.
Proof.
  intro H. rewrite filter_app. cbn. rewrite Nat.eqb_refl. cbn.
  rewrite app_nil_r.
  induction H as [|[h c] l Hh _ IH]; cbn; [reflexivity|].
  cbn in Hh. destruct (Nat.eqb_spec h n); [lia|]. cbn. now rewrite IH.
Qed.

(** Closes an invariant goal on a computed world. *)
Ltac solve_inv :=
  split;
  [ repeat (assumption || apply fresh_snoc || apply fresh_filter)
  | intros [?|?]; try discriminate; auto ].

Ltac open_inv w H :=
  unfold Inv, fresh_timers, flags_inv in *;
  open_world w; compute_ctl; destruct H as [? ?].

Lemma Inv_initial (e : Env) : Inv (initial e).
Proof. split; [constructor | intros [H|H]; discriminate H]. Qed.

Lemma Inv_set_log (l : list Action) (w : World) : Inv w -> Inv (set_log l w).
Proof. intro H. open_inv w H. solve_inv. Qed.

Lemma Inv_prepared (w : World) : Inv w -> Inv (prepared w).
Proof.
  intro H. unfold prepared. rewrite immediateFeedback_log.
  open_inv w H. destruct pto; compute_ctl; solve_inv.
Qed.

Lemma Inv_doubleTapEnter (B : Backend) (w : World) :
  Inv w -> Inv (doubleTapEnter B w).
Proof.
  intro H. open_inv w H. destruct svc; compute_ctl; solve_inv.
Qed.

Lemma Inv_doubleTap (B : Backend) (w : World) : Inv w -> Inv (doubleTap B w).
Proof.
  intro H. open_inv w H.
  destruct svc as [[a tr rst sf ihf afb str]|]; compute_ctl;
    try destruct a; try destruct tr; try destruct sf; compute_ctl; solve_inv.
Qed.

Lemma Inv_singleTap (B : Backend) (t : Z) (w : World) :
  handsFree w = false -> pendingStop w = false ->
  Inv w -> Inv (singleTap B t w).
Proof.
  intros Hh Hp H. unfold singleTap. rewrite forEachWindow_log.
  open_inv w H. subst hf pend.
  destruct svc as [[a tr rst sf ihf afb str]|]; compute_ctl;
    try destruct a; try destruct tr; compute_ctl; solve_inv.
Qed.

Lemma Inv_handsFreeExit (B : Backend) (w : World) :
  handsFree w = true -> Inv w -> Inv (handsFreeExit B w).
Proof.
  intros Hh H. open_inv w H. subst hf.
  destruct pend, svc as [[a tr rst sf ihf afb str]|]; compute_ctl;
    try destruct a; try destruct tr; compute_ctl; solve_inv.
Qed.

Lemma Inv_handleHotkeyDown (B : Backend) (t : Z) (w : World) :
  Inv w -> Inv (handleHotkeyDown B t w).
Proof.
  intro H.
  destruct (pendingStop w) eqn:Hp.
  - now rewrite handleHotkeyDown_dropped.
  - destruct (handsFree w) eqn:Hh.
    + rewrite handleHotkeyDown_handsFree by assumption.
      rewrite immediateFeedback_log.
      apply Inv_handsFreeExit; [now destruct w | now apply Inv_set_log].
    + rewrite handleHotkeyDown_classified by assumption.
      destruct (prepared_fields w) as (_ & _ & _ & _ & Ph & Pp & _).
      destruct (doubleTapTest t w).
      * apply Inv_doubleTap, Inv_prepared, H.
      * apply Inv_singleTap; [congruence | congruence | now apply Inv_prepared].
Qed.

Lemma Inv_handleHotkeyUp (B : Backend) (w : World) :
  Inv w -> Inv (handleHotkeyUp B w).
Proof.
  intro H. unfold handleHotkeyUp.
  rewrite forEachWindow_log, releaseFeedback_log.
  open_inv w H.
  destruct svc as [[a tr rst sf ihf afb str]|], hf, pend; compute_ctl;
    try destruct a; try destruct (truthy rst); compute_ctl; solve_inv.
Qed.

Lemma Inv_stopHotkeyMonitoring (B : Backend) (w : World) :
  Inv w -> Inv (stopHotkeyMonitoring B w).
Proof.
  intro H. open_inv w H.
  destruct svc as [[a tr rst sf ihf afb str]|], monKey; compute_ctl;
    try destruct a; compute_ctl; solve_inv.
Qed.

Lemma Inv_startHotkeyMonitoring (B : Backend) (w : World) :
  Inv w -> Inv (startHotkeyMonitoring B w).
Proof.
  intro H. unfold startHotkeyMonitoring.
  destruct (alreadyMonitoring w); [exact H|].
  assert (H1 : Inv (if isHotkeyMonitoringActive (monitor w)
                   then stopHotkeyMonitoring B w else w))
    by (destruct (isHotkeyMonitoringActive (monitor w));
        [now apply Inv_stopHotkeyMonitoring | exact H]).
  revert H1.
  generalize (if isHotkeyMonitoringActive (monitor w)
              then stopHotkeyMonitoring B w else w).
  intros v Hv.
  destruct (supportedKey (hotkey (env w))), (keyMonitorStarts (env w));
    open_inv v Hv; solve_inv.
Qed.

Lemma Inv_runImmediate (B : Backend) (cb : Immediate) (w : World) :
  Inv w -> Inv (runImmediate B cb (set_immediates (tl (immediates w)) w)).
Proof.
  intro H. open_inv w H.
  destruct cb, svc, tut, onb; compute_ctl; solve_inv.
Qed.

Lemma Inv_clearTimeout (h : nat) (w : World) : Inv w -> Inv (clearTimeout h w).
Proof. intro H. open_inv w H. solve_inv. Qed.

Lemma Inv_fireTimer (B : Backend) (cb : Timer) (w : World) :
  Inv w -> Inv (fireTimer B cb w).
Proof.
  intro H. destruct cb; cbn [fireTimer].
  - open_inv w H. solve_inv.
  - now apply Inv_doubleTapEnter.
  - open_inv w H. solve_inv.
  - now apply Inv_startHotkeyMonitoring.
Qed.

Lemma Inv_settle (B : Backend) (k : nat) (ok : bool) (t : Z) (w : World) :
  Inv w -> Inv (settle B k ok t w).
Proof.
  intro H. unfold settle.
  destruct (nth_error (awaiting w) k) as [[gen c]|]; [|exact H].
  open_inv w H.
  destruct (Nat.eqb gen gen0), svc, c, ok; compute_ctl; solve_inv.
Qed.

Lemma Inv_step (B : Backend) (e : Event) (w : World) : Inv w -> Inv (step B e w).
Proof.
  intro H. destruct e; cbn [step].
  - now apply Inv_handleHotkeyDown.
  - now apply Inv_handleHotkeyUp.
  - destruct (immediates w) as [|cb rest] eqn:E; [exact H|].
    replace rest with (tl (immediates w)) by now rewrite E.
    now apply Inv_runImmediate.
  - destruct (find_timer h (timers w)); [|exact H].
    now apply Inv_fireTimer, Inv_clearTimeout.
  - now apply Inv_settle.
  - now apply Inv_startHotkeyMonitoring.
  - now apply Inv_stopHotkeyMonitoring.
Qed.

Lemma Inv_run (B : Backend) (es : list Event) (w : World) :
  Inv w -> Inv (run B es w).
Proof.
  revert w. induction es as [|e es IH]; intros w H; cbn; [exact H|].
  apply IH. now apply Inv_step.
Qed.

(** ** The double-tap window *)


Lemma handsFreeExit_fields (B : Backend) (w : World) :
  pendingStop w = false ->
  timers (handsFreeExit B w) = timers w
  /\ handsFree (handsFreeExit B w) = false.
Proof.
  intro Hp. open_world w. cbn in Hp. subst pend.
  destruct svc as [[a tr rst sf ihf afb str]|];
    try destruct a; try destruct tr; split; reflexivity.
Qed.

Lemma singleTap_fields (B : Backend) (t : Z) (w : World) :
  timers (singleTap B t w) = timers w ++ [(nextId w, TmSingleTap)]
  /\ handsFree (singleTap B t w) = handsFree w.
Proof.
  unfold singleTap. rewrite forEachWindow_log. open_world w.
  destruct svc as [[a tr rst sf ihf afb str]|];
    try destruct a; try destruct tr; split; reflexivity.
Qed.

Lemma Inv_window (t : Z) (w : World) :
  Inv w -> inWindow t w -> handsFree w = false /\ pendingStop w = false.
Proof.
  intros [_ Hf] (Hl & _). unfold flags_inv in Hf.
  destruct (handsFree w), (pendingStop w); auto; exfalso;
    assert (lastPress w = 0) by auto; lia.
Qed.

(** ** Presses within 20 ms *)

(** C5, as stated, fails.  First tap at 1000, second at 1005.  If the
    recording has started in between, the second press hard-stops it and
    sends push-to-talk-cancel; if the first start() is still outstanding,
    the second press issues start() again. *)
Lemma bounce_not_ignored :
  lastPress recording = 1000
  /\ ~ leaves_session_alone ideal 1005 recording
  /\ count isCallHardStop (log (handleHotkeyDown ideal 1005 recording))
     = S (count isCallHardStop (log recording))
  /\ lastPress tapped = 1000
  /\ ~ leaves_session_alone ideal 1005 tapped
  /\ count isCallStart (log (handleHotkeyDown ideal 1005 tapped))
     = S (count isCallStart (log tapped)).
Proof.
  split; [reflexivity|].
  split; [intros (_ & H & _); vm_compute in H; discriminate H|].
  split; [reflexivity|].
  split; [reflexivity|].
  split; [intros (_ & _ & H & _); vm_compute in H; discriminate H|].
  reflexivity.
Qed.

(** ** Two key presses inside one double-tap window *)

Lemma prepared_timeout (w : World) :
  pendingSingleTapTimeout (flags (prepared w)) = None
  /\ monitor (prepared w) = monitor w.
Proof.
  unfold prepared. rewrite immediateFeedback_log.
  open_world w. destruct pto; split; reflexivity.
Qed.

Lemma prepared_settled (w : World) :
  pendingSingleTapTimeout (flags w) = None ->
  flags (prepared w) = flags w /\ timers (prepared w) = timers w.
Proof.
  intro H. unfold prepared. rewrite immediateFeedback_log.
  open_world w. cbn in H. subst pto. split; reflexivity.
Qed.

Lemma doubleTap_press_live (B : Backend) (t : Z) (w : World) :
  handsFree w = false -> pendingStop w = false ->
  doubleTapTest t w = true -> liveSession w = true ->
  handleHotkeyDown B t w
  = mkWorld (flags (prepared w)) (pushToTalkService w) (serviceGen w)
            (monitor w) (env w) (immediates w ++ [ImmHardStop])
            (timers (prepared w) ++ [(nextId w, TmAudioCleanup)])
            (awaiting w) (S (nextId w))
            (log w ++ downFeedback (env w) ++ cancelMessages (env w))
            (uncaught w).
Proof.
  intros Hh Hp Hw Hl.
  rewrite handleHotkeyDown_classified, Hw by assumption.
  destruct (prepared_fields w)
    as (Pl & Ps & Pe & _ & _ & _ & Pi & Pa & Pn & Pg & Pu).
  destruct (prepared_timeout w) as (_ & Pm).
  rewrite doubleTap_live by (unfold liveSession in *; now rewrite Ps).
  rewrite Pl, Ps, Pe, Pi, Pa, Pn, Pg, Pu, Pm, <- app_assoc. reflexivity.
Qed.

Lemma find_timer_app_fresh (n : nat) (l r : list (nat * Timer)) :
  Forall (fun p => (fst p < n)%nat) l ->
  find_timer n (l ++ r) = find_timer n r.
Proof.
  induction 1 as [|[h c] l Hh _ IH]; cbn; [reflexivity|].
  cbn in Hh. destruct (Nat.eqb_spec h n); [lia | exact IH].
Qed.

Lemma filter_app_fresh (n : nat) (l r : list (nat * Timer)) :
  Forall (fun p => (fst p < n)%nat) l ->
  filter (fun p => negb (Nat.eqb (fst p) n)) (l ++ r)
  = l ++ filter (fun p => negb (Nat.eqb (fst p) n)) r.
Proof.
  intro H. rewrite filter_app. f_equal.
  induction H as [|[h c] l Hh _ IH]; cbn; [reflexivity|].
  cbn in Hh. destruct (Nat.eqb_spec h n); [lia|]. cbn. now rewrite IH.
Qed.

Lemma overlapping_neutral_start (mid : list Action) :
  forallb neutral mid = true -> overlapping true (mid ++ [CallStart]) = true.
Proof.
  induction mid as [|a mid IH]; cbn; [reflexivity|].
  intro H. apply andb_true_iff in H as [Ha Hm].
  destruct a as [| | | | | | | | | | | | |[|]|]; try discriminate Ha;
    now apply IH.
Qed.

Lemma overlapping_two_starts (pre mid : list Action) (o : bool) :
  forallb neutral mid = true ->
  overlapping o (pre ++ CallStart :: mid ++ [CallStart]) = true.
Proof.
  intro H. revert o. induction pre as [|a pre IH]; intro o; cbn.
  - destruct o; [reflexivity|]. now apply overlapping_neutral_start.
  - destruct a as [| | | | | | | | | | | | |[|]|]; try apply IH.
    destruct o; [reflexivity | apply IH].
Qed.

Lemma enterMessages_neutral (e : Env) : forallb neutral (enterMessages e) = true.
Proof.
  unfold enterMessages.
  destruct (userNudgeService e), (showWaveform e && is_alive (waveformWindow e)),
    (non_null (waveformWindow e)); reflexivity.
Qed.

Lemma fire_cleanup (B : Backend) (h : nat) (l r : list (nat * Timer))
      (v : World) (s : PushToTalkService) :
  Forall (fun p => (fst p < h)%nat) l ->
  timers v = l ++ (h, TmAudioCleanup) :: r ->
  pushToTalkService v = Some s ->
  let v' := step B (FireTimer h) v in
  log v' = log v ++ enterMessages (env v) ++ [CallStart]
  /\ timers v' = l ++ filter (fun p => negb (Nat.eqb (fst p) h)) r
  /\ env v' = env v
  /\ pushToTalkService v'
     = Some (start_called B (set_isHandsFreeMode true s)).
Proof.
  intros Hl Ht Hs v'. subst v'.
  cbn [step]. rewrite Ht, find_timer_app_fresh by exact Hl.
  cbn [find_timer]. rewrite Nat.eqb_refl. cbn [fireTimer].
  rewrite (doubleTapEnter_service B _ s) by (destruct v; exact Hs).
  unfold clearTimeout. rewrite Ht, filter_app_fresh by exact Hl.
  cbn [filter fst]. rewrite Nat.eqb_refl. cbn [negb].
  destruct v; repeat split.
Qed.

(** Whatever the service does: when a double tap has a session to cancel
    and a second key press arrives inside the same window before the 10 ms
    timer of the first has gone off, both handlers go on to call start(),
    and nothing ends a session between the two calls. *)
Lemma double_tap_race (B : Backend) (t1 t2 : Z) (w : World) :
  Inv w -> handsFree w = false -> pendingStop w = false ->
  liveSession w = true -> inWindow t1 w -> inWindow t2 w ->
  overlapping false
    (log (run B [KeyDown t1; KeyDown t2;
                 FireTimer (nextId w); FireTimer (S (nextId w))] w))
  = true.
Proof.
  intros H Hh Hp Hl H1 H2.
  apply doubleTapTest_spec in H1. apply doubleTapTest_spec in H2.
  pose proof (Inv_prepared w H) as [Hf _].
  destruct (prepared_fields w)
    as (_ & _ & _ & Plast & Phf & Ppend & _ & _ & Pn & _).
  destruct (prepared_timeout w) as (Pt & _).
  unfold fresh_timers in Hf. rewrite Pn in Hf.
  destruct (liveSession_service w Hl) as [s Hs].
  change (run B [KeyDown t1; KeyDown t2; FireTimer (nextId w);
                 FireTimer (S (nextId w))] w)
    with (step B (FireTimer (S (nextId w)))
            (step B (FireTimer (nextId w))
               (handleHotkeyDown B t2 (handleHotkeyDown B t1 w)))).
  rewrite (doubleTap_press_live B t1 w Hh Hp H1 Hl).
  set (w1 := mkWorld _ _ _ _ _ _ _ _ _ _ _).
  assert (Hh1 : handsFree w1 = false) by exact (eq_trans Phf Hh).
  assert (Hp1 : pendingStop w1 = false) by exact (eq_trans Ppend Hp).
  assert (Hw1 : doubleTapTest t2 w1 = true).
  { assert (El : lastPress w1 = lastPress w) by exact Plast.
    unfold doubleTapTest in *. rewrite El. exact H2. }
  assert (Hl1 : liveSession w1 = true) by exact Hl.
  rewrite (doubleTap_press_live B t2 w1 Hh1 Hp1 Hw1 Hl1).
  destruct (prepared_settled w1 Pt) as (Ef & Et).
  rewrite Ef, Et. unfold w1.
  cbn [flags pushToTalkService serviceGen monitor env immediates timers
       awaiting nextId log uncaught].
  clear Hh1 Hp1 Hw1 Hl1 Ef Et. clear w1.
  set (w2 := mkWorld _ _ _ _ _ _ _ _ _ _ _).
  destruct (fire_cleanup B (nextId w) (timers (prepared w))
              [(S (nextId w), TmAudioCleanup)] w2 s Hf)
    as (L3 & T3 & E3 & S3).
  { unfold w2. cbn [timers]. now rewrite <- app_assoc. }
  { exact Hs. }
  cbn [filter fst] in T3.
  replace (Nat.eqb (S (nextId w)) (nextId w)) with false in T3
    by (symmetry; apply Nat.eqb_neq; lia).
  cbn [negb] in T3.
  set (w3 := step B (FireTimer (nextId w)) w2) in *.
  destruct (fire_cleanup B (S (nextId w)) (timers (prepared w)) [] w3
              (start_called B (set_isHandsFreeMode true s)))
    as (L4 & _).
  { eapply Forall_impl; [|exact Hf]. cbn. intros. lia. }
  { exact T3. }
  { exact S3. }
  rewrite L4, L3, E3.
  rewrite <- !app_assoc. rewrite app_assoc. cbn [app].
  apply overlapping_two_starts, enterMessages_neutral.
Qed.

(** ** One session at a time *)

(** C1 fails on the code.  Tap, release, second tap 300 ms after the first
    (a double tap that cancels the session being transcribed), release,
    and a third key-down 5 ms later, while the handler of the second tap
    is waiting for its 10 ms timer.  [lastFnKeyTime] is still that of the
    first tap, so the third key-down is a double tap as well: it enters
    hands-free mode and calls start().  When the timer goes off, the
    handler of the second tap enters hands-free mode again and calls
    start() a second time; no stop() or hardStop() lies between the two
    calls and neither start() has failed. *)
Theorem start_issued_while_session_open :
  let before :=
    run ideal [StartMonitoring; KeyDown 1000; RunImmediate;
               Settle 0 true 1001; KeyUp; RunImmediate;
               KeyDown 1300; RunImmediate; KeyUp; RunImmediate;
               KeyDown 1305] (initial demoEnv) in
  let after := step ideal (FireTimer 1) before in
  overlapping false (log before) = false
  /\ handsFree before = true
  /\ timers before = [(1%nat, TmAudioCleanup)]
  /\ (exists pre, log before = pre ++ [Send Waveform DictationStart; CallStart])
  /\ log after = log before ++ [RecordJarvisUsage; WaveformShow;
                                Send Waveform DictationStart; CallStart]
  /\ overlapping false (log after) = true
  /\ count (sends DictationStart) (log after) = 2%nat
  /\ awaiting after = [(1%nat, AfterStopPushToTalk);
                       (1%nat, AfterHandsFreeStart);
                       (1%nat, AfterHandsFreeStart)].
Proof.
  cbv zeta. repeat split; try reflexivity.
  match goal with
  | |- exists pre, ?l = _ => exists (removelast (removelast l))
  end.
  reflexivity.
Qed.

(** ** Leaving hands-free mode, continued *)






Lemma settle_handsFreeStop_rejected (B : Backend) (k : nat) (t : Z) (w : World)
      (gen : nat) :
  nth_error (awaiting w) k = Some (gen, AfterHandsFreeStop) ->
  log (settle B k false t w) = log w ++ [StopSettled false]
  /\ uncaught (settle B k false t w) = S (uncaught w)
  /\ flags (settle B k false t w) = flags w
  /\ timers (settle B k false t w) = timers w
  /\ nextId (settle B k false t w) = nextId w
  /\ env (settle B k false t w) = env w.
Proof.
  intro H. unfold settle. rewrite H.
  open_world w. clear H.
  destruct svc; compute_ctl; destruct (Nat.eqb gen gen0); compute_ctl;
    repeat split; reflexivity.
Qed.

Lemma calls_windowMessages (ws : list Win) (chs : list Channel) :
  calls (windowMessages ws chs) = [].
Proof.
  unfold calls, windowMessages.
  induction ws as [|x ws IH]; cbn [flat_map]; [reflexivity|].
  rewrite filter_app, IH, app_nil_r.
  destruct (destroyed x); [reflexivity|]. clear IH.
  induction chs as [|c chs IHc]; cbn; auto.
Qed.

Lemma calls_app (l1 l2 : list Action) : calls (l1 ++ l2) = calls l1 ++ calls l2.
Proof. apply filter_app. Qed.

Lemma calls_keyUpNotifications (e : Env) : calls (keyUpNotifications e) = [].
Proof.
  unfold keyUpNotifications. rewrite !calls_app, calls_windowMessages.
  destruct (is_alive (waveformWindow e)), (non_null (dashboardWindow e));
    reflexivity.
Qed.

Lemma handleHotkeyUp_pending (B : Backend) (w : World) :
  pendingStop w = true ->
  pendingStop (handleHotkeyUp B w) = true
  /\ handsFree (handleHotkeyUp B w) = handsFree w
  /\ lastPress (handleHotkeyUp B w) = lastPress w
  /\ timers (handleHotkeyUp B w) = timers w ++ [(nextId w, TmPendingReset)]
  /\ calls (log (handleHotkeyUp B w)) = calls (log w).
Proof.
  intro Hp. split; [|split; [|split; [|split]]].
  5: { rewrite handleHotkeyUp_log, releaseDue_spec, Hp, orb_true_r. cbn.
       rewrite !calls_app, calls_keyUpNotifications. cbn.
       now rewrite app_nil_r. }
  all: unfold handleHotkeyUp; rewrite forEachWindow_log, releaseFeedback_log;
    open_world w; cbn in Hp; subst pend;
    destruct svc, hf; reflexivity.
Qed.

(** X2.  When the stop() of the hands-free exit is rejected, the rejection
    is not caught: the handler ends there, dictation-stop is not sent,
    dictation mode is not switched off and [pendingHandsFreeStop] stays
    set, so every further key press is ignored.  The next key release arms
    the 100 ms timer that clears the flag. *)
Theorem rejected_stop_blocks_until_release
        (B : Backend) (w : World) (s : PushToTalkService) (t0 t1 : Z) :
  Inv w -> handsFree w = true -> pendingStop w = false ->
  pushToTalkService w = Some s -> active s || transcribing s = true ->
  let w1 := handleHotkeyDown B t0 w in
  let w2 := settle B (List.length (awaiting w)) false t1 w1 in
  let w3 := handleHotkeyUp B w2 in
  let w4 := step B (FireTimer (nextId w)) w3 in
  uncaught w2 = S (uncaught w)
  /\ pendingStop w2 = true
  /\ count (sends DictationStop) (log w2) = count (sends DictationStop) (log w)
  /\ count isDictationOff (log w2) = count isDictationOff (log w)
  /\ (forall ts, run B (map KeyDown ts) w2 = w2)
  /\ pendingStop w3 = true
  /\ calls (log w3) = calls (log w2)
  /\ pendingStop w4 = false
  /\ handsFree w4 = false.
Proof.
  intros [Hf _] Hh Hp Hs Hb w1 w2 w3 w4.
  assert (E1 : w1 = handsFreeExit B (immediateFeedback w))
    by (apply handleHotkeyDown_handsFree; assumption).
  rewrite immediateFeedback_log in E1.
  rewrite (handsFreeExit_busy B _ s) in E1
    by (try assumption; destruct w; assumption).
  cbn in E1.
  destruct (settle_handsFreeStop_rejected B (List.length (awaiting w)) t1 w1
              (serviceGen w)) as (L2 & U2 & F2 & T2 & N2 & _).
  { rewrite E1. cbn. apply nth_error_last. }
  fold w2 in L2, U2, F2, T2, N2.
  assert (P2 : pendingStop w2 = true)
    by (unfold pendingStop; rewrite F2, E1; reflexivity).
  destruct (handleHotkeyUp_pending B w2 P2) as (P3 & H3 & _ & T3 & C3).
  fold w3 in P3, H3, T3, C3.
  assert (Ht : timers w3 = timers w ++ [(nextId w, TmPendingReset)]).
  { rewrite T3, T2, N2, E1. reflexivity. }
  assert (L1 : log w1 = log w ++ downFeedback (env w) ++ [CallStop])
    by (rewrite E1; cbn; now rewrite <- app_assoc).
  destruct (count_dictationStop_blocks (env w)) as (d1 & _).
  assert (d2 : count isDictationOff (downFeedback (env w)) = 0%nat).
  { unfold downFeedback.
    destruct (is_alive (waveformWindow (env w))), (showWaveform (env w)),
      (is_alive (dashboardWindow (env w))); reflexivity. }
  split; [rewrite U2, E1; reflexivity|].
  split; [exact P2|].
  split; [rewrite L2, L1, !count_app, d1; cbn; lia|].
  split; [rewrite L2, L1, !count_app, d2; cbn; lia|].
  split; [intro ts; now apply run_dropped|].
  split; [exact P3|].
  split; [exact C3|].
  unfold w4. cbn [step]. rewrite Ht, find_timer_snoc by exact Hf.
  cbn [fireTimer].
  assert (H2 : handsFree w2 = false)
    by (unfold handsFree; rewrite F2, E1; reflexivity).
  generalize dependent w3. intros v _ _ Hv _ _ _.
  rewrite <- H2, <- Hv. destruct v. split; reflexivity.
Qed.

Lemma rejected_stop_blocks_until_release_witness :
  uncaught (settle ideal 1 false 1500 (handleHotkeyDown ideal 1400 dictating))
  = 1%nat
  /\ pendingStop (settle ideal 1 false 1500
                    (handleHotkeyDown ideal 1400 dictating)) = true.
Proof.
  assert (I : Inv dictating).
  { unfold dictating, ready.
    apply Inv_run, Inv_startHotkeyMonitoring, Inv_initial. }
  destruct (rejected_stop_blocks_until_release ideal dictating
              (mkService true false (Some 1311) false true true false)
              1400 1500 I eq_refl eq_refl eq_refl eq_refl)
    as (H1 & H2 & _).
  split; [exact H1 | exact H2].
Defined.

(** X3.  Releasing the key in hands-free mode does not end the recording:
    handleHotkeyUp sends its notifications and clears
    [startedFromSingleTap], and nothing else; no stop() is issued even
    with the service active, no timer is armed and the hands-free flag
    stays on. *)
Theorem release_keeps_handsFree (B : Backend) (w : World) :
  handsFree w = true -> pendingStop w = false ->
  let w' := handleHotkeyUp B w in
  handsFree w' = true /\ pendingStop w' = false
  /\ lastPress w' = lastPress w
  /\ timers w' = timers w /\ awaiting w' = awaiting w
  /\ pushToTalkService w'
     = option_map (set_startedFromSingleTap false) (pushToTalkService w)
  /\ log w' = log w ++ keyUpNotifications (env w)
  /\ calls (log w') = calls (log w).
Proof.
  intros Hh Hp w'. subst w'.
  assert (L : log (handleHotkeyUp B w) = log w ++ keyUpNotifications (env w)).
  { rewrite handleHotkeyUp_log, releaseDue_spec, Hh. cbn.
    now rewrite app_nil_r. }
  repeat split; try exact L.
  7: { rewrite L, calls_app, calls_keyUpNotifications. apply app_nil_r. }
  all: unfold handleHotkeyUp; rewrite forEachWindow_log, releaseFeedback_log;
    open_world w; cbn in Hh, Hp; subst hf pend; destruct svc; reflexivity.
Qed.

Lemma release_keeps_handsFree_witness :
  calls (log (handleHotkeyUp ideal dictating)) = calls (log dictating)
  /\ backendActive (handleHotkeyUp ideal dictating) = true.
Proof.
  destruct (release_keeps_handsFree ideal dictating eq_refl eq_refl)
    as (_ & _ & _ & _ & _ & _ & _ & H).
  split; [exact H | reflexivity].
Defined.

(** ** Key events without a service *)

Lemma calls_single (c : bool) (a : Action) :
  isCall a = false -> calls (if c then [a] else []) = [].
Proof. intro H. destruct c; cbn; now rewrite ?H. Qed.

Lemma calls_downFeedback (e : Env) : calls (downFeedback e) = [].
Proof.
  unfold downFeedback.
  destruct (is_alive (waveformWindow e)), (showWaveform e),
    (is_alive (dashboardWindow e)); reflexivity.
Qed.

Lemma restart_free_snoc (l : list (nat * Timer)) (h : nat) (cb : Timer) :
  cb <> TmRestartMonitoring ->
  Forall (fun p => snd p <> TmRestartMonitoring) l ->
  Forall (fun p => snd p <> TmRestartMonitoring) (l ++ [(h, cb)]).
Proof.
  intros Hc Hl. apply Forall_app. split; [exact Hl|].
  constructor; [exact Hc | constructor].
Qed.

Lemma restart_free_filter (f : nat * Timer -> bool) (l : list (nat * Timer)) :
  Forall (fun p => snd p <> TmRestartMonitoring) l ->
  Forall (fun p => snd p <> TmRestartMonitoring) (filter f l).
Proof.
  intro H. apply Forall_forall. intros x Hx. apply filter_In in Hx.
  rewrite Forall_forall in H. now apply H.
Qed.

Lemma find_timer_restart_free (h : nat) (l : list (nat * Timer)) (cb : Timer) :
  Forall (fun p => snd p <> TmRestartMonitoring) l ->
  find_timer h l = Some cb -> cb <> TmRestartMonitoring.
Proof.
  induction 1 as [|[h' c] l Hc _ IH]; cbn; [discriminate|].
  destruct (Nat.eqb h' h); [|exact IH].
  intros [= <-]. exact Hc.
Qed.

(** Closes a goal on a computed world without service. *)
Ltac solve_unserviced :=
  split;
  [ split;
    [ reflexivity
    | repeat (assumption || apply restart_free_filter
              || (apply restart_free_snoc; [discriminate|])) ]
  | unfold calls; repeat rewrite filter_app;
    rewrite ?(fun e => calls_downFeedback e : filter isCall _ = _),
            ?(fun ws chs => calls_windowMessages ws chs : filter isCall _ = _);
    repeat match goal with
           | |- context [if ?c then _ else _] => destruct c
           end;
    cbn; rewrite ?app_nil_r; reflexivity ].

Lemma unserviced_handleHotkeyDown (B : Backend) (t : Z) (w : World) :
  unserviced w ->
  unserviced (handleHotkeyDown B t w)
  /\ calls (log (handleHotkeyDown B t w)) = calls (log w).
Proof.
  intros [Hs Ht]. unfold unserviced, no_restart_timer in *.
  unfold handleHotkeyDown, singleTap.
  rewrite forEachWindow_log, immediateFeedback_log.
  open_world w. cbn in Hs, Ht. subst svc.
  destruct pend, hf, pto; compute_ctl;
    try destruct (0 <? last); try destruct (t - last <? 600);
    try destruct (20 <? t - last); compute_ctl; solve_unserviced.
Qed.

Lemma unserviced_handleHotkeyUp (B : Backend) (w : World) :
  unserviced w ->
  unserviced (handleHotkeyUp B w)
  /\ calls (log (handleHotkeyUp B w)) = calls (log w).
Proof.
  intros [Hs Ht]. unfold unserviced, no_restart_timer in *.
  unfold handleHotkeyUp.
  rewrite forEachWindow_log, releaseFeedback_log.
  open_world w. cbn in Hs, Ht. subst svc.
  destruct pend, hf; compute_ctl; solve_unserviced.
Qed.

Lemma unserviced_step (B : Backend) (e : Event) (w : World) :
  notStartMonitoring e = true -> unserviced w ->
  unserviced (step B e w) /\ calls (log (step B e w)) = calls (log w).
Proof.
  intros He H. destruct e; try discriminate He; cbn [step].
  - now apply unserviced_handleHotkeyDown.
  - now apply unserviced_handleHotkeyUp.
  - destruct H as [Hs Ht]. unfold unserviced, no_restart_timer in *.
    open_world w. cbn in Hs, Ht. subst svc.
    destruct imm as [|cb rest]; [solve_unserviced|].
    destruct cb; compute_ctl; try destruct tut; try destruct onb;
      compute_ctl; solve_unserviced.
  - destruct H as [Hs Ht].
    destruct (find_timer h (timers w)) as [cb|] eqn:E.
    2: { split; [now split | reflexivity]. }
    pose proof (find_timer_restart_free h _ cb Ht E) as Hc.
    unfold unserviced, no_restart_timer in *.
    open_world w. cbn in Hs, Ht. subst svc. clear E.
    destruct cb; try (exfalso; now apply Hc); compute_ctl; solve_unserviced.
  - destruct H as [Hs Ht]. unfold settle.
    destruct (nth_error (awaiting w) k) as [[gen c]|].
    2: { split; [now split | reflexivity]. }
    unfold unserviced, no_restart_timer in *.
    open_world w. cbn in Hs, Ht. subst svc.
    destruct c, ok; compute_ctl; destruct (Nat.eqb gen gen0); compute_ctl;
      solve_unserviced.
  - destruct H as [Hs Ht]. unfold unserviced, no_restart_timer in *.
    open_world w. cbn in Hs, Ht. subst svc.
    destruct monKey; compute_ctl; solve_unserviced.
Qed.

(** X4.  Without a push-to-talk service (monitoring never started, or
    stopped) and with no restart scheduled, no sequence of key presses,
    key releases, timers, deferred callbacks and settling promises makes a
    call to a service, and none creates one: only startHotkeyMonitoring
    does. *)
Theorem no_service_no_calls (B : Backend) (es : list Event) (w : World) :
  unserviced w -> forallb notStartMonitoring es = true ->
  pushToTalkService (run B es w) = None
  /\ calls (log (run B es w)) = calls (log w).
Proof.
  unfold run.
  revert w. induction es as [|e es IH]; intros w H Hes; cbn [fold_left].
  - split; [apply H | reflexivity].
  - cbn in Hes. apply andb_true_iff in Hes as [He Hes].
    destruct (unserviced_step B e w He H) as [H1 C1].
    destruct (IH (step B e w) H1 Hes) as [H2 C2].
    split; [exact H2 | congruence].
Qed.

Lemma no_service_no_calls_witness :
  calls (log (run ideal [KeyDown 1000; RunImmediate; KeyUp; KeyDown 1300;
                         FireTimer 0; KeyUp; KeyDown 2000]
                  (initial demoEnv))) = [].
Proof.
  destruct (no_service_no_calls ideal
              [KeyDown 1000; RunImmediate; KeyUp; KeyDown 1300;
               FireTimer 0; KeyUp; KeyDown 2000] (initial demoEnv))
    as [_ H].
  - split; [reflexivity | constructor].
  - reflexivity.
  - exact H.
Defined.

(** ** A complete push-to-talk tap *)

Lemma calls_blocks (e : Env) :
  calls (tapBroadcast e) = [] /\ calls (startFeedback e) = []
  /\ calls (cancelMessages e) = [] /\ calls (enterMessages e) = []
  /\ calls (exitMessages e) = [].
Proof.
  unfold tapBroadcast, startFeedback, cancelMessages, enterMessages,
    exitMessages.
  rewrite !calls_app, calls_windowMessages.
  destruct (non_null (dashboardWindow e)), (non_null (waveformWindow e)),
    (showWaveform e && is_alive (waveformWindow e)), (userNudgeService e);
    repeat split.
Qed.

Lemma settle_singleTap_ok (B : Backend) (k : nat) (t : Z) (w : World)
      (s : PushToTalkService) :
  nth_error (awaiting w) k = Some (serviceGen w, AfterSingleTapStart) ->
  pushToTalkService w = Some s ->
  log (settle B k true t w) = log w ++ [StartSettled true]
  /\ pushToTalkService (settle B k true t w) = Some (start_settled B true t s)
  /\ flags (settle B k true t w) = flags w
  /\ env (settle B k true t w) = env w
  /\ uncaught (settle B k true t w) = uncaught w.
Proof.
  intros H Hs. unfold settle. rewrite H.
  open_world w. clear H. cbn in Hs. subst svc.
  compute_ctl. rewrite Nat.eqb_refl. repeat split.
Qed.

Lemma handleHotkeyUp_release (B : Backend) (w : World) (s : PushToTalkService) :
  handsFree w = false -> pendingStop w = false ->
  pushToTalkService w = Some s ->
  active s = true -> truthy (recordingStartTime s) = true ->
  pushToTalkService (handleHotkeyUp B w)
  = Some (stop_called B (set_startedFromSingleTap false s))
  /\ flags (handleHotkeyUp B w) = set_fnKeyPressed false (flags w)
  /\ uncaught (handleHotkeyUp B w) = uncaught w.
Proof.
  intros Hh Hp Hs Ha Ht. unfold handleHotkeyUp.
  rewrite forEachWindow_log, releaseFeedback_log.
  open_world w. cbn in Hh, Hp, Hs. subst hf pend svc.
  destruct s as [a tr rst sf ihf afb str]. cbn in Ha, Ht. subst a.
  compute_ctl. rewrite Ht. repeat split.
Qed.

(** X6.  A plain tap.  From an idle controller, a key press outside the
    double-tap window, the start() it issues resolving with the service
    active and a start time recorded, then the key release: the service
    gets exactly one start() followed by one graceful stop(), no
    hardStop(), and no cancellation is sent.  The press stays recorded in
    [lastFnKeyTime], so a press within the next 600 ms counts as a double
    tap. *)
Theorem single_tap_cycle (B : Backend) (w : World) (s : PushToTalkService)
        (t t1 : Z) :
  handsFree w = false -> pendingStop w = false -> ~ inWindow t w ->
  pushToTalkService w = Some s -> active s || transcribing s = false ->
  let s1 := start_settled B true t1
              (start_called B (set_startedFromSingleTap true s)) in
  active s1 = true -> truthy (recordingStartTime s1) = true ->
  let w3 := run B [KeyDown t; Settle (List.length (awaiting w)) true t1; KeyUp]
                w in
  calls (log w3) = calls (log w) ++ [CallStart; CallStop]
  /\ count (sends PushToTalkCancel) (log w3)
     = count (sends PushToTalkCancel) (log w)
  /\ pushToTalkService w3
     = Some (stop_called B (set_startedFromSingleTap false s1))
  /\ handsFree w3 = false /\ pendingStop w3 = false
  /\ lastPress w3 = t
  /\ uncaught w3 = uncaught w.
Proof.
  intros Hh Hp Hw Hs Hb s1 Ha Ht w3.
  set (w1 := handleHotkeyDown B t w).
  set (w2 := settle B (List.length (awaiting w)) true t1 w1).
  assert (E3 : w3 = handleHotkeyUp B w2) by reflexivity.
  destruct (prepared_fields w)
    as (Pl & Ps & Pe & _ & Ph & Pp & _ & Pa & _ & Pg & Pu).
  assert (E1 : w1 = singleTap B t (prepared w)).
  { unfold w1. rewrite handleHotkeyDown_classified by assumption.
    apply doubleTapTest_false in Hw. now rewrite Hw. }
  rewrite <- Ps in Hs.
  destruct (singleTap_idle B t (prepared w) s Hs Hb)
    as (L1 & S1 & H1 & P1 & T1 & A1 & _ & U1 & En1 & G1).
  rewrite <- E1 in L1, S1, H1, P1, T1, A1, U1, En1, G1.
  rewrite Pl, Pe in L1. rewrite Pa, Pg in A1. rewrite Pe in En1.
  assert (N1 : nth_error (awaiting w1) (List.length (awaiting w))
               = Some (serviceGen w1, AfterSingleTapStart)).
  { rewrite A1, G1, Pg. apply nth_error_last. }
  destruct (settle_singleTap_ok B (List.length (awaiting w)) t1 w1 _ N1 S1)
    as (L2 & S2 & F2 & En2 & U2).
  fold w2 in L2, S2, F2, En2, U2. fold s1 in S2.
  assert (Hh2 : handsFree w2 = false)
    by (unfold handsFree in *; rewrite F2; congruence).
  assert (Hp2 : pendingStop w2 = false)
    by (unfold pendingStop in *; rewrite F2; congruence).
  destruct (handleHotkeyUp_release B w2 s1 Hh2 Hp2 S2 Ha Ht) as (S3 & F3 & U3).
  pose proof (handleHotkeyUp_log B w2) as L3.
  rewrite releaseDue_spec, Hh2, Hp2 in L3.
  unfold backendActive, hasStartTime in L3. rewrite S2, Ha, Ht in L3.
  cbn [negb orb andb] in L3.
  rewrite <- E3 in S3, F3, U3, L3.
  destruct (calls_blocks (env w)) as (b1 & b2 & _).
  destruct (count_cancel_blocks (env w)) as (c1 & c2 & _ & c4 & _).
  assert (c5 : count (sends PushToTalkCancel) (keyUpNotifications (env w2))
               = 0%nat) by count_blocks.
  split; [|split; [|split; [|split; [|split; [|split]]]]].
  - rewrite L3, L2, L1, !calls_app, calls_keyUpNotifications,
      calls_downFeedback, b1, b2.
    destruct (non_null (waveformWindow (env w2))); cbn;
      rewrite ?app_nil_r, <- ?app_assoc; reflexivity.
  - rewrite L3, L2, L1, !count_app, c1, c2, c4, c5.
    destruct (non_null (waveformWindow (env w2))); cbn; lia.
  - exact S3.
  - unfold handsFree in *. rewrite F3. cbn. exact Hh2.
  - unfold pendingStop in *. rewrite F3. cbn. exact Hp2.
  - unfold lastPress in *. rewrite F3. cbn. rewrite F2. exact T1.
  - congruence.
Qed.

Lemma single_tap_cycle_witness :
  calls (log (run ideal [KeyDown 1000; Settle 0 true 1001; KeyUp] ready))
  = [CallStart; CallStop].
Proof.
  assert (Hw : ~ inWindow 1000 ready) by (unfold inWindow; cbn; lia).
  destruct (single_tap_cycle ideal ready
              (mkService false false None false false true false) 1000 1001
              eq_refl eq_refl Hw eq_refl eq_refl eq_refl eq_refl) as (H & _).
  exact H.
Defined.

(** ** The deferred onboarding check *)

(** X7.  The onboarding check of handleHotkeyDown does not gate the
    recording.  start() has been issued when the handler returns, whatever
    the onboarding state and the tutorial mode, and the check runs later
    from the setImmediate queue; there it can only send one more
    push-to-talk-start (onboarding not completed, voice tutorial off): it
    makes no call to the service and leaves the service, the outstanding
    start() and the key variables as they are. *)
Theorem onboarding_check_does_not_gate (B : Backend) (w : World)
        (s : PushToTalkService) (t : Z) :
  handsFree w = false -> pendingStop w = false -> ~ inWindow t w ->
  pushToTalkService w = Some s -> active s || transcribing s = false ->
  immediates w = [] ->
  let w1 := handleHotkeyDown B t w in
  let w2 := step B RunImmediate w1 in
  calls (log w1) = calls (log w) ++ [CallStart]
  /\ immediates w1 = [ImmAuthDown]
  /\ log w2 = log w1
       ++ (if negb (isVoiceTutorialMode (env w))
              && negb (onboardingComplete (env w))
              && non_null (waveformWindow (env w))
           then [Send Waveform PushToTalkStart] else [])
  /\ calls (log w2) = calls (log w1)
  /\ pushToTalkService w2 = pushToTalkService w1
  /\ awaiting w2 = awaiting w1
  /\ flags w2 = flags w1.
Proof.
  intros Hh Hp Hw Hs Hb Hi w1 w2.
  destruct (prepared_fields w)
    as (Pl & Ps & Pe & _ & _ & _ & Pi & _).
  assert (E1 : w1 = singleTap B t (prepared w)).
  { unfold w1. rewrite handleHotkeyDown_classified by assumption.
    apply doubleTapTest_false in Hw. now rewrite Hw. }
  rewrite <- Ps in Hs.
  destruct (singleTap_idle B t (prepared w) s Hs Hb)
    as (L1 & _ & _ & _ & _ & _ & I1 & _ & En1 & _).
  rewrite <- E1 in L1, I1, En1. rewrite Pl, Pe in L1.
  rewrite Pi, Hi in I1. rewrite Pe in En1. cbn in I1.
  destruct (calls_blocks (env w)) as (b1 & b2 & _).
  assert (R : log w2 = log w1
                ++ (if negb (isVoiceTutorialMode (env w))
                       && negb (onboardingComplete (env w))
                       && non_null (waveformWindow (env w))
                    then [Send Waveform PushToTalkStart] else [])
              /\ pushToTalkService w2 = pushToTalkService w1
              /\ awaiting w2 = awaiting w1 /\ flags w2 = flags w1).
  { unfold w2. cbn [step]. rewrite I1. rewrite <- En1.
    clear. open_world w1.
    destruct tut, onb, (non_null wave) eqn:E; compute_ctl; rewrite ?E;
      rewrite ?app_nil_r; repeat split. }
  destruct R as (R1 & R2 & R3 & R4).
  split; [|split; [exact I1|split; [exact R1|split; [|now repeat split]]]].
  - rewrite L1, !calls_app, calls_downFeedback, b1, b2. cbn.
    now rewrite !app_nil_r.
  - rewrite R1, calls_app.
    destruct (negb (isVoiceTutorialMode (env w))
              && negb (onboardingComplete (env w))
              && non_null (waveformWindow (env w))); cbn;
      now rewrite app_nil_r.
Qed.

Lemma onboarding_check_does_not_gate_witness :
  calls (log (handleHotkeyDown ideal 1000 ready)) = [CallStart].
Proof.
  assert (Hw : ~ inWindow 1000 ready) by (unfold inWindow; cbn; lia).
  destruct (onboarding_check_does_not_gate ideal ready
              (mkService false false None false false true false) 1000
              eq_refl eq_refl Hw eq_refl eq_refl eq_refl) as (H & _).
  exact H.
Defined.

(** ** Restarting the monitoring *)

Lemma stopHotkeyMonitoring_fields (B : Backend) (w : World) :
  pushToTalkService (stopHotkeyMonitoring B w) = None
  /\ monitor (stopHotkeyMonitoring B w)
     = mkMonitor (isHotkeyMonitoringActive (monitor w))
                 (lastActiveHotkey (monitor w)) None
  /\ calls (log (stopHotkeyMonitoring B w))
     = calls (log w) ++ (if backendActive w then [CallStop] else [])
  /\ env (stopHotkeyMonitoring B w) = env w
  /\ serviceGen (stopHotkeyMonitoring B w) = serviceGen w
  /\ timers (stopHotkeyMonitoring B w) = timers w
  /\ nextId (stopHotkeyMonitoring B w) = nextId w
  /\ flags (stopHotkeyMonitoring B w) = flags w.
Proof.
  open_world w.
  destruct svc as [[a tr rst sf ihf afb str]|], monKey; try destruct a;
    compute_ctl; repeat split; unfold calls; rewrite ?filter_app; cbn;
    rewrite ?app_nil_r, <- ?app_assoc; reflexivity.
Qed.

Lemma startHotkeyMonitoring_fields (B : Backend) (w : World) :
  alreadyMonitoring w = false ->
  let w' := startHotkeyMonitoring B w in
  let ok := supportedKey (hotkey (env w)) && keyMonitorStarts (env w) in
  pushToTalkService w'
  = Some (construct B (audioFeedback (env w)) (shouldUseStreaming (env w)))
  /\ serviceGen w' = S (serviceGen w)
  /\ calls (log w')
     = calls (log w)
         ++ (if isHotkeyMonitoringActive (monitor w) && backendActive w
             then [CallStop] else [])
  /\ monitor w'
     = (if ok then mkMonitor true (Some (hotkey (env w))) (Some (hotkey (env w)))
        else mkMonitor (isHotkeyMonitoringActive (monitor w))
                       (lastActiveHotkey (monitor w))
                       (if isHotkeyMonitoringActive (monitor w)
                           || supportedKey (hotkey (env w))
                        then None else universalKeyService (monitor w)))
  /\ hotkey (env w')
     = (if supportedKey (hotkey (env w)) then hotkey (env w) else "fn"%string)
  /\ timers w'
     = timers w ++ (if supportedKey (hotkey (env w)) then []
                    else [(nextId w, TmRestartMonitoring)])
  /\ keyMonitorStarts (env w') = keyMonitorStarts (env w)
  /\ flags w' = flags w.
Proof.
  intros G w' ok. subst w' ok. unfold startHotkeyMonitoring. rewrite G.
  unfold shouldUseStreaming. clear G.
  destruct (supportedKey (hotkey (env w))).
  all: open_world w.
  all: destruct svc as [[a tr rst sf ihf afb str]|], monKey, monActive;
    try destruct a; destruct kms;
    compute_ctl; repeat split; unfold calls; rewrite ?filter_app; cbn;
    rewrite ?app_nil_r, <- ?app_assoc; reflexivity.
Qed.

(** X8.  startHotkeyMonitoring leaves things alone only when the
    configured hotkey is already being monitored.  In every other state it
    creates a new PushToTalkService from the current settings, whatever
    the hotkey and whether or not the key monitor starts.  The old service gets a graceful stop() only if the
    monitoring was marked active and the service was active; it is never
    hard-stopped.  When the key monitor does not start, the next call is
    not skipped either, so the start is tried again. *)
Theorem startHotkeyMonitoring_rebuilds (B : Backend) (w : World) :
  alreadyMonitoring w = false ->
  let w' := startHotkeyMonitoring B w in
  w' <> w
  /\ pushToTalkService w'
     = Some (construct B (audioFeedback (env w)) (shouldUseStreaming (env w)))
  /\ serviceGen w' = S (serviceGen w)
  /\ calls (log w')
     = calls (log w)
         ++ (if isHotkeyMonitoringActive (monitor w) && backendActive w
             then [CallStop] else [])
  /\ (supportedKey (hotkey (env w)) = true ->
      keyMonitorStarts (env w) = true ->
      monitor w' = mkMonitor true (Some (hotkey (env w)))
                             (Some (hotkey (env w)))
      /\ alreadyMonitoring w' = true)
  /\ (supportedKey (hotkey (env w)) = true ->
      keyMonitorStarts (env w) = false ->
      universalKeyService (monitor w') = None
      /\ isHotkeyMonitoringActive (monitor w')
         = isHotkeyMonitoringActive (monitor w)
      /\ alreadyMonitoring w' = false).
Proof.
  intros G w'.
  destruct (startHotkeyMonitoring_fields B w G)
    as (S1 & G1 & C1 & M1 & K1 & _).
  fold w' in S1, G1, C1, M1, K1.
  split; [|split; [exact S1|split; [exact G1|split; [exact C1|split]]]].
  - intro E. rewrite E in G1. lia.
  - intros Hk Hs. rewrite Hk, Hs in M1. cbn in M1.
    split; [exact M1|].
    unfold alreadyMonitoring. rewrite M1, K1, Hk. cbn. apply String.eqb_refl.
  - intros Hk Hs. rewrite Hk, Hs in M1. cbn in M1.
    rewrite orb_true_r in M1.
    unfold alreadyMonitoring. rewrite M1. cbn.
    now rewrite andb_false_r.
Qed.

Lemma startHotkeyMonitoring_rebuilds_witness :
  serviceGen (startHotkeyMonitoring ideal (stopHotkeyMonitoring ideal recording))
  = 2%nat.
Proof.
  destruct (startHotkeyMonitoring_rebuilds ideal
              (stopHotkeyMonitoring ideal recording) eq_refl)
    as (_ & _ & H & _).
  exact H.
Defined.

(** X9.  A settings-driven restart: restartHotkeyMonitoring stops the
    monitoring at once and starts it again from a timer.  In between there
    is neither a key service nor a push-to-talk service.  Once the timer
    has fired, with a supported hotkey and a key monitor that starts, the
    configured hotkey is monitored with a new PushToTalkService; this
    holds also when that hotkey was being monitored before, where a direct
    startHotkeyMonitoring would have done nothing.  The session of the old
    service gets one graceful stop() if the service was active and nothing
    otherwise: a service that is only transcribing is dropped as it is. *)
Theorem restart_rebinds_hotkey (B : Backend) (w : World) :
  fresh_timers w ->
  supportedKey (hotkey (env w)) = true -> keyMonitorStarts (env w) = true ->
  let w1 := restartHotkeyMonitoring B w in
  let w2 := step B (FireTimer (nextId w)) w1 in
  pushToTalkService w1 = None
  /\ universalKeyService (monitor w1) = None
  /\ monitor w2 = mkMonitor true (Some (hotkey (env w))) (Some (hotkey (env w)))
  /\ pushToTalkService w2
     = Some (construct B (audioFeedback (env w)) (shouldUseStreaming (env w)))
  /\ serviceGen w2 = S (serviceGen w)
  /\ calls (log w2)
     = calls (log w) ++ (if backendActive w then [CallStop] else [])
  /\ timers w2 = timers w
  /\ flags w2 = flags w.
Proof.
  intros Hf Hk Hs w1 w2.
  destruct (stopHotkeyMonitoring_fields B w)
    as (S0 & M0 & C0 & E0 & G0 & T0 & N0 & F0).
  set (v := stopHotkeyMonitoring B w) in *.
  assert (E1 : w1 = setTimeout TmRestartMonitoring v) by reflexivity.
  assert (T1 : timers w1 = timers w ++ [(nextId w, TmRestartMonitoring)]).
  { rewrite E1. destruct v. cbn in *. now rewrite T0, N0. }
  set (u := clearTimeout (nextId w) w1).
  assert (E2 : w2 = startHotkeyMonitoring B u).
  { unfold w2. cbn [step]. rewrite T1, find_timer_snoc by exact Hf.
    reflexivity. }
  assert (Fu : pushToTalkService u = None /\ monitor u = monitor v
               /\ env u = env w /\ serviceGen u = serviceGen w
               /\ calls (log u) = calls (log v) /\ timers u = timers w
               /\ flags u = flags w).
  { unfold u, clearTimeout. rewrite T1, filter_fresh_snoc by exact Hf.
    rewrite E1. destruct v. cbn in *. subst. repeat split. }
  destruct Fu as (Su & Mu & Eu & Gu & Cu & Tu & Flu).
  assert (Gd : alreadyMonitoring u = false).
  { unfold alreadyMonitoring. rewrite Mu, M0. cbn. now rewrite andb_false_r. }
  destruct (startHotkeyMonitoring_fields B u Gd)
    as (S2 & G2 & C2 & M2 & _ & T2 & _ & F2).
  rewrite <- E2 in S2, G2, C2, M2, T2, F2.
  rewrite Eu, Hk, Hs in *. cbn in M2.
  unfold backendActive in C2 at 1. rewrite Su, andb_false_r in C2.
  rewrite app_nil_r in C2, T2.
  split; [rewrite E1; destruct v; exact S0|].
  split; [rewrite E1; destruct v; cbn in *; now rewrite M0|].
  split; [exact M2|]. split; [exact S2|].
  split; [congruence|]. split; [congruence|]. split; congruence.
Qed.

Lemma restart_rebinds_hotkey_witness :
  calls (log (step ideal (FireTimer 1)
                (restartHotkeyMonitoring ideal recording)))
  = [CallStart; CallStop].
Proof.
  assert (Hf : fresh_timers recording).
  { apply (Inv_run ideal), Inv_startHotkeyMonitoring, Inv_initial. }
  destruct (restart_rebinds_hotkey ideal recording Hf eq_refl eq_refl)
    as (_ & _ & _ & _ & _ & H & _).
  exact H.
Defined.

Lemma supported_not_monitored (w : World) :
  supportedKey (hotkey (env w)) = false ->
  (forall k, lastActiveHotkey (monitor w) = Some k -> supportedKey k = true) ->
  alreadyMonitoring w = false.
Proof.
  intros Hk Hl. unfold alreadyMonitoring, sameHotkey.
  destruct (lastActiveHotkey (monitor w)) as [l|]; [|now rewrite andb_false_r].
  destruct (String.eqb (hotkey (env w)) l) eqn:E; [|now rewrite andb_false_r].
  apply String.eqb_eq in E. rewrite E, (Hl l eq_refl) in Hk. discriminate.
Qed.

(** X10.  A hotkey setting outside fn, option and control (the removed
    'space' included) is replaced by 'fn': startHotkeyMonitoring writes the
    setting, starts no key service and leaves the rest to a timer, and
    when the timer has fired the key monitor runs on 'fn'.  The detour
    builds the PushToTalkService twice: the one made by the first call is
    replaced by the second call, and it is stopped first only if the
    monitoring was marked active and the new service reports itself
    active. *)
Theorem unsupported_hotkey_falls_back (B : Backend) (w : World) :
  fresh_timers w ->
  supportedKey (hotkey (env w)) = false ->
  (forall k, lastActiveHotkey (monitor w) = Some k -> supportedKey k = true) ->
  keyMonitorStarts (env w) = true ->
  let w1 := startHotkeyMonitoring B w in
  let w2 := step B (FireTimer (nextId w)) w1 in
  let fresh := construct B (audioFeedback (env w)) (shouldUseStreaming (env w)) in
  hotkey (env w1) = "fn"%string
  /\ pushToTalkService w1 = Some fresh
  /\ alreadyMonitoring w1 = false
  /\ timers w1 = timers w ++ [(nextId w, TmRestartMonitoring)]
  /\ monitor w2 = mkMonitor true (Some "fn"%string) (Some "fn"%string)
  /\ hotkey (env w2) = "fn"%string
  /\ serviceGen w2 = S (S (serviceGen w))
  /\ timers w2 = timers w
  /\ calls (log w2)
     = calls (log w)
         ++ (if isHotkeyMonitoringActive (monitor w) && backendActive w
             then [CallStop] else [])
         ++ (if isHotkeyMonitoringActive (monitor w) && active fresh
             then [CallStop] else []).
Proof.
  intros Hf Hk Hl Hs w1 w2 fresh.
  pose proof (supported_not_monitored w Hk Hl) as G.
  destruct (startHotkeyMonitoring_fields B w G)
    as (S1 & G1 & C1 & M1 & K1 & T1 & KS1 & F1).
  fold w1 in S1, G1, C1, M1, K1, T1, KS1, F1. fold fresh in S1.
  rewrite Hk in M1, K1, T1. cbn in M1. rewrite orb_false_r in M1.
  assert (G1' : alreadyMonitoring w1 = false).
  { unfold alreadyMonitoring. rewrite M1. cbn.
    destruct (isHotkeyMonitoringActive (monitor w)); reflexivity. }
  set (u := clearTimeout (nextId w) w1).
  assert (E2 : w2 = startHotkeyMonitoring B u).
  { unfold w2. cbn [step]. rewrite T1, find_timer_snoc by exact Hf.
    reflexivity. }
  assert (Fu : pushToTalkService u = pushToTalkService w1
               /\ monitor u = monitor w1 /\ env u = env w1
               /\ serviceGen u = serviceGen w1 /\ log u = log w1
               /\ timers u = timers w).
  { unfold u, clearTimeout. rewrite T1, filter_fresh_snoc by exact Hf.
    destruct w1. repeat split. }
  destruct Fu as (Su & Mu & Eu & Gu & Lu & Tu).
  assert (Gd : alreadyMonitoring u = false).
  { unfold alreadyMonitoring. rewrite Mu, Eu. exact G1'. }
  destruct (startHotkeyMonitoring_fields B u Gd)
    as (S2 & G2 & C2 & M2 & K2 & T2 & _ & _).
  rewrite <- E2 in S2, G2, C2, M2, K2, T2.
  assert (Hfn : supportedKey (hotkey (env u)) = true)
    by (rewrite Eu, K1; reflexivity).
  rewrite Hfn in M2, K2, T2. rewrite Eu, KS1, Hs in M2. cbn in M2.
  rewrite K1 in M2. rewrite Eu, K1 in K2. rewrite app_nil_r in T2.
  unfold backendActive in C2 at 1. rewrite Su, S1, Mu, M1, Lu, C1 in C2.
  cbn [isHotkeyMonitoringActive] in C2.
  repeat split; try assumption; try congruence.
  rewrite C2, <- app_assoc. reflexivity.
Qed.

Lemma unsupported_hotkey_falls_back_witness :
  monitor (step ideal (FireTimer 0)
             (startHotkeyMonitoring ideal
                (initial (set_hotkey "space" demoEnv))))
  = mkMonitor true (Some "fn"%string) (Some "fn"%string).
Proof.
  assert (Hf : fresh_timers (initial (set_hotkey "space" demoEnv)))
    by apply Inv_initial.
  assert (Hl : forall k,
             lastActiveHotkey (monitor (initial (set_hotkey "space" demoEnv)))
             = Some k -> supportedKey k = true)
    by (intros k E; discriminate E).
  destruct (unsupported_hotkey_falls_back ideal
              (initial (set_hotkey "space" demoEnv)) Hf eq_refl Hl eq_refl)
    as (_ & _ & _ & _ & H & _).
  exact H.
Defined.

(** ** Deactivation *)

(** X11.  deactivateOverlaysAndShortcuts never waits for the service: its
    own [await pushToTalkService.stop()] is not reached, since
    stopHotkeyMonitoring, called first, has already set the variable to
    null.  The session gets the graceful stop() of stopHotkeyMonitoring
    if the service was active and no call at all otherwise; the function
    runs to its end in one go, hides the waveform and suggestion windows
    that are alive and destroys the nudge service if there is one. *)
Theorem deactivate_never_awaits
        (B : Backend) (suggestion : WindowState) (w : World) :
  exists w' overlay,
    deactivateOverlaysAndShortcuts B suggestion w = Deactivated w' overlay
    /\ pushToTalkService w' = None
    /\ universalKeyService (monitor w') = None
    /\ userNudgeService (env w') = false
    /\ calls (log w')
       = calls (log w) ++ (if backendActive w then [CallStop] else [])
    /\ awaiting w'
       = awaiting w ++ (if backendActive w
                        then [(serviceGen w, AfterMonitoringStop)] else [])
    /\ count (fun a => match a with UnregisterAllShortcuts => true
                               | _ => false end) (log w')
       = (count (fun a => match a with UnregisterAllShortcuts => true
                                 | _ => false end) (log w) + 2)%nat
    /\ overlay
       = (if is_alive (waveformWindow (env w)) then [HideWaveform] else [])
           ++ (if is_alive suggestion then [HideSuggestion] else [])
           ++ (if userNudgeService (env w) then [DestroyNudgeService] else []).
Proof.
  unfold deactivateOverlaysAndShortcuts.
  open_world w.
  destruct svc as [[a tr rst sf ihf afb str]|], monKey; try destruct a;
    destruct nudge; compute_ctl; cbv [set_userNudgeService];
    compute_ctl; (do 2 eexists); (split; [reflexivity|]);
    unfold calls, count; rewrite ?filter_app; cbn;
    rewrite ?app_nil_r, ?length_app, <- ?app_assoc; cbn;
    repeat split; try reflexivity; try lia.
Qed.

(** ** The single-tap timer *)

Lemma find_timer_In (h : nat) (cb : Timer) (l : list (nat * Timer)) :
  find_timer h l = Some cb -> In (h, cb) l.
Proof.
  induction l as [|[h' c] l IH]; cbn; [discriminate|].
  destruct (Nat.eqb_spec h' h); intro E.
  - left. congruence.
  - right. now apply IH.
Qed.

Lemma NoDup_handles_filter (f : nat * Timer -> bool) (l : list (nat * Timer)) :
  NoDup (map fst l) -> NoDup (map fst (filter f l)).
Proof.
  induction l as [|p l IH]; cbn; intro H; [constructor|].
  inversion H as [|? ? Hn Hd]; subst.
  destruct (f p); cbn; [constructor|]; auto.
  intro Hin. apply Hn. apply in_map_iff in Hin.
  destruct Hin as (q & Eq & Hq). apply filter_In in Hq.
  apply in_map_iff. exists q. tauto.
Qed.

Lemma NoDup_handles_unique (h : nat) (c c' : Timer) (l : list (nat * Timer)) :
  NoDup (map fst l) -> In (h, c) l -> In (h, c') l -> c = c'.
Proof.
  induction l as [|[h0 c0] l IH]; cbn; intros H H1 H2; [contradiction|].
  inversion H as [|? ? Hn Hd]; subst.
  destruct H1 as [E1|H1], H2 as [E2|H2].
  - congruence.
  - inversion E1; subst. exfalso. apply Hn.
    apply in_map_iff. now exists (h, c').
  - inversion E2; subst. exfalso. apply Hn.
    apply in_map_iff. now exists (h, c).
  - now apply IH.
Qed.

Lemma tap_snoc_other (pto : option nat) (tms : list (nat * Timer)) (nid : nat)
      (cb : Timer) :
  cb <> TmSingleTap -> tap_timer pto tms nid ->
  tap_timer pto (tms ++ [(nid, cb)]) (S nid).
Proof.
  intros Hc (Hf & Hd & Hi). split; [now apply fresh_snoc|]. split.
  - rewrite map_app. cbn. apply NoDup_app; [exact Hd | repeat constructor; auto |].
    intros a Ha [E|[]]. subst a. apply in_map_iff in Ha.
    destruct Ha as (p & Ep & Hp). rewrite Forall_forall in Hf.
    specialize (Hf p Hp). lia.
  - intro h. rewrite in_app_iff, <- Hi. cbn. split; [|tauto].
    intros [H|[E|[]]]; [exact H|]. congruence.
Qed.

Lemma tap_snoc_tap (tms : list (nat * Timer)) (nid : nat) :
  tap_timer None tms nid ->
  tap_timer (Some nid) (tms ++ [(nid, TmSingleTap)]) (S nid).
Proof.
  intros (Hf & Hd & Hi). split; [now apply fresh_snoc|]. split.
  - rewrite map_app. cbn. apply NoDup_app; [exact Hd | repeat constructor; auto |].
    intros a Ha [E|[]]. subst a. apply in_map_iff in Ha.
    destruct Ha as (p & Ep & Hp). rewrite Forall_forall in Hf.
    specialize (Hf p Hp). lia.
  - intro h. rewrite in_app_iff. cbn. split.
    + intros [H|[E|[]]]; [apply Hi in H; discriminate | congruence].
    + intro E. right. left. congruence.
Qed.

Lemma tap_clear (h : nat) (tms : list (nat * Timer)) (nid : nat) :
  tap_timer (Some h) tms nid ->
  tap_timer None (filter (fun p => negb (Nat.eqb (fst p) h)) tms) nid.
Proof.
  intros (Hf & Hd & Hi). split; [now apply fresh_filter|].
  split; [now apply NoDup_handles_filter|].
  intro k. split; [|discriminate].
  intro H. apply filter_In in H. destruct H as [H E]. cbn in E.
  apply Hi in H. inversion H; subst. now rewrite Nat.eqb_refl in E.
Qed.

Lemma tap_fire (pto : option nat) (tms : list (nat * Timer)) (nid h : nat)
      (cb : Timer) :
  tap_timer pto tms nid -> find_timer h tms = Some cb ->
  (cb = TmSingleTap -> pto = Some h)
  /\ tap_timer (match cb with TmSingleTap => None | _ => pto end)
               (filter (fun p => negb (Nat.eqb (fst p) h)) tms) nid.
Proof.
  intros (Hf & Hd & Hi) E. apply find_timer_In in E.
  split; [intro; subst cb; now apply Hi|].
  assert (K : cb <> TmSingleTap ->
              tap_timer pto (filter (fun p => negb (Nat.eqb (fst p) h)) tms) nid).
  { intro Hc. split; [now apply fresh_filter|].
    split; [now apply NoDup_handles_filter|].
    intro k. rewrite <- Hi, filter_In. cbn. split; [tauto|].
    intro H. split; [exact H|].
    destruct (Nat.eqb_spec k h); [|reflexivity]. subst k.
    exfalso. apply Hc. exact (NoDup_handles_unique h _ _ tms Hd E H). }
  destruct cb; try (apply K; discriminate).
  apply Hi in E. subst pto. now apply tap_clear.
Qed.

Ltac solve_tap :=
  repeat (assumption || apply tap_snoc_tap || apply tap_clear
          || (apply tap_snoc_other; [discriminate|])).

Ltac open_tap w H :=
  unfold tap_timer_inv in *; open_world w; compute_ctl.

Lemma tap_initial (e : Env) : tap_timer_inv (initial e).
Proof.
  split; [constructor|]. split; [constructor|].
  intro h. cbn. split; [tauto | discriminate].
Qed.

Lemma tap_set_log (l : list Action) (w : World) :
  tap_timer_inv w -> tap_timer_inv (set_log l w).
Proof. intro H. open_tap w H. exact H. Qed.

Lemma tap_prepared (w : World) :
  tap_timer_inv w ->
  tap_timer_inv (prepared w)
  /\ pendingSingleTapTimeout (flags (prepared w)) = None.
Proof.
  intro H. unfold prepared. rewrite immediateFeedback_log.
  open_tap w H. destruct pto; compute_ctl; split; solve_tap; reflexivity.
Qed.

Lemma tap_doubleTapEnter (B : Backend) (w : World) :
  tap_timer_inv w -> tap_timer_inv (doubleTapEnter B w).
Proof.
  intro H. open_tap w H. destruct svc; compute_ctl; solve_tap.
Qed.

Lemma tap_doubleTap (B : Backend) (w : World) :
  tap_timer_inv w -> tap_timer_inv (doubleTap B w).
Proof.
  intro H. open_tap w H.
  destruct svc as [[a tr rst sf ihf afb str]|]; compute_ctl;
    try destruct a; try destruct tr; try destruct sf; compute_ctl; solve_tap.
Qed.

Lemma tap_singleTap (B : Backend) (t : Z) (w : World) :
  pendingSingleTapTimeout (flags w) = None ->
  tap_timer_inv w -> tap_timer_inv (singleTap B t w).
Proof.
  intros Hn H. unfold singleTap. rewrite forEachWindow_log.
  open_tap w H. subst pto.
  destruct svc as [[a tr rst sf ihf afb str]|]; compute_ctl;
    try destruct a; try destruct tr; compute_ctl; solve_tap.
Qed.

Lemma tap_handsFreeExit (B : Backend) (w : World) :
  tap_timer_inv w -> tap_timer_inv (handsFreeExit B w).
Proof.
  intro H. open_tap w H.
  destruct pend, svc as [[a tr rst sf ihf afb str]|]; compute_ctl;
    try destruct a; try destruct tr; compute_ctl; solve_tap.
Qed.

Lemma tap_handleHotkeyDown (B : Backend) (t : Z) (w : World) :
  tap_timer_inv w -> tap_timer_inv (handleHotkeyDown B t w).
Proof.
  intro H.
  destruct (pendingStop w) eqn:Hp.
  - now rewrite handleHotkeyDown_dropped.
  - destruct (handsFree w) eqn:Hh.
    + rewrite handleHotkeyDown_handsFree by assumption.
      rewrite immediateFeedback_log.
      now apply tap_handsFreeExit, tap_set_log.
    + rewrite handleHotkeyDown_classified by assumption.
      destruct (tap_prepared w H) as [Hi Hn].
      destruct (doubleTapTest t w).
      * now apply tap_doubleTap.
      * now apply tap_singleTap.
Qed.

Lemma tap_handleHotkeyUp (B : Backend) (w : World) :
  tap_timer_inv w -> tap_timer_inv (handleHotkeyUp B w).
Proof.
  intro H. unfold handleHotkeyUp.
  rewrite forEachWindow_log, releaseFeedback_log.
  open_tap w H.
  destruct svc as [[a tr rst sf ihf afb str]|], hf, pend; compute_ctl;
    try destruct a; try destruct (truthy rst); compute_ctl; solve_tap.
Qed.

Lemma tap_stopHotkeyMonitoring (B : Backend) (w : World) :
  tap_timer_inv w -> tap_timer_inv (stopHotkeyMonitoring B w).
Proof.
  intro H. open_tap w H.
  destruct svc as [[a tr rst sf ihf afb str]|], monKey; compute_ctl;
    try destruct a; compute_ctl; solve_tap.
Qed.

Lemma tap_startHotkeyMonitoring (B : Backend) (w : World) :
  tap_timer_inv w -> tap_timer_inv (startHotkeyMonitoring B w).
Proof.
  intro H. unfold startHotkeyMonitoring.
  destruct (alreadyMonitoring w); [exact H|].
  assert (H1 : tap_timer_inv (if isHotkeyMonitoringActive (monitor w)
                             then stopHotkeyMonitoring B w else w))
    by (destruct (isHotkeyMonitoringActive (monitor w));
        [now apply tap_stopHotkeyMonitoring | exact H]).
  revert H1.
  generalize (if isHotkeyMonitoringActive (monitor w)
              then stopHotkeyMonitoring B w else w).
  intros v Hv.
  destruct (supportedKey (hotkey (env w))), (keyMonitorStarts (env w));
    open_tap v Hv; solve_tap.
Qed.

Lemma tap_runImmediate (B : Backend) (cb : Immediate) (w : World) :
  tap_timer_inv w ->
  tap_timer_inv (runImmediate B cb (set_immediates (tl (immediates w)) w)).
Proof.
  intro H. open_tap w H.
  destruct cb, svc, tut, onb; compute_ctl; solve_tap.
Qed.

Lemma tap_fireTimer (B : Backend) (h : nat) (cb : Timer) (w : World) :
  tap_timer_inv w -> find_timer h (timers w) = Some cb ->
  tap_timer_inv (fireTimer B cb (clearTimeout h w)).
Proof.
  intros H E. destruct (tap_fire _ _ _ h cb H E) as [_ K].
  assert (Kc : cb <> TmSingleTap -> tap_timer_inv (clearTimeout h w)).
  { intro Hc. destruct cb; try congruence; destruct w; exact K. }
  destruct cb; cbn [fireTimer].
  - destruct w as [[]]; exact K.
  - apply tap_doubleTapEnter, Kc. discriminate.
  - specialize (Kc ltac:(discriminate)). revert Kc.
    generalize (clearTimeout h w). intros v Hv. open_tap v Hv. exact Hv.
  - apply tap_startHotkeyMonitoring, Kc. discriminate.
Qed.

Lemma tap_settle (B : Backend) (k : nat) (ok : bool) (t : Z) (w : World) :
  tap_timer_inv w -> tap_timer_inv (settle B k ok t w).
Proof.
  intro H. unfold settle.
  destruct (nth_error (awaiting w) k) as [[gen c]|]; [|exact H].
  open_tap w H.
  destruct (Nat.eqb gen gen0), svc, c, ok; compute_ctl; solve_tap.
Qed.

Lemma tap_step (B : Backend) (e : Event) (w : World) :
  tap_timer_inv w -> tap_timer_inv (step B e w).
Proof.
  intro H. destruct e; cbn [step].
  - now apply tap_handleHotkeyDown.
  - now apply tap_handleHotkeyUp.
  - destruct (immediates w) as [|cb rest] eqn:E; [exact H|].
    replace rest with (tl (immediates w)) by now rewrite E.
    now apply tap_runImmediate.
  - destruct (find_timer h (timers w)) eqn:E; [|exact H].
    now apply tap_fireTimer.
  - now apply tap_settle.
  - now apply tap_startHotkeyMonitoring.
  - now apply tap_stopHotkeyMonitoring.
Qed.

Lemma tap_run (B : Backend) (es : list Event) (w : World) :
  tap_timer_inv w -> tap_timer_inv (run B es w).
Proof.
  revert w. induction es as [|e es IH]; intros w H; cbn; [exact H|].
  apply IH. now apply tap_step.
Qed.

(** X12.  The variable pendingSingleTapTimeout keeps track of the
    single-tap timer.  After any events, from the initial variables and
    with any behaviour of the service: a single-tap timer is outstanding
    exactly under the handle held in the variable, so there is at most one
    and the variable is null exactly when there is none; the single-tap
    callback, which sets the variable to null, therefore only ever runs
    for the timer the variable refers to, and never drops the handle of a
    later timer. *)
Theorem single_tap_timer_is_tracked
        (B : Backend) (e : Env) (es : list Event) (h : nat) :
  let w := run B es (initial e) in
  (In (h, TmSingleTap) (timers w)
   <-> pendingSingleTapTimeout (flags w) = Some h)
  /\ (forall h', In (h, TmSingleTap) (timers w) ->
                 In (h', TmSingleTap) (timers w) -> h' = h)
  /\ (find_timer h (timers w) = Some TmSingleTap ->
      pendingSingleTapTimeout (flags w) = Some h
      /\ forall h', ~ In (h', TmSingleTap)
                      (timers (step B (FireTimer h) w)))
  /\ (pendingSingleTapTimeout (flags w) = None ->
      forall h', find_timer h' (timers w) <> Some TmSingleTap).
Proof.
  intro w.
  assert (H : tap_timer_inv w) by apply tap_run, tap_initial.
  pose proof H as (Hf & Hd & Hi).
  split; [apply Hi|]. split; [|split].
  - intros h' H1 H2. apply Hi in H1, H2. congruence.
  - intro E. split; [now apply Hi, find_timer_In|].
    pose proof (tap_step B (FireTimer h) w H) as (_ & _ & Hi').
    intros h' Hin. apply Hi' in Hin. revert Hin.
    cbn [step]. rewrite E. cbn [fireTimer].
    destruct w as [[]]. cbn. discriminate.
  - intros En h' E. apply find_timer_In, Hi in E. congruence.
Qed.

(** ** AssistantProcessor: the two patterns *)

Lemma test_Empty (x : JsString) : test Empty x = false.
Proof. induction x; cbn; auto. Qed.

Lemma test_Eps (x : JsString) : test Eps x = true.
Proof. destruct x; reflexivity. Qed.

Lemma test_Alt (r s : Regex) (x : JsString) :
  test (Alt r s) x = test r x || test s x.
Proof.
  revert r s. induction x as [|c x IH]; intros r s; cbn.
  - now rewrite !orb_false_r.
  - rewrite IH.
    destruct (nullable r), (nullable s), (test (deriv c r) x),
             (test (deriv c s) x); reflexivity.
Qed.

Lemma test_Cat_Empty (r : Regex) (x : JsString) : test (Cat Empty r) x = false.
Proof.
  induction x as [|c x IH]; cbn; [reflexivity|].
  now rewrite test_Alt, IH, test_Empty.
Qed.

Lemma test_Cat_Eps (r : Regex) (x : JsString) : test (Cat Eps r) x = test r x.
Proof.
  destruct x as [|c x]; cbn; [now rewrite orb_false_r|].
  now rewrite test_Alt, test_Cat_Empty.
Qed.

Lemma test_Cat_Alt (a b r : Regex) (x : JsString) :
  test (Cat (Alt a b) r) x = test (Cat a r) x || test (Cat b r) x.
Proof.
  revert a b r. induction x as [|c x IH]; intros a b r.
  - cbn. destruct (nullable a), (nullable b), (nullable r); reflexivity.
  - cbn [test nullable deriv]. rewrite !test_Alt, IH.
    destruct (nullable a), (nullable b), (nullable r); cbn;
      rewrite ?test_Empty, ?orb_false_r, ?orb_true_r; auto;
      destruct (test (Cat (deriv c a) r) x), (test (Cat (deriv c b) r) x),
               (test (deriv c r) x); reflexivity.
Qed.

Lemma test_Cat_assoc (a b r : Regex) (x : JsString) :
  test (Cat (Cat a b) r) x = test (Cat a (Cat b r)) x.
Proof.
  revert a b r. induction x as [|c x IH]; intros a b r.
  - cbn. destruct (nullable a), (nullable b), (nullable r); reflexivity.
  - cbn [test nullable deriv]. rewrite !test_Alt, test_Cat_Alt, IH.
    destruct (nullable a), (nullable b), (nullable r); cbn;
      rewrite ?test_Alt, ?test_Empty, ?test_Cat_Empty, ?orb_false_r,
              ?orb_true_r; auto;
      repeat match goal with
             | |- context [test ?r ?y] =>
                 let b := fresh "b" in
                 generalize (test r y); intro b; destruct b
             end; reflexivity.
Qed.

Lemma test_Class (p : N -> bool) (x : JsString) :
  test (Class p) x = match x with c :: _ => p c | [] => false end.
Proof.
  destruct x as [|c x]; cbn; [reflexivity|].
  destruct (p c); [apply test_Eps | apply test_Empty].
Qed.

Lemma test_Class_Cat (p : N -> bool) (r : Regex) (x : JsString) :
  test (Cat (Class p) r) x
  = match x with c :: x' => p c && test r x' | [] => false end.
Proof.
  destruct x as [|c x]; cbn; [reflexivity|].
  rewrite test_Alt, test_Empty, orb_false_r.
  destruct (p c); [apply test_Cat_Eps | apply test_Cat_Empty].
Qed.

Lemma test_Star_Cat (p : N -> bool) (r : Regex) (x : JsString) :
  test (Cat (Star (Class p)) r) x
  = test r x
    || match x with
       | c :: x' => p c && test (Cat (Star (Class p)) r) x'
       | [] => false
       end.
Proof.
  destruct x as [|c x]; cbn; [now rewrite !orb_false_r|].
  rewrite test_Alt, test_Cat_assoc.
  destruct (p c).
  - rewrite test_Cat_Eps. cbn.
    destruct (nullable r); cbn; [reflexivity|]. apply orb_comm.
  - rewrite test_Cat_Empty. cbn. now rewrite orb_false_r.
Qed.

(** A literal followed by [r], against a string. *)
Lemma test_word_nil (r : Regex) (x : JsString) :
  test (Cat (word_of_units []) r) x = test r x.
Proof. apply test_Cat_Eps. Qed.

Lemma test_word_cons (a : N) (l : JsString) (r : Regex) (x : JsString) :
  test (Cat (word_of_units (a :: l)) r) x
  = match x with
    | c :: x' => letter a c && test (Cat (word_of_units l) r) x'
    | [] => false
    end.
Proof. cbn [word_of_units fold_right]. now rewrite test_Cat_assoc, test_Class_Cat. Qed.

Lemma test_word_only_cons (a : N) (l : JsString) (x : JsString) :
  test (word_of_units (a :: l)) x
  = match x with
    | c :: x' => letter a c && test (word_of_units l) x'
    | [] => false
    end.
Proof. cbn [word_of_units fold_right]. apply test_Class_Cat. Qed.

Lemma test_word_step (a : N) (l : JsString) (r : Regex) (c : N) (x : JsString) :
  test (Cat (word_of_units (a :: l)) r) (c :: x)
  = letter a c && test (Cat (word_of_units l) r) x.
Proof. apply test_word_cons. Qed.

Lemma separator_not_j (c : N) : separator c = true -> letter 106 c = false.
Proof.
  unfold separator, whiteSpace, letter. intro H.
  destruct (N.eqb_spec c 106) as [->|]; [discriminate H|].
  destruct (N.eqb_spec c (106 - 32)) as [->|]; [discriminate H|].
  reflexivity.
Qed.

Ltac eval_letters :=
  repeat match goal with
         | |- context [letter ?a ?c] =>
             let b := eval vm_compute in (letter a c) in
             change (letter a c) with b
         end.

(** The name, cut off after [k] code units, behind any separators. *)
Lemma test_name_cut (k : nat) (rest : JsString) :
  test (word "jarvis") (firstn k (units "jarvis" ++ rest)) = (6 <=? k)%nat.
Proof.
  change (units "jarvis") with [106; 97; 114; 118; 105; 115]%N.
  change (word "jarvis") with (word_of_units [106; 97; 114; 118; 105; 115]%N).
  do 6 (destruct k as [|k]; cbn [firstn app];
        rewrite test_word_only_cons; [reflexivity|]; eval_letters;
        cbn [andb]).
  cbn [word_of_units fold_right]. now rewrite test_Eps.
Qed.

Lemma test_separators_name (seps rest : JsString) (k : nat) :
  forallb separator seps = true ->
  test (Cat (Star (Class separator)) (word "jarvis"))
       (firstn k (seps ++ units "jarvis" ++ rest))
  = (List.length seps + 6 <=? k)%nat.
Proof.
  revert k. induction seps as [|c seps IH]; intros k Hs.
  - cbn [app List.length Nat.add]. rewrite test_Star_Cat, test_name_cut.
    destruct k as [|k]; [reflexivity|].
    change (units "jarvis") with [106; 97; 114; 118; 105; 115]%N.
    cbn [firstn app]. change (separator 106) with false.
    cbn [andb]. now rewrite orb_false_r.
  - cbn in Hs. apply andb_prop in Hs. destruct Hs as [Hc Hs].
    destruct k as [|k]; cbn [firstn app List.length].
    + rewrite test_Star_Cat. reflexivity.
    + rewrite test_Star_Cat, Hc, IH by exact Hs.
      change (word "jarvis") with (word_of_units [106; 97; 114; 118; 105; 115]%N).
      rewrite test_word_only_cons, (separator_not_j c Hc). reflexivity.
Qed.

Lemma separator_not_a (c : N) : separator c = true -> letter 97 c = false.
Proof.
  unfold separator, whiteSpace, letter. intro H.
  destruct (N.eqb_spec c 97) as [->|]; [discriminate H|].
  destruct (N.eqb_spec c (97 - 32)) as [->|]; [discriminate H|].
  reflexivity.
Qed.

(** After "ok", the rest of "okay" does not match separators or the name. *)
Lemma test_ay_separators (l : JsString) (r : Regex) (seps rest : JsString)
      (k : nat) :
  forallb separator seps = true ->
  test (Cat (word_of_units (97 :: l)%N) r)
       (firstn k (seps ++ units "jarvis" ++ rest)) = false.
Proof.
  intro Hs. rewrite test_word_cons.
  destruct k as [|k]; [reflexivity|].
  destruct seps as [|c seps].
  - reflexivity.
  - cbn in Hs. apply andb_prop in Hs. destruct Hs as [Hc _].
    cbn [firstn app]. now rewrite (separator_not_a c Hc).
Qed.

Ltac eval_chars :=
  repeat match goal with
         | |- context [letter ?a ?c] =>
             let b := eval vm_compute in (letter a c) in
             change (letter a c) with b
         | |- context [separator ?c] =>
             let b := eval vm_compute in (separator c) in
             change (separator c) with b
         end.

Ltac open_patterns :=
  unfold hasJarvisKeyword, greetingPattern, namePattern;
  change (word "hey") with (word_of_units [104; 101; 121]%N);
  change (word "hi") with (word_of_units [104; 105]%N);
  change (word "okay") with (word_of_units [111; 107; 97; 121]%N);
  change (word "ok") with (word_of_units [111; 107]%N);
  change (Cat (word "jarvis") (Class separator))
    with (Cat (word_of_units [106; 97; 114; 118; 105; 115]%N)
              (Class separator)).

Ltac same_leb :=
  rewrite ?orb_false_r, ?orb_false_l; cbn [String.length];
  match goal with
  | |- (?a <=? ?b)%nat = (?c <=? ?d)%nat =>
      destruct (Nat.leb_spec a b), (Nat.leb_spec c d); try reflexivity; lia
  end.

(** X13.  The keyword has to fit into the first 50 code units of the
    normalized text.  After one of the greetings hey, hi, okay, ok and any
    number of separators (white space, comma, full stop, hyphen), the name
    is recognized exactly when its last letter still lies within the first
    50 code units; nothing is asked of what follows the name, neither a
    separator nor a word boundary. *)
Theorem keyword_within_first_50 (g : string) (seps rest : JsString) :
  In g greetings -> forallb separator seps = true ->
  hasJarvisKeyword (units g ++ seps ++ units "jarvis" ++ rest)
  = (String.length g + List.length seps + 6 <=? 50)%nat.
Proof.
  intros Hg Hs.
  destruct Hg as [<-|[<-|[<-|[<-|[]]]]].
  - change (units "hey") with [104; 101; 121]%N.
    open_patterns. cbn [app]. rewrite !firstn_cons.
    rewrite !test_Cat_Alt, !test_word_step. eval_chars. cbn [andb orb].
    rewrite test_word_nil, test_separators_name by exact Hs.
    same_leb.
  - change (units "hi") with [104; 105]%N.
    open_patterns. cbn [app]. rewrite !firstn_cons.
    rewrite !test_Cat_Alt, !test_word_step. eval_chars. cbn [andb orb].
    rewrite test_word_nil, test_separators_name by exact Hs.
    same_leb.
  - change (units "okay") with [111; 107; 97; 121]%N.
    open_patterns. cbn [app]. rewrite !firstn_cons.
    rewrite !test_Cat_Alt, !test_word_step. eval_chars. cbn [andb orb].
    rewrite !test_word_nil, test_separators_name by exact Hs.
    rewrite test_Star_Cat.
    change (word "jarvis") with (word_of_units [106; 97; 114; 118; 105; 115]%N).
    rewrite test_word_only_cons. eval_chars. cbn [andb orb].
    same_leb.
  - change (units "ok") with [111; 107]%N.
    open_patterns. cbn [app]. rewrite !firstn_cons.
    rewrite !test_Cat_Alt, !test_word_step. eval_chars. cbn [andb orb].
    rewrite test_ay_separators by exact Hs.
    rewrite test_word_nil, test_separators_name by exact Hs.
    same_leb.
Qed.

Lemma keyword_within_first_50_witness :
  hasJarvisKeyword (units "hey" ++ units ", " ++ units "jarvis"
                      ++ units " open mail") = true
  /\ hasJarvisKeyword (units "ok" ++ repeat 32%N 43 ++ units "jarvis" ++ [])
     = false.
Proof.
  split.
  - exact (keyword_within_first_50 "hey" (units ", ") (units " open mail")
             (or_introl eq_refl) eq_refl).
  - exact (keyword_within_first_50 "ok" (repeat 32%N 43) []
             (or_intror (or_intror (or_intror (or_introl eq_refl)))) eq_refl).
Defined.

(** X14.  The name on its own is not a keyword.  A normalized text that
    begins with "jarvis" is recognized exactly when a separator follows
    the name: "jarvis, ..." and "jarvis ..." are, while the bare word, and
    the name followed by a question mark, an exclamation mark or a letter,
    are taken as dictation. *)
Theorem name_needs_a_separator (rest : JsString) :
  hasJarvisKeyword (units "jarvis" ++ rest)
  = match rest with
    | c :: _ => separator c
    | [] => false
    end.
Proof.
  change (units "jarvis") with [106; 97; 114; 118; 105; 115]%N.
  open_patterns. cbn [app]. rewrite !firstn_cons.
  rewrite !test_Cat_Alt, !test_word_step. eval_chars. cbn [andb orb].
  rewrite test_word_nil, test_Class.
  destruct rest; reflexivity.
Qed.

(** ** AssistantProcessor: vision queries *)

Lemma startsWith_spec (s k : JsString) :
  startsWith s k = true <-> exists v, s = k ++ v.
Proof.
  revert s. induction k as [|a k IH]; intro s; cbn.
  - split; [intros _; now exists s | reflexivity].
  - destruct s as [|c s].
    + split; [discriminate | intros (v & E); discriminate E].
    + rewrite andb_true_iff, N.eqb_eq, IH. split.
      * intros (-> & v & ->). now exists v.
      * intros (v & E). inversion E; subst. split; [reflexivity | now exists v].
Qed.

Lemma includes_spec (s k : JsString) :
  includes s k = true <-> exists u v, s = u ++ k ++ v.
Proof.
  induction s as [|c s IH]; cbn [includes].
  - rewrite orb_false_r, startsWith_spec. split.
    + intros (v & E). now exists [], v.
    + intros (u & v & E). destruct u; [now exists v|discriminate E].
  - rewrite orb_true_iff, startsWith_spec, IH. split.
    + intros [(v & E)|(u & v & E)].
      * now exists [], v.
      * exists (c :: u), v. now rewrite E.
    + intros (u & v & E). destruct u as [|c' u].
      * left. now exists v.
      * right. inversion E; subst. now exists u, v.
Qed.

Lemma includes_part (s a m b : JsString) :
  includes s (a ++ m ++ b) = true -> includes s m = true.
Proof.
  rewrite !includes_spec. intros (u & v & ->).
  exists (u ++ a), (b ++ v). now rewrite <- !app_assoc.
Qed.

Lemma includes_absorbed (s a m b : JsString) :
  includes s m || includes s (a ++ m ++ b) = includes s m.
Proof.
  destruct (includes s (a ++ m ++ b)) eqn:E.
  - now rewrite (includes_part s a m b E).
  - apply orb_false_r.
Qed.

(** X15.  Six of the eleven vision keywords decide nothing: each of them
    contains the keyword 'screen', so isVisionQuery answers as the five
    keywords 'screen', 'what do you see', 'what's displayed', 'see this'
    and 'what am i looking at' alone would.  In particular every query
    whose lower-case form contains 'screen' anywhere, inside a longer word
    too, is a vision query. *)
Theorem vision_keywords_absorbed (lowerQuery : JsString) :
  isVisionQuery lowerQuery
  = includes lowerQuery (units "screen")
    || includes lowerQuery (units "what do you see")
    || includes lowerQuery (units "what's displayed")
    || includes lowerQuery (units "see this")
    || includes lowerQuery (units "what am i looking at").
Proof.
  unfold isVisionQuery, visionKeywords. cbn [existsb].
  set (q := lowerQuery).
  pose proof (includes_absorbed q (units "see on my ") (units "screen") [])
    as H1.
  pose proof (includes_absorbed q (units "analyze my ") (units "screen") [])
    as H2.
  pose proof (includes_absorbed q [] (units "screen") (units "shot")) as H3.
  pose proof (includes_absorbed q (units "what's on ") (units "screen") [])
    as H4.
  pose proof (includes_absorbed q (units "look at my ") (units "screen") [])
    as H5.
  pose proof (includes_absorbed q (units "analyze this ") (units "screen") [])
    as H6.
  change (units "see on my " ++ units "screen" ++ [])
    with (units "see on my screen") in H1.
  change (units "analyze my " ++ units "screen" ++ [])
    with (units "analyze my screen") in H2.
  change ([] ++ units "screen" ++ units "shot")
    with (units "screenshot") in H3.
  change (units "what's on " ++ units "screen" ++ [])
    with (units "what's on screen") in H4.
  change (units "look at my " ++ units "screen" ++ [])
    with (units "look at my screen") in H5.
  change (units "analyze this " ++ units "screen" ++ [])
    with (units "analyze this screen") in H6.
  revert H1 H2 H3 H4 H5 H6.
  generalize (includes q (units "screen")) (includes q (units "see on my screen"))
             (includes q (units "what do you see"))
             (includes q (units "analyze my screen"))
             (includes q (units "screenshot"))
             (includes q (units "what's displayed"))
             (includes q (units "what's on screen"))
             (includes q (units "look at my screen"))
             (includes q (units "see this"))
             (includes q (units "analyze this screen"))
             (includes q (units "what am i looking at")).
  intros b1 b2 b3 b4 b5 b6 b7 b8 b9 b10 b11.
  destruct b1, b2, b3, b4, b5, b6, b7, b8, b9, b10, b11; cbn;
    intros; congruence.
Qed.

(** ** A release that comes before start() has resolved *)

Lemma handleHotkeyUp_early (B : Backend) (w : World) (s : PushToTalkService) :
  handsFree w = false -> pendingStop w = false ->
  pushToTalkService w = Some s ->
  active s && truthy (recordingStartTime s) = false ->
  pushToTalkService (handleHotkeyUp B w)
  = Some (set_startedFromSingleTap false s)
  /\ flags (handleHotkeyUp B w) = set_fnKeyPressed false (flags w)
  /\ awaiting (handleHotkeyUp B w) = awaiting w
  /\ serviceGen (handleHotkeyUp B w) = serviceGen w
  /\ timers (handleHotkeyUp B w) = timers w
  /\ uncaught (handleHotkeyUp B w) = uncaught w.
Proof.
  intros Hh Hp Hs Ha. unfold handleHotkeyUp.
  rewrite forEachWindow_log, releaseFeedback_log.
  open_world w. cbn in Hh, Hp, Hs. subst hf pend svc.
  destruct s as [a tr rst sf ihf afb str]. cbn in Ha.
  destruct a; compute_ctl; rewrite ?Ha; repeat split.
Qed.

Lemma settle_singleTap_last (B : Backend) (t : Z) (w : World)
      (old : list (nat * Cont)) :
  awaiting w = old ++ [(serviceGen w, AfterSingleTapStart)] ->
  awaiting (settle B (List.length old) true t w) = old
  /\ timers (settle B (List.length old) true t w) = timers w.
Proof.
  intro Ha. unfold settle. rewrite Ha, nth_error_last.
  open_world w. cbn in Ha. subst aws.
  destruct svc; compute_ctl; rewrite Nat.eqb_refl; cbn;
    (split; [apply remove_nth_last | reflexivity]).
Qed.

(** X16.  A tap released before start() has resolved is not stopped by
    the release.  From an idle controller, a key press outside the
    double-tap window issues start(); when the key is released while the
    service is not yet active with a start time, handleHotkeyUp calls no
    stop(), and when start() then resolves nothing is left outstanding:
    the service has received start() and no stop() or hardStop(), no
    promise is awaited, and the only timer the tap added is the single-tap
    timer.  As far as the controller goes, the recording that start()
    began goes on with the key up until another key press. *)
Theorem early_release_is_not_stopped
        (B : Backend) (w : World) (s : PushToTalkService) (t t1 : Z) :
  handsFree w = false -> pendingStop w = false -> ~ inWindow t w ->
  pushToTalkService w = Some s -> active s || transcribing s = false ->
  let s0 := start_called B (set_startedFromSingleTap true s) in
  active s0 && truthy (recordingStartTime s0) = false ->
  let w3 := run B [KeyDown t; KeyUp; Settle (List.length (awaiting w)) true t1]
                w in
  calls (log w3) = calls (log w) ++ [CallStart]
  /\ pushToTalkService w3
     = Some (start_settled B true t1 (set_startedFromSingleTap false s0))
  /\ awaiting w3 = awaiting w
  /\ timers w3 = timers (prepared w) ++ [(nextId w, TmSingleTap)]
  /\ handsFree w3 = false /\ pendingStop w3 = false
  /\ uncaught w3 = uncaught w.
Proof.
  intros Hh Hp Hw Hs Hb s0 Ha w3.
  set (w1 := handleHotkeyDown B t w).
  set (w2 := handleHotkeyUp B w1).
  assert (E3 : w3 = settle B (List.length (awaiting w)) true t1 w2)
    by reflexivity.
  destruct (prepared_fields w)
    as (Pl & Ps & Pe & _ & Ph & Pp & _ & Pa & Pn & Pg & Pu).
  assert (E1 : w1 = singleTap B t (prepared w)).
  { unfold w1. rewrite handleHotkeyDown_classified by assumption.
    apply doubleTapTest_false in Hw. now rewrite Hw. }
  rewrite <- Ps in Hs.
  destruct (singleTap_idle B t (prepared w) s Hs Hb)
    as (L1 & S1 & H1 & P1 & _ & A1 & _ & U1 & En1 & G1).
  destruct (singleTap_fields B t (prepared w)) as (T1 & _).
  rewrite <- E1 in L1, S1, H1, P1, A1, U1, En1, G1, T1.
  rewrite Pl, Pe in L1. rewrite Pa, Pg in A1. rewrite Pe in En1.
  rewrite Pn in T1. fold s0 in S1.
  assert (Hh1 : handsFree w1 = false) by congruence.
  assert (Hp1 : pendingStop w1 = false) by congruence.
  destruct (handleHotkeyUp_early B w1 s0 Hh1 Hp1 S1 Ha)
    as (S2 & F2 & A2 & G2 & T2 & U2).
  pose proof (handleHotkeyUp_log B w1) as L2.
  rewrite releaseDue_spec, Hh1, Hp1 in L2.
  unfold backendActive, hasStartTime in L2. rewrite S1 in L2.
  cbn [negb orb] in L2. rewrite andb_true_l, Ha, app_nil_r in L2.
  fold w2 in S2, F2, A2, G2, T2, U2, L2.
  assert (N2 : nth_error (awaiting w2) (List.length (awaiting w))
               = Some (serviceGen w2, AfterSingleTapStart)).
  { rewrite A2, A1, G2, G1, Pg. apply nth_error_last. }
  destruct (settle_singleTap_ok B (List.length (awaiting w)) t1 w2 _ N2 S2)
    as (L3 & S3 & F3 & En3 & U3).
  assert (A3 : awaiting w3 = awaiting w /\ timers w3 = timers w2).
  { rewrite E3. apply settle_singleTap_last. now rewrite A2, A1, G2, G1, Pg. }
  rewrite <- E3 in L3, S3, F3, U3.
  destruct (calls_blocks (env w)) as (b1 & b2 & _).
  destruct A3 as [A3 T3].
  split; [|split; [|split; [|split; [|split; [|split]]]]].
  - rewrite L3, L2, L1, !calls_app, calls_keyUpNotifications,
      calls_downFeedback, b1, b2.
    cbn. rewrite ?app_nil_r, <- ?app_assoc. reflexivity.
  - exact S3.
  - exact A3.
  - congruence.
  - unfold handsFree in *. rewrite F3, F2. cbn. exact Hh1.
  - unfold pendingStop in *. rewrite F3, F2. cbn. exact Hp1.
  - congruence.
Qed.

Lemma early_release_is_not_stopped_witness :
  calls (log (run ideal [KeyDown 1000; KeyUp; Settle 0 true 1001] ready))
  = [CallStart]
  /\ option_map active
       (pushToTalkService
          (run ideal [KeyDown 1000; KeyUp; Settle 0 true 1001] ready))
     = Some true.
Proof.
  assert (Hw : ~ inWindow 1000 ready) by (unfold inWindow; cbn; lia).
  destruct (early_release_is_not_stopped ideal ready
              (mkService false false None false false true false) 1000 1001
              eq_refl eq_refl Hw eq_refl eq_refl eq_refl) as (H & S & _).
  split; [exact H|]. exact (f_equal (option_map active) S).
Defined.

(** ** Key presses in event-loop order *)

Lemma step_RunImmediate_fields (B : Backend) (v : World) :
  flags (step B RunImmediate v) = flags v
  /\ timers (step B RunImmediate v) = timers v
  /\ nextId (step B RunImmediate v) = nextId v
  /\ env (step B RunImmediate v) = env v
  /\ isSome (pushToTalkService (step B RunImmediate v))
     = isSome (pushToTalkService v)
  /\ forall p : Action -> bool,
       p CallHardStop = false -> p (Send Waveform PushToTalkStart) = false ->
       count p (log (step B RunImmediate v)) = count p (log v).
Proof.
  cbn [step]. destruct (immediates v) as [|cb rest] eqn:E.
  - do 5 (split; [reflexivity|]). reflexivity.
  - clear E. open_world v.
    destruct cb, svc, tut, onb, wave; compute_ctl;
      do 5 (split; [reflexivity|]);
      intros q H1 H2; rewrite ?count_app; cbn; rewrite ?H1, ?H2; cbn; lia.
Qed.



(** A double tap with a session to cancel, its deferred hard stop and its
    timer, one after the other. *)
Lemma doubleTap_live_in_order (B : Backend) (v : World) (s : PushToTalkService) :
  fresh_timers v -> immediates v = [] ->
  pushToTalkService v = Some s -> liveSession v = true ->
  let w1 := doubleTap B v in
  let w2 := step B RunImmediate w1 in
  let w3 := step B (FireTimer (nextId v)) w2 in
  log w1 = log v ++ cancelMessages (env v)
  /\ immediates w1 = [ImmHardStop]
  /\ timers w1 = timers v ++ [(nextId v, TmAudioCleanup)]
  /\ flags w1 = flags v
  /\ log w2 = log w1 ++ [CallHardStop]
  /\ immediates w2 = []
  /\ timers w2 = timers w1
  /\ flags w2 = flags v
  /\ log w3 = log w2 ++ enterMessages (env v) ++ [CallStart]
  /\ handsFree w3 = true
  /\ lastPress w3 = 0
  /\ timers w3 = timers v
  /\ immediates w3 = [].
Proof.
  intros Hf Hi Hs Hl w1 w2 w3. subst w3 w2 w1.
  rewrite (doubleTap_live B v Hl).
  unfold fresh_timers in Hf.
  destruct v as [fl svc gen mo en imm tms aws nid lg unc].
  cbn in Hf, Hi, Hs. subst imm svc.
  set (s' := set_startedFromSingleTap false (set_active false (hardStop_done B s))).
  assert (E2 : step B RunImmediate
                 (mkWorld fl (Some s) gen mo en ([] ++ [ImmHardStop])
                    (tms ++ [(nid, TmAudioCleanup)]) aws (S nid)
                    (lg ++ cancelMessages en) unc)
               = mkWorld fl (Some s') gen mo en []
                   (tms ++ [(nid, TmAudioCleanup)]) aws (S nid)
                   ((lg ++ cancelMessages en) ++ [CallHardStop]) unc)
    by reflexivity.
  cbn [flags serviceGen monitor env immediates timers awaiting nextId log
       uncaught pushToTalkService].
  rewrite E2. cbn [step timers].
  rewrite find_timer_snoc by exact Hf. cbn [fireTimer].
  rewrite (doubleTapEnter_service B _ s') by reflexivity.
  unfold clearTimeout. cbn [timers]. rewrite filter_fresh_snoc by exact Hf.
  repeat split.
Qed.

Lemma doubleTap_in_order (B : Backend) (t : Z) (w : World) :
  Inv w -> handsFree w = false -> pendingStop w = false ->
  inWindow t w -> liveSession w = true -> immediates w = [] ->
  let w1 := handleHotkeyDown B t w in
  let w2 := step B RunImmediate w1 in
  let w3 := step B (FireTimer (nextId w)) w2 in
  log w1 = log w ++ downFeedback (env w) ++ cancelMessages (env w)
  /\ immediates w1 = [ImmHardStop]
  /\ timers w1 = timers (prepared w) ++ [(nextId w, TmAudioCleanup)]
  /\ handsFree w1 = false
  /\ log w2 = log w1 ++ [CallHardStop]
  /\ immediates w2 = []
  /\ timers w2 = timers w1
  /\ handsFree w2 = false
  /\ log w3 = log w2 ++ enterMessages (env w) ++ [CallStart]
  /\ handsFree w3 = true
  /\ lastPress w3 = 0
  /\ immediates w3 = [].
Proof.
  intros H Hh Hp Hw Hl Hi w1 w2 w3. subst w3 w2 w1.
  rewrite (handleHotkeyDown_classified B t w Hp Hh).
  apply doubleTapTest_spec in Hw. rewrite Hw.
  pose proof (Inv_prepared w H) as [Hf _].
  destruct (prepared_fields w)
    as (Pl & Ps & Pe & _ & Ph & _ & Pi & _ & Pn & _).
  destruct (liveSession_service w Hl) as [s Hs].
  assert (Hl' : liveSession (prepared w) = true)
    by (unfold liveSession in *; now rewrite Ps).
  rewrite <- Pn.
  destruct (doubleTap_live_in_order B (prepared w) s Hf)
    as (a1 & a2 & a3 & a4 & a5 & a6 & a7 & a8 & a9 & a10 & a11 & _ & a13);
    try congruence.
  unfold handsFree in *.
  rewrite a1, a2, a3, a4, a5, a6, a7, a8, a9, a11, a13, Pl, Pe, Pn.
  repeat split; try assumption; try congruence.
  now rewrite <- app_assoc.
Qed.











(** ** The deferred hard stop *)

(** C4, as stated, fails: the start() of the hands-free session does wait
    for the teardown.  Second press at 1300 with the first start()
    outstanding.  The handler returns without calling start(); the
    deferred callback calls hardStop(), and start() is still not issued:
    it is issued only when the 10 ms timer of the cancelling branch goes
    off.  With nothing to cancel, the same press calls start() in the
    handler. *)
Lemma start_waits_for_teardown :
  inWindow 1300 tapped /\ liveSession tapped = true
  /\ calls (log tapped) = [CallStart]
  /\ calls (log (handleHotkeyDown ideal 1300 tapped)) = [CallStart]
  /\ timers (handleHotkeyDown ideal 1300 tapped) = [(1%nat, TmAudioCleanup)]
  /\ calls (log (run ideal [KeyDown 1300; RunImmediate] tapped))
     = [CallStart; CallHardStop]
  /\ timers (run ideal [KeyDown 1300; RunImmediate] tapped)
     = [(1%nat, TmAudioCleanup)]
  /\ immediates (run ideal [KeyDown 1300; RunImmediate] tapped) = []
  /\ calls (log (run ideal [KeyDown 1300; RunImmediate; FireTimer 1] tapped))
     = [CallStart; CallHardStop; CallStart]
  /\ inWindow 1300 tapDone /\ liveSession tapDone = false
  /\ calls (log (handleHotkeyDown ideal 1300 tapDone))
     = calls (log tapDone) ++ [CallStart].
Proof.
  assert (E : lastPress tapped = 1000) by (vm_compute; reflexivity).
  assert (E' : lastPress tapDone = 1000) by (vm_compute; reflexivity).
  split; [unfold inWindow; rewrite E; lia|].
  do 8 (split; [vm_compute; reflexivity|]).
  split; [unfold inWindow; rewrite E'; lia|].
  split; vm_compute; reflexivity.
Qed.

(** C4, amended.  When a double tap finds a session to cancel,
    handleHotkeyDown calls neither hardStop() nor start(): it queues the
    hard stop with setImmediate, sends the cancellation, arms its 10 ms
    timer and returns, hands-free mode not yet on.  The queued callback
    is what calls hardStop().  The timer, which comes after the queued
    callback in the event loop, is what turns hands-free mode on and
    calls start(): the service gets hardStop() first and start() second. *)
Theorem hardStop_is_deferred (B : Backend) (t : Z) (w : World) :
  Inv w -> inWindow t w -> liveSession w = true -> immediates w = [] ->
  let w1 := handleHotkeyDown B t w in
  let w2 := step B RunImmediate w1 in
  let w3 := step B (FireTimer (nextId w)) w2 in
  calls (log w1) = calls (log w)
  /\ immediates w1 = [ImmHardStop]
  /\ (exists old, timers w1 = old ++ [(nextId w, TmAudioCleanup)])
  /\ handsFree w1 = false
  /\ calls (log w2) = calls (log w) ++ [CallHardStop]
  /\ immediates w2 = []
  /\ timers w2 = timers w1
  /\ handsFree w2 = false
  /\ calls (log w3) = calls (log w) ++ [CallHardStop; CallStart]
  /\ handsFree w3 = true.
Proof.
  intros H Hw Hl Hi w1 w2 w3.
  destruct (Inv_window t w H Hw) as [Hh Hp].
  destruct (doubleTap_in_order B t w H Hh Hp Hw Hl Hi)
    as (L1 & I1 & T1 & F1 & L2 & I2 & T2 & F2 & L3 & F3 & _).
  fold w1 in L1, I1, T1, F1, L2, I2, T2, F2, L3, F3.
  fold w2 in L2, I2, T2, F2, L3, F3. fold w3 in L3, F3.
  destruct (calls_blocks (env w)) as (_ & _ & b3 & b4 & _).
  assert (C1 : calls (log w1) = calls (log w)).
  { rewrite L1, !calls_app, calls_downFeedback, b3, !app_nil_r. reflexivity. }
  assert (C2 : calls (log w2) = calls (log w) ++ [CallHardStop]).
  { rewrite L2, calls_app, C1. reflexivity. }
  split; [exact C1|]. split; [exact I1|].
  split; [eexists; exact T1|]. split; [exact F1|].
  split; [exact C2|]. split; [exact I2|]. split; [exact T2|].
  split; [exact F2|]. split; [|exact F3].
  rewrite L3, !calls_app, C2, b4, <- app_assoc. reflexivity.
Qed.

Lemma hardStop_is_deferred_witness :
  calls (log (run ideal [KeyDown 1300; RunImmediate; FireTimer 1] tapped))
  = [CallStart; CallHardStop; CallStart].
Proof.
  assert (Hi : Inv tapped)
    by apply (Inv_run ideal), Inv_startHotkeyMonitoring, Inv_initial.
  assert (E : lastPress tapped = 1000) by (vm_compute; reflexivity).
  assert (Hw : inWindow 1300 tapped) by (unfold inWindow; rewrite E; lia).
  destruct (hardStop_is_deferred ideal 1300 tapped Hi Hw eq_refl eq_refl)
    as (_ & _ & _ & _ & _ & _ & _ & _ & H & _).
  exact H.
Defined.

(** ** Two presses within 20 ms *)

Lemma handleHotkeyUp_flags (B : Backend) (v : World) :
  flags (handleHotkeyUp B v) = set_fnKeyPressed false (flags v).
Proof.
  unfold handleHotkeyUp. rewrite forEachWindow_log, releaseFeedback_log.
  open_world v.
  destruct svc as [[a tr rst sf ihf afb str]|], hf, pend; compute_ctl;
    try destruct a; try destruct (truthy rst); reflexivity.
Qed.

Lemma settle_flags (B : Backend) (k : nat) (ok : bool) (t : Z) (v : World) :
  handsFree v = false -> pendingStop v = false ->
  handsFree (settle B k ok t v) = false
  /\ pendingStop (settle B k ok t v) = false
  /\ (lastPress (settle B k ok t v) = lastPress v
      \/ lastPress (settle B k ok t v) = 0).
Proof.
  intros Hh Hp. unfold settle.
  destruct (nth_error (awaiting v) k) as [[gen c]|]; [|auto].
  open_world v. cbn in Hh, Hp. subst hf pend. compute_ctl.
  destruct (Nat.eqb gen gen0), svc, c, ok; compute_ctl; auto.
Qed.

(** Key releases, deferred callbacks and settling promises leave the
    controller out of hands-free mode, and the recorded press as it is or
    reset to 0. *)
Lemma between_presses (B : Backend) (t : Z) (mid : list Event) (v : World) :
  forallb betweenPresses mid = true ->
  handsFree v = false -> pendingStop v = false ->
  lastPress v = t \/ lastPress v = 0 ->
  handsFree (run B mid v) = false
  /\ pendingStop (run B mid v) = false
  /\ (lastPress (run B mid v) = t \/ lastPress (run B mid v) = 0).
Proof.
  revert v. induction mid as [|e mid IH]; intros v Hm Hh Hp Hl.
  - auto.
  - cbn in Hm. apply andb_prop in Hm. destruct Hm as [He Hm].
    change (run B (e :: mid) v) with (run B mid (step B e v)).
    destruct e; try discriminate He; apply IH; try exact Hm.
    + unfold handsFree in *. cbn [step]. rewrite handleHotkeyUp_flags.
      cbn. exact Hh.
    + unfold pendingStop in *. cbn [step]. rewrite handleHotkeyUp_flags.
      cbn. exact Hp.
    + unfold lastPress in *. cbn [step]. rewrite handleHotkeyUp_flags.
      cbn. exact Hl.
    + destruct (step_RunImmediate_fields B v) as (a1 & _).
      unfold handsFree in *. now rewrite a1.
    + destruct (step_RunImmediate_fields B v) as (a1 & _).
      unfold pendingStop in *. now rewrite a1.
    + destruct (step_RunImmediate_fields B v) as (a1 & _).
      unfold lastPress in *. now rewrite a1.
    + now destruct (settle_flags B k ok t0 v Hh Hp).
    + now destruct (settle_flags B k ok t0 v Hh Hp) as (_ & ? & _).
    + destruct (settle_flags B k ok t0 v Hh Hp) as (_ & _ & [E|E]);
        cbn [step]; rewrite E; auto.
Qed.

Lemma singleTap_flags (B : Backend) (t : Z) (v : World) :
  handsFree (singleTap B t v) = handsFree v
  /\ pendingStop (singleTap B t v) = pendingStop v
  /\ lastPress (singleTap B t v) = t
  /\ immediates (singleTap B t v) = immediates v ++ [ImmAuthDown].
Proof.
  unfold singleTap. rewrite forEachWindow_log. open_world v.
  destruct svc as [[a tr rst sf ihf afb str]|];
    try destruct a; try destruct tr; repeat split.
Qed.

Lemma singleTap_no_service (B : Backend) (t : Z) (v : World) :
  pushToTalkService v = None ->
  log (singleTap B t v) = log v ++ tapBroadcast (env v) ++ startFeedback (env v).
Proof.
  intro Hs. unfold singleTap, tapBroadcast, startFeedback.
  rewrite forEachWindow_log.
  open_world v. cbn in Hs. subst svc.
  compute_ctl; split_ifs; norm_log; reflexivity.
Qed.

Lemma singleTap_no_dictationStart (B : Backend) (t : Z) (v : World) :
  count (sends DictationStart) (log (singleTap B t v))
  = count (sends DictationStart) (log v).
Proof.
  destruct (count_dictationStart_blocks (env v)) as (_ & g2 & g3 & g4 & _).
  destruct (pushToTalkService v) as [s|] eqn:Hs.
  - destruct (active s || transcribing s) eqn:Hb.
    + destruct (singleTap_busy B t v s Hs Hb) as (L & _).
      rewrite L, !count_app, g2, g3. cbn. lia.
    + destruct (singleTap_idle B t v s Hs Hb) as (L & _).
      rewrite L, !count_app, g2, g4. cbn. lia.
  - rewrite (singleTap_no_service B t v Hs), !count_app, g2, g4. lia.
Qed.

(** C5, amended.  A key press handled as a single tap (hands-free mode
    off, no hands-free stop pending, outside the double-tap window),
    then, with only key releases, deferred callbacks and settling promises
    in between, a second key press at most 20 ms after the first.  The
    second press is not a double tap: the controller stays out of
    hands-free mode, queues no hard stop and sends no dictation-start.
    It is not dropped either: it is handled by the single-tap path as any
    press outside the window is, and when the service is active or
    transcribing by then that path hard-stops it and sends
    push-to-talk-cancel. *)
Theorem bounce_is_a_separate_press
        (B : Backend) (t1 t2 : Z) (mid : list Event) (w : World) :
  handsFree w = false -> pendingStop w = false -> ~ inWindow t1 w ->
  forallb betweenPresses mid = true -> t2 - t1 <= 20 ->
  let w1 := run B mid (handleHotkeyDown B t1 w) in
  let w2 := handleHotkeyDown B t2 w1 in
  w2 = singleTap B t2 (prepared w1)
  /\ handsFree w2 = false
  /\ lastPress w2 = t2
  /\ immediates w2 = immediates w1 ++ [ImmAuthDown]
  /\ count (sends DictationStart) (log w2)
     = count (sends DictationStart) (log w1)
  /\ (serviceBusy w1 = true ->
      count isCallHardStop (log w2) = S (count isCallHardStop (log w1))
      /\ count isCallStart (log w2) = count isCallStart (log w1)
      /\ (non_null (waveformWindow (env w1)) = true ->
          count (sends PushToTalkCancel) (log w2)
          = S (count (sends PushToTalkCancel) (log w1)))
      /\ backendActive w2 = false).
Proof.
  intros Hh Hp Hw Hm Hd w1 w2.
  set (w0 := handleHotkeyDown B t1 w) in *.
  assert (E0 : w0 = singleTap B t1 (prepared w)).
  { unfold w0. rewrite handleHotkeyDown_classified by assumption.
    apply doubleTapTest_false in Hw. now rewrite Hw. }
  destruct (prepared_fields w) as (_ & _ & _ & _ & Ph0 & Pp0 & _).
  destruct (singleTap_flags B t1 (prepared w)) as (S1 & S2 & S3 & _).
  rewrite <- E0 in S1, S2, S3.
  destruct (between_presses B t1 mid w0 Hm) as (Hh1 & Hp1 & Hl1);
    [congruence | congruence | now left |].
  fold w1 in Hh1, Hp1, Hl1.
  assert (Hw1 : ~ inWindow t2 w1).
  { unfold inWindow. destruct Hl1 as [E|E]; rewrite E; lia. }
  assert (E : w2 = singleTap B t2 (prepared w1)).
  { unfold w2. rewrite handleHotkeyDown_classified by assumption.
    apply doubleTapTest_false in Hw1. now rewrite Hw1. }
  destruct (prepared_fields w1)
    as (Pl & Ps & Pe & _ & Ph & Pp & Pi & _).
  destruct (singleTap_flags B t2 (prepared w1)) as (F1 & _ & F3 & F4).
  rewrite <- E in F1, F3, F4.
  pose proof (singleTap_no_dictationStart B t2 (prepared w1)) as D.
  rewrite <- E, Pl in D.
  destruct (count_dictationStart_blocks (env w1)) as (g1 & g2 & g3 & _).
  split; [exact E|]. split; [congruence|]. split; [exact F3|].
  split; [congruence|].
  split; [rewrite D, count_app, g1; lia|].
  intro Hb. unfold serviceBusy in Hb.
  destruct (pushToTalkService w1) as [s|] eqn:Hs; [|discriminate].
  destruct (repress_cancels_active_session_core B t2 w1 s Hh1 Hp1 Hs Hb Hw1)
    as (L & S').
  fold w2 in L, S'.
  destruct (count_calls_in_blocks isCallHardStop (env w1))
    as (c1 & c2 & c3 & _); try reflexivity.
  destruct (count_calls_in_blocks isCallStart (env w1))
    as (d1 & d2 & d3 & _); try reflexivity.
  destruct (count_cancel_blocks (env w1)) as (e1 & e2 & _ & _ & e5).
  repeat split.
  - rewrite L, !count_app, c1, c2, c3. cbn. lia.
  - rewrite L, !count_app, d1, d2, d3. cbn. lia.
  - intros Hn. rewrite L, !count_app, e1, e2, e5, Hn. cbn. lia.
  - unfold backendActive. now rewrite S'.
Qed.

Lemma bounce_is_a_separate_press_witness :
  let w1 := run ideal [RunImmediate; Settle 0 true 1001]
                (handleHotkeyDown ideal 1000 ready) in
  count isCallHardStop (log (handleHotkeyDown ideal 1005 w1))
  = S (count isCallHardStop (log w1))
  /\ handsFree (handleHotkeyDown ideal 1005 w1) = false.
Proof.
  assert (Hw : ~ inWindow 1000 ready)
    by (unfold inWindow; vm_compute; intros (H & _); discriminate H).
  assert (Hd : 1005 - 1000 <= 20) by lia.
  destruct (bounce_is_a_separate_press ideal 1000 1005
              [RunImmediate; Settle 0 true 1001] ready
              eq_refl eq_refl Hw eq_refl Hd)
    as (_ & H2 & _ & _ & _ & H5).
  assert (Hb : serviceBusy
                 (run ideal [RunImmediate; Settle 0 true 1001]
                      (handleHotkeyDown ideal 1000 ready)) = true)
    by (vm_compute; reflexivity).
  destruct (H5 Hb) as (H & _). split; [exact H | exact H2].
Defined.
